(** * OIDC session check: a shallow embedding of sessionCheck.js and
      sessionCheckFrame.js, with the properties of the session-binding
      protocol engine stated and settled against it.

    Layout:
    - [JS]: the fragment of JavaScript the two scripts rely on (values,
      truthiness, strict equality, own-property reads, string helpers).
    - [Host]: the browser built-ins the scripts call but do not define.
    - [Frame]: sessionCheckFrame.js, the response verifier that runs in the
      hidden iframe.
    - [Main]: sessionCheck.js, the constructor, the cooldown gate, the
      dispatcher, the two result handlers and [destroy].
    - [Bundle]: sessionCheckGlobal.js, the browser bundle shipped next to
      the verifier, built from an earlier sessionCheck.js.
    - [Reference]: one concrete host used to run the examples.
    - [Examples]: the configurations, redirects and storage contents the
      properties are run on.

    Modelling conventions.
    - Numbers are integers or [NaN]; integers below 2^53 are exact in
      binary64, fractions and infinities are not modelled.
    - A read with a key written in the script ([e.data.message],
      [validationResponse.valid]) is the read of an own property. The two
      reads with a key computed at run time, the ledger entries
      [nonceMap[state]] and [subjectMap[state]], go through the prototype
      chain: a state such as [toString] finds a built-in.
    - Two objects or arrays are never strictly equal: every comparison in
      the scripts has operands coming from different allocations.
    - Caller-supplied handlers are opaque observers: a call is recorded,
      the handler does not re-enter the instance.
    - Calls into the DOM and XMLHttpRequest succeed: the document has a
      body, the iframe keeps its content window while it is attached, the
      request headers are well formed. *)

From Stdlib Require Import ZArith Lia Bool List Ascii.
From stdpp Require Import base strings gmap list pretty.

Set Warnings "-register-all".
Local Open Scope Z_scope.

(* ===================================================================== *)
(** ** The JavaScript fragment                                            *)
(* ===================================================================== *)

Module JS.

(** A JavaScript number: an integer, or NaN. *)
Inductive number : Type :=
| NaN
| Int (z : Z).

Inductive value : Type :=
| VUndefined
| VNull
| VBool (b : bool)
| VNum (n : number)
| VStr (s : string)
| VArr (elems : list value)
| VObj (props : list (string * value))
| VBuiltin (name : string).
  (* a built-in found on the prototype chain under [name]: a method such
     as [toString], or for [__proto__] the prototype object itself *)

(** What a [throw] carries: an Error object (name and message), or the
    bare string the constructor throws. *)
Inductive exn : Type :=
| Error (name message : string)
| ThrownString (s : string).

(** [e.message] inside a [catch (e)]. *)
Definition exn_message (e : exn) : value :=
  match e with
  | Error _ m => VStr m
  | ThrownString _ => VUndefined
  end.

(** Completion of an expression or statement that may throw. *)
Inductive completion (A : Type) : Type :=
| Normal (a : A)
| Throw (e : exn).
Arguments Normal {A} a.
Arguments Throw {A} e.

Definition bind {A B} (c : completion A) (k : A -> completion B) : completion B :=
  match c with
  | Normal a => k a
  | Throw e => Throw e
  end.

Definition TypeError (m : string) : exn := Error "TypeError" m.

(** ToBoolean: the test of [if], [!], [&&] and [||]. *)
Definition to_boolean (v : value) : bool :=
  match v with
  | VUndefined | VNull => false
  | VBool b => b
  | VNum NaN => false
  | VNum (Int z) => negb (z =? 0)
  | VStr s => negb (String.eqb s EmptyString)
  | VArr _ | VObj _ | VBuiltin _ => true
  end.

(** [a === b]. NaN differs from itself; objects, arrays and built-ins
    compare by reference and the operands of the scripts never alias. *)
Definition strict_eq (a b : value) : bool :=
  match a, b with
  | VUndefined, VUndefined => true
  | VNull, VNull => true
  | VBool x, VBool y => Bool.eqb x y
  | VNum (Int x), VNum (Int y) => x =? y
  | VStr x, VStr y => String.eqb x y
  | _, _ => false
  end.

(** [a || b] on values. *)
Definition or_else (a b : value) : value :=
  if to_boolean a then a else b.

(** Arithmetic and comparison on numbers. *)
Definition num_add (a b : number) : number :=
  match a, b with
  | Int x, Int y => Int (x + y)
  | _, _ => NaN
  end.

Definition num_mul (a b : number) : number :=
  match a, b with
  | Int x, Int y => Int (x * y)
  | _, _ => NaN
  end.

Definition num_lt (a b : number) : bool :=
  match a, b with
  | Int x, Int y => x <? y
  | _, _ => false
  end.

(** First binding of a key in a property list. *)
Fixpoint own_property (k : string) (props : list (string * value)) : option value :=
  match props with
  | [] => None
  | (k', v) :: rest => if String.eqb k k' then Some v else own_property k rest
  end.

(** The index an array or string has under property key [k], if any:
    the [i] below [len] whose decimal spelling is [k]. *)
Definition index_of_key (k : string) (len : nat) : option nat :=
  List.find (fun i => String.eqb (pretty i) k) (seq 0 len).

Definition string_chars (s : string) : list value :=
  List.map (fun c => VStr (String c EmptyString)) (String.list_ascii_of_string s).

Definition indexed_read (k : string) (items : list value) : value :=
  if String.eqb k "length" then VNum (Int (Z.of_nat (List.length items)))
  else match index_of_key k (List.length items) with
       | Some i => List.nth i items VUndefined
       | None => VUndefined
       end.

(** [v.k] for a key written in the script: the property [v] has of its
    own. Reading a property of [null] or [undefined] throws. The keys the
    scripts write (authId, message, reason, claims, valid, uid, nonce,
    sub) name no member of [Object.prototype] or [Array.prototype]; on a
    text [sub] names a built-in, which the one test that reads it treats
    like [undefined]. The scripts never read a member of a built-in. *)
Definition Get (v : value) (k : string) : completion value :=
  match v with
  | VUndefined => Throw (TypeError "Cannot read properties of undefined")
  | VNull => Throw (TypeError "Cannot read properties of null")
  | VBool _ | VNum _ | VBuiltin _ => Normal VUndefined
  | VStr s => Normal (indexed_read k (string_chars s))
  | VArr items => Normal (indexed_read k items)
  | VObj props => Normal (default VUndefined (own_property k props))
  end.

(** Whether [v] has a property of its own under key [k]. *)
Definition has_own (v : value) (k : string) : bool :=
  match v with
  | VObj props => bool_decide (is_Some (own_property k props))
  | VArr items =>
      String.eqb k "length"
      || bool_decide (is_Some (index_of_key k (List.length items)))
  | VStr s =>
      String.eqb k "length"
      || bool_decide (is_Some (index_of_key k (String.length s)))
  | VUndefined | VNull | VBool _ | VNum _ | VBuiltin _ => false
  end.

(** The members of [Object.prototype], which every value that has
    properties inherits. *)
Definition Object_prototype : list string :=
  ["constructor"; "hasOwnProperty"; "isPrototypeOf"; "propertyIsEnumerable";
   "toLocaleString"; "toString"; "valueOf"; "__proto__";
   "__defineGetter__"; "__defineSetter__"; "__lookupGetter__"; "__lookupSetter__"].

(** [s.split(sep)] for a one-character separator. *)
Fixpoint split (sep : Ascii.ascii) (s : string) : list string :=
  match s with
  | EmptyString => [EmptyString]
  | String c rest =>
      if Ascii.eqb c sep then EmptyString :: split sep rest
      else match split sep rest with
           | head :: tail => String c head :: tail
           | [] => [String c EmptyString]
           end
  end.

(** [s.replace(pat, rep)] for a one-character string pattern: only the
    first occurrence is replaced. *)
Fixpoint replace (pat : Ascii.ascii) (rep : string) (s : string) : string :=
  match s with
  | EmptyString => EmptyString
  | String c rest =>
      if Ascii.eqb c pat then rep +:+ rest
      else String c (replace pat rep rest)
  end.

(** ToString of a number, as string concatenation performs it. *)
Definition number_to_string (n : number) : string :=
  match n with
  | NaN => "NaN"
  | Int z => pretty z
  end.

(** An optional string field ([undefined] when absent). *)
Definition truthy (o : option string) : bool :=
  match o with
  | Some s => negb (String.eqb s EmptyString)
  | None => false
  end.

(** ToString of an optional string, as [+] performs it. *)
Definition str (o : option string) : string :=
  match o with
  | Some s => s
  | None => "undefined"
  end.

Definition opt_value (o : option string) : value :=
  match o with
  | Some s => VStr s
  | None => VUndefined
  end.

End JS.
Export JS.

Notation "'let*' x ':=' c 'in' k" := (bind c (fun x => k))
  (at level 10, x name, c at level 100, k at level 200).

(* ===================================================================== *)
(** ** Browser built-ins                                                  *)
(* ===================================================================== *)

(** The built-ins the scripts call. Their results are whatever the browser
    returns; every theorem below holds for all of them. *)
Class Host : Type := {
  (** [JSON.parse(text)]: a value, or a thrown SyntaxError. *)
  JSON_parse : string -> completion value;
  (** [atob(text)]: the decoded text, or a thrown InvalidCharacterError. *)
  atob : string -> completion string;
  (** ToNumber on a string. *)
  StringToNumber : string -> number;
  (** ToNumber on an array or an object (ToPrimitive first, which may
      throw). *)
  ObjectToNumber : value -> completion number;
  (** The absolute URL an anchor element reports for a relative [href]. *)
  resolve_href : string -> string;
  (** The names of the members of the prototype an array, a string, a
      number or a boolean has below [Object.prototype] ([Array.prototype]
      and the like): they depend on the edition the engine implements. *)
  prototype_members : value -> list string
}.

(** [Number(v)]. *)
Definition Number `{Host} (v : value) : completion number :=
  match v with
  | VUndefined => Normal NaN
  | VNull => Normal (Int 0)
  | VBool b => Normal (Int (if b then 1 else 0))
  | VNum n => Normal n
  | VStr s => Normal (StringToNumber s)
  | VArr _ | VObj _ | VBuiltin _ => ObjectToNumber v
  end.

(** Whether reading [v[k]] finds a member [v] inherits from a prototype
    rather than a property of its own. Objects obtained from [JSON.parse]
    have [Object.prototype] as their prototype. *)
Definition inherited `{Host} (v : value) (k : string) : bool :=
  negb (has_own v k)
  && (existsb (String.eqb k) Object_prototype
      || match v with
         | VUndefined | VNull | VObj _ => false
         | VBool _ | VNum _ | VStr _ | VArr _ | VBuiltin _ =>
             existsb (String.eqb k) (prototype_members v)
         end).

(** [v[k]] for a key computed at run time: the property [v] has of its
    own, or else the member found on its prototype chain. *)
Definition Get_computed `{Host} (v : value) (k : string) : completion value :=
  let* own := Get v k in
  Normal (if inherited v k then VBuiltin k else own).

(** [JSON.parse(sessionStorage.getItem(key))]: [getItem] returns [null] for
    a missing key, and [JSON.parse(null)] parses the text "null", which
    is [null]. *)
Definition JSON_parse_item `{Host} (item : option string) : completion value :=
  match item with
  | Some text => JSON_parse text
  | None => Normal VNull
  end.

(* ===================================================================== *)
(** ** sessionCheckFrame.js: the response verifier                        *)
(* ===================================================================== *)

Module Frame.
Section WithHost.
Context `{Host}.

(** The window the script runs in: the redirect target loaded in the
    hidden iframe. *)
Record window : Type := {
  parent_window_origin : string;   (* parent.window.origin *)
  window_origin : string;          (* window.origin, document.location.origin *)
  location_hash : string;          (* window.location.hash *)
  location_search : string         (* window.location.search *)
}.

(** What one run of the script does. *)
Inductive outcome : Type :=
| NotSameOrigin                                        (* the early return *)
| Uncaught (e : exn)                                   (* an exception escapes *)
| postMessage (message : value) (targetOrigin : string).

(** Simple jwt parsing code purely used for extracting claims. *)
Definition getIdTokenClaims (id_token : string) : completion value :=
  match split "."%char id_token !! 1%nat with
  | None => Throw (TypeError "Cannot read properties of undefined")
  | Some segment =>
      let* decoded := atob (replace "_"%char "/" (replace "-"%char "+" segment)) in
      JSON_parse decoded
  end.

(** The body of the [reduce] callback. *)
Definition add_entry (result : gmap string string) (entry : string)
  : gmap string string :=
  let pair := split "="%char entry in
  if truthy (pair !! 0%nat) && truthy (pair !! 1%nat)
  then <[str (pair !! 0%nat) := str (pair !! 1%nat)]> result
  else result.

Definition response_params (w : window) : gmap string string :=
  foldl add_entry ∅
    (split "&"%char
       (replace "#"%char EmptyString (location_hash w)
          +:+ ("&" +:+ replace "?"%char EmptyString (location_search w)))).

Definition failed_message (reason : string) (state : option string) : value :=
  VObj [("message", VStr "sessionCheckFailed");
        ("reason", VStr reason);
        ("authId", opt_value state)].

Definition error_message (error : string) : value :=
  VObj [("message", VStr "sessionCheckFailed");
        ("reason", VStr error)].

Definition succeeded_with_claims (new_claims : value) (state : option string) : value :=
  VObj [("message", VStr "sessionCheckSucceeded");
        ("claims", new_claims);
        ("authId", opt_value state)].

Definition succeeded_message (state : option string) : value :=
  VObj [("message", VStr "sessionCheckSucceeded");
        ("authId", opt_value state)].

(** The branch taken when [response_params.id_token] is set: the message
    to post, unless an exception escapes first. *)
Definition check_id_token (sessionStorage : gmap string string)
    (id_token : string) (state : option string) : completion value :=
  let* new_claims := getIdTokenClaims id_token in
  let* nonceMap := JSON_parse_item (sessionStorage !! "sessionCheckNonce") in
  let* recorded := Get_computed nonceMap (str state) in
  let* nonce := Get new_claims "nonce" in
  let* n := Number nonce in
  if negb (strict_eq recorded (VNum n)) then
    Normal (failed_message "nonce_mismatch" state)
  else
    let* subjectMap := JSON_parse_item (sessionStorage !! "sessionCheckSubject") in
    let* expected := Get_computed subjectMap (str state) in
    if to_boolean expected then
      let* sub := Get new_claims "sub" in
      if negb (strict_eq sub expected) then
        Normal (failed_message "subject_mismatch" state)
      else Normal (succeeded_with_claims new_claims state)
    else Normal (succeeded_with_claims new_claims state).

(** The whole script. *)
Definition sessionCheckFrame (w : window) (sessionStorage : gmap string string)
  : outcome :=
  if negb (String.eqb (parent_window_origin w) (window_origin w)) then
    NotSameOrigin
  else
    let response_params := response_params w in
    let state := response_params !! "state" in
    if truthy (response_params !! "id_token") then
      match check_id_token sessionStorage
              (str (response_params !! "id_token")) state with
      | Normal message => postMessage message (window_origin w)
      | Throw e => Uncaught e
      end
    else if truthy (response_params !! "error") then
      postMessage (error_message (str (response_params !! "error")))
                  (window_origin w)
    else
      postMessage (succeeded_message state) (window_origin w).

End WithHost.
End Frame.

(* ===================================================================== *)
(** ** sessionCheck.js: the session check instance                        *)
(* ===================================================================== *)

(** The [config] object passed to the constructor. String options are
    optional strings, handlers are recorded by presence, [cooldownPeriod]
    is kept as an arbitrary value because the constructor only tests its
    truthiness. *)
Module config.
Record t : Type := {
  subject : option string;
  invalidSessionHandler : bool;
  initialSessionSuccessHandler : bool;
  cooldownPeriod : value;
  amUrl : option string;
  ssoToken : option string;
  ssoTokenName : option string;
  opUrl : option string;
  responseType : option string;
  clientId : option string;
  authId : option string;
  idToken : option string;
  redirectUri : option string;
  scope : option string;
  sessionClaimsHandler : bool
}.
End config.

Module Main.

(** A call of one of the caller-supplied handlers, with its arguments. *)
Inductive call : Type :=
| invalidSessionHandler (reason : value) (request_check_count : Z)
| sessionClaimsHandler (claims : value) (request_check_count : Z)
| initialSessionSuccessHandler.

(** What the page can observe of the instance. *)
Inductive effect : Type :=
| Handler (c : call)
| Navigate (authorizationUrl : string)     (* iframe.contentWindow.location.replace *)
| XHR (method url : string) (headers : list (string * string))
| UncaughtError (e : exn).

(** The hidden iframe element. *)
Record Iframe : Type := {
  id : string;
  style : string
}.

(** The fields of [this]. A field the constructor never assigns reads
    [undefined], modelled as [None]. *)
Record instance : Type := {
  closure_config : config.t;           (* the [config] the handlers close over *)
  request_check_count : Z;
  cooldownPeriod : value;
  subject : option string;
  ssoTokenName : option string;
  ssoToken : option string;
  amUrl : option string;
  redirectUri : option string;
  idToken : option string;
  clientId : option string;
  authId : option string;
  opUrl : option string;
  responseType : option string;
  scope : option string;
  iframe : option Iframe;              (* [None]: undefined or null *)
  has_eventListenerHandle : bool;      (* this.eventListenerHandle is a function *)
  checkSessionTimestamp : option Z
}.

(** The instance together with the parts of the page it touches. *)
Record world : Type := {
  this : instance;
  document_location_origin : string;
  sessionStorage : gmap string string;
  document_body : list string;         (* ids of the iframes appended to body *)
  message_listener : bool;             (* the handle is registered on window *)
  pending_loads : nat                  (* requests sent, load event not yet fired *)
}.

Definition equals (s : string) (o : option string) : bool :=
  match o with
  | Some s' => String.eqb s' s
  | None => false
  end.

(** [a || b] on optional strings with a string default. *)
Definition or_default (a : option string) (b : string) : option string :=
  if truthy a then a else Some b.

Section WithHost.
Context `{Host}.

(** [config.invalidSessionHandler(reason, count)] without a guard: calling
    a missing handler throws. *)
Definition call_invalidSessionHandler (config : config.t) (reason : value)
    (count : Z) : completion (list call) :=
  if config.invalidSessionHandler config
  then Normal [invalidSessionHandler reason count]
  else Throw (TypeError "config.invalidSessionHandler is not a function").

(** [this.validationHandler], bound to [this]. *)
Definition validationHandler (this : instance) (responseText : string)
  : completion (list call) :=
  let config := closure_config this in
  match JSON_parse responseText with
  | Throw e =>
      call_invalidSessionHandler config (exn_message e) (request_check_count this)
  | Normal validationResponse =>
      let* valid := Get validationResponse "valid" in
      if negb (to_boolean valid) then
        call_invalidSessionHandler config (VStr "invalid_session")
          (request_check_count this)
      else
        let* uid := Get validationResponse "uid" in
        if truthy (subject this)
           && negb (strict_eq (opt_value (subject this)) uid) then
          call_invalidSessionHandler config (VStr "subject_mismatch")
            (request_check_count this)
        else if config.initialSessionSuccessHandler config
                && (request_check_count this =? 1) then
          Normal [initialSessionSuccessHandler]
        else Normal []
  end.

(** [this.eventListenerHandle], bound to [this], applied to a message
    event [e] with [e.origin] and [e.data]. *)
Definition eventListenerHandle (this : instance)
    (document_location_origin : string) (e_origin : string) (e_data : value)
  : completion (list call) :=
  let config := closure_config this in
  (* once e.data.authId has been read, no later read of e.data throws *)
  let* e_authId := Get e_data "authId" in
  if to_boolean e_authId
     && negb (strict_eq e_authId (opt_value (authId this))) then
    Normal []
  else if negb (String.eqb e_origin document_location_origin) then
    Normal []
  else
    let* e_message := Get e_data "message" in
    let* e_reason := Get e_data "reason" in
    let* e_claims := Get e_data "claims" in
    let on_failed :=
      if strict_eq e_message (VStr "sessionCheckFailed")
         && config.invalidSessionHandler config
      then [invalidSessionHandler e_reason (request_check_count this)]
      else [] in
    let on_succeeded :=
      if strict_eq e_message (VStr "sessionCheckSucceeded") then
        (if config.sessionClaimsHandler config && to_boolean e_claims
         then [sessionClaimsHandler e_claims (request_check_count this)]
         else [])
        ++ (if config.initialSessionSuccessHandler config
               && (request_check_count this =? 1)
            then [initialSessionSuccessHandler]
            else [])
      else [] in
    Normal (on_failed ++ on_succeeded).

(** The constructor, [new SessionCheck(config)]: the new world, or the
    thrown value. *)
Definition SessionCheck (config : config.t) (origin : string)
    (storage : gmap string string) : completion world :=
  let cooldown := or_else (config.cooldownPeriod config) (VNum (Int 5)) in
  if truthy (config.ssoToken config) then
    Normal {|
      this := {|
        closure_config := config;
        request_check_count := 0;
        cooldownPeriod := cooldown;
        subject := config.subject config;
        ssoTokenName := or_default (config.ssoTokenName config) "iPlanetDirectoryPro";
        ssoToken := config.ssoToken config;
        amUrl := Some (str (config.amUrl config) +:+ "/sessions?_action=validate");
        redirectUri := None; idToken := None; clientId := None;
        authId := None; opUrl := None; responseType := None; scope := None;
        iframe := None;
        has_eventListenerHandle := false;
        checkSessionTimestamp := None |};
      document_location_origin := origin;
      sessionStorage := storage;
      document_body := [];
      message_listener := false;
      pending_loads := 0 |}
  else
    let redirectUri_ :=
      if negb (truthy (config.redirectUri config))
      then Some (resolve_href "sessionCheck.html")
      else config.redirectUri config in
    let authId_ := or_default (config.authId config) "Primary" in
    let responseType_ := or_default (config.responseType config) "id_token" in
    if equals "none" responseType_ && negb (truthy (config.idToken config)) then
      Throw (ThrownString
        "When using the 'none' response type, you must supply an idToken value to use as a hint when calling the OP.")
    else
      let frame := {| id := "sessionCheckFrame-" +:+ str authId_;
                      style := "display:none" |} in
      Normal {|
        this := {|
          closure_config := config;
          request_check_count := 0;
          cooldownPeriod := cooldown;
          subject := config.subject config;
          ssoTokenName := None; ssoToken := None; amUrl := None;
          redirectUri := redirectUri_;
          idToken := config.idToken config;
          clientId := config.clientId config;
          authId := authId_;
          opUrl := config.opUrl config;
          responseType := responseType_;
          scope := if equals "id_token" responseType_
                   then or_default (config.scope config) "openid"
                   else None;
          iframe := Some frame;
          has_eventListenerHandle := true;
          checkSessionTimestamp := None |};
        document_location_origin := origin;
        sessionStorage :=
          if truthy (config.subject config)
          then <["sessionCheckSubject-" +:+ str authId_
                   := str (config.subject config)]> storage
          else storage;
        document_body := [id frame];
        message_listener := true;
        pending_loads := 0 |}.

(** Private function only to be called through [triggerSessionCheck]:
    starts the interaction with the identity provider. [nonce] is the
    value of [Math.floor(Math.random() * 100000)]. Returns the updated
    session storage and what was issued. *)
Definition sessionCheckRequest (config : instance) (nonce : Z)
    (storage : gmap string string) : gmap string string * list effect :=
  if truthy (ssoToken config) then
    (storage,
     [XHR "POST" (str (amUrl config))
          [(str (ssoTokenName config), str (ssoToken config));
           ("Accept-API-Version", "resource=2.1, protocol=1.0")]])
  else
    match iframe config with
    | None =>
        (* This session check instance has been destroyed *)
        (storage, [])
    | Some _ =>
        let authorizationUrl :=
          str (opUrl config) +:+ "?prompt=none"
          +:+ "&client_id=" +:+ str (clientId config)
          +:+ "&response_type=" +:+ str (responseType config)
          +:+ "&redirect_uri=" +:+ str (redirectUri config)
          +:+ "&state=" +:+ str (authId config) in
        let with_nonce := equals "id_token" (responseType config) in
        let storage' :=
          if with_nonce
          then <["sessionCheckNonce-" +:+ str (authId config)
                   := number_to_string (Int nonce)]> storage
          else storage in
        let authorizationUrl :=
          if with_nonce
          then authorizationUrl +:+ "&nonce=" +:+ number_to_string (Int nonce)
          else authorizationUrl in
        let authorizationUrl :=
          if truthy (scope config)
          then authorizationUrl +:+ "&scope=" +:+ str (scope config)
          else authorizationUrl in
        let authorizationUrl :=
          if truthy (idToken config)
          then authorizationUrl +:+ "&id_token_hint=" +:+ str (idToken config)
          else authorizationUrl in
        (storage', [Navigate authorizationUrl])
    end.

(** The test of [sessionCheckRequestCooldown]:
    [!this.checkSessionTimestamp ||
     (this.checkSessionTimestamp + (this.cooldownPeriod * 1000)) < timestamp]. *)
Definition cooldown_elapsed (this : instance) (timestamp : Z) : completion bool :=
  match checkSessionTimestamp this with
  | None => Normal true
  | Some last =>
      if negb (to_boolean (VNum (Int last))) then Normal true
      else
        let* period := Number (cooldownPeriod this) in
        Normal (num_lt (num_add (Int last) (num_mul period (Int 1000)))
                       (Int timestamp))
  end.

(** [this.checkSessionTimestamp = timestamp; this.request_check_count++]. *)
Definition accept (this : instance) (timestamp : Z) : instance :=
  {| closure_config := closure_config this;
     request_check_count := request_check_count this + 1;
     cooldownPeriod := cooldownPeriod this;
     subject := subject this;
     ssoTokenName := ssoTokenName this;
     ssoToken := ssoToken this;
     amUrl := amUrl this;
     redirectUri := redirectUri this;
     idToken := idToken this;
     clientId := clientId this;
     authId := authId this;
     opUrl := opUrl this;
     responseType := responseType this;
     scope := scope this;
     iframe := iframe this;
     has_eventListenerHandle := has_eventListenerHandle this;
     checkSessionTimestamp := Some timestamp |}.

Definition count_requests (effects : list effect) : nat :=
  List.length (List.filter (fun x => match x with XHR _ _ _ => true | _ => false end)
                           effects).

(** Helper function used to prevent simultaneous requests being issued.
    [timestamp] is the value of [(new Date()).getTime()]. *)
Definition sessionCheckRequestCooldown (w : world) (timestamp nonce : Z)
  : completion (world * list effect) :=
  let* elapsed := cooldown_elapsed (this w) timestamp in
  if elapsed then
    let this' := accept (this w) timestamp in
    let '(storage', effects) := sessionCheckRequest this' nonce (sessionStorage w) in
    Normal ({| this := this';
               document_location_origin := document_location_origin w;
               sessionStorage := storage';
               document_body := document_body w;
               message_listener := message_listener w;
               pending_loads := (pending_loads w + count_requests effects)%nat |},
            effects)
  else Normal (w, []).

(** [triggerSessionCheck()], called when the clock reads [timestamp]. *)
Definition triggerSessionCheck (w : world) (timestamp nonce : Z)
  : completion (world * list effect) :=
  sessionCheckRequestCooldown w timestamp nonce.

(** [this.iframe = null; this.eventListenerHandle = null]. *)
Definition released (this : instance) : instance :=
  {| closure_config := closure_config this;
     request_check_count := request_check_count this;
     cooldownPeriod := cooldownPeriod this;
     subject := subject this;
     ssoTokenName := ssoTokenName this;
     ssoToken := ssoToken this;
     amUrl := amUrl this;
     redirectUri := redirectUri this;
     idToken := idToken this;
     clientId := clientId this;
     authId := authId this;
     opUrl := opUrl this;
     responseType := responseType this;
     scope := scope this;
     iframe := None;
     has_eventListenerHandle := false;
     checkSessionTimestamp := checkSessionTimestamp this |}.

Fixpoint removeChild (child : string) (children : list string) : list string :=
  match children with
  | [] => []
  | c :: rest => if String.eqb c child then rest else c :: removeChild child rest
  end.

(** [destroy()]. Removing a listener that is [null] or not registered
    does nothing. *)
Definition destroy (w : world) : world :=
  {| this := released (this w);
     document_location_origin := document_location_origin w;
     sessionStorage :=
       delete ("sessionCheckNonce-" +:+ str (authId (this w)))
         (delete ("sessionCheckSubject-" +:+ str (authId (this w)))
            (sessionStorage w));
     document_body :=
       match iframe (this w) with
       | Some frame => removeChild (id frame) (document_body w)
       | None => document_body w
       end;
     message_listener :=
       if has_eventListenerHandle (this w) then false else message_listener w;
     pending_loads := pending_loads w |}.

(** What can happen to an instance once it is constructed. *)
Inductive event : Type :=
| trigger (timestamp nonce : Z)               (* triggerSessionCheck() *)
| teardown                                    (* destroy() *)
| message (e_origin : string) (e_data : value)  (* a message event on window *)
| load (responseText : string).               (* load event of a sent request *)

Definition handled (r : completion (list call)) : list effect :=
  match r with
  | Normal calls => List.map Handler calls
  | Throw e => [UncaughtError e]
  end.

Definition step (w : world) (ev : event) : world * list effect :=
  match ev with
  | trigger timestamp nonce =>
      match triggerSessionCheck w timestamp nonce with
      | Normal r => r
      | Throw e => (w, [UncaughtError e])
      end
  | teardown => (destroy w, [])
  | message e_origin e_data =>
      if message_listener w then
        (w, handled (eventListenerHandle (this w) (document_location_origin w)
                       e_origin e_data))
      else (w, [])
  | load responseText =>
      match pending_loads w with
      | O => (w, [])
      | S n =>
          ({| this := this w;
              document_location_origin := document_location_origin w;
              sessionStorage := sessionStorage w;
              document_body := document_body w;
              message_listener := message_listener w;
              pending_loads := n |},
           handled (validationHandler (this w) responseText))
      end
  end.

(** A sequence of events, with everything observed along the way. *)
Fixpoint run (w : world) (events : list event) : world * list effect :=
  match events with
  | [] => (w, [])
  | ev :: rest =>
      let '(w', effects) := step w ev in
      let '(w'', effects') := run w' rest in
      (w'', effects ++ effects')
  end.

Definition calls (effects : list effect) : list call :=
  List.concat (List.map (fun x => match x with Handler c => [c] | _ => [] end)
                        effects).

End WithHost.
End Main.

(* ===================================================================== *)
(** ** sessionCheckGlobal.js: the bundled build                           *)
(* ===================================================================== *)

(** The browser bundle shipped next to the verifier. It is built from an
    earlier sessionCheck.js: one instance per page, no check id, no
    request counter, no trusted-token mode. *)
Module Bundle.

(** A call of one of the caller-supplied handlers, with its argument. *)
Inductive call : Type :=
| invalidSessionHandler (reason : value)
| sessionClaimsHandler (claims : value).

Inductive effect : Type :=
| Handler (c : call)
| Navigate (authorizationUrl : string)     (* iframe.contentWindow.location.replace *)
| Warn (text : string)                     (* console.warn *)
| UncaughtError (e : exn).

Record instance : Type := {
  closure_config : config.t;           (* the [config] the listener closes over *)
  redirectUri : option string;
  subject : option string;
  idToken : option string;
  clientId : option string;
  opUrl : option string;
  responseType : option string;
  cooldownPeriod : value;
  scope : option string;
  iframe : option Main.Iframe;         (* [None]: null *)
  has_eventListenerHandle : bool;
  checkSessionTimestamp : option Z
}.

Record world : Type := {
  this : instance;
  document_location_origin : string;
  sessionStorage : gmap string string;
  document_body : list string;
  message_listener : bool
}.

Section WithHost.
Context `{Host}.

(** [this.eventListenerHandle] applied to a message event [e]. *)
Definition eventListenerHandle (this : instance)
    (document_location_origin : string) (e_origin : string) (e_data : value)
  : completion (list call) :=
  let config := closure_config this in
  if negb (String.eqb e_origin document_location_origin) then
    Normal []
  else
    (* once e.data.message has been read, no later read of e.data throws *)
    let* e_message := Get e_data "message" in
    let* e_reason := Get e_data "reason" in
    let* e_claims := Get e_data "claims" in
    let on_failed :=
      if strict_eq e_message (VStr "sessionCheckFailed")
         && config.invalidSessionHandler config
      then [invalidSessionHandler e_reason]
      else [] in
    let on_succeeded :=
      if strict_eq e_message (VStr "sessionCheckSucceeded")
         && config.sessionClaimsHandler config
      then [sessionClaimsHandler e_claims]
      else [] in
    Normal (on_failed ++ on_succeeded).

(** The constructor. *)
Definition SessionCheck (config : config.t) (origin : string)
    (storage : gmap string string) : completion world :=
  let redirectUri_ :=
    if negb (truthy (config.redirectUri config))
    then Some (resolve_href "sessionCheck.html")
    else config.redirectUri config in
  let responseType_ := Main.or_default (config.responseType config) "id_token" in
  if Main.equals "none" responseType_ && negb (truthy (config.idToken config)) then
    Throw (ThrownString
      "When using the 'none' response type, you must supply an idToken value to use as a hint when calling the OP.")
  else
    let frame := {| Main.id := "sessionCheckFrame" +:+ str (config.clientId config);
                    Main.style := "display:none" |} in
    Normal {|
      this := {|
        closure_config := config;
        redirectUri := redirectUri_;
        subject := config.subject config;
        idToken := config.idToken config;
        clientId := config.clientId config;
        opUrl := config.opUrl config;
        responseType := responseType_;
        cooldownPeriod := or_else (config.cooldownPeriod config) (VNum (Int 5));
        scope := if Main.equals "id_token" responseType_
                 then Main.or_default (config.scope config) "openid"
                 else None;
        iframe := Some frame;
        has_eventListenerHandle := true;
        checkSessionTimestamp := None |};
      document_location_origin := origin;
      sessionStorage :=
        if truthy (config.subject config)
        then <["sessionCheckSubject" := str (config.subject config)]> storage
        else storage;
      document_body := [Main.id frame];
      message_listener := true |}.

(** Private function only to be called through [triggerSessionCheck].
    [nonce] is the value of [Math.floor(Math.random() * 100000)]. *)
Definition idTokenRequest (config : instance) (nonce : Z)
    (storage : gmap string string) : gmap string string * list effect :=
  match iframe config with
  | None => (storage, [Warn "This session check instance has been destroyed"])
  | Some _ =>
      let authorizationUrl :=
        str (opUrl config) +:+ "?prompt=none"
        +:+ "&client_id=" +:+ str (clientId config)
        +:+ "&response_type=" +:+ str (responseType config)
        +:+ "&redirect_uri=" +:+ str (redirectUri config) in
      let with_nonce := Main.equals "id_token" (responseType config) in
      let storage' :=
        if with_nonce
        then <["sessionCheckNonce" := number_to_string (Int nonce)]> storage
        else storage in
      let authorizationUrl :=
        if with_nonce
        then authorizationUrl +:+ "&nonce=" +:+ number_to_string (Int nonce)
        else authorizationUrl in
      let authorizationUrl :=
        if truthy (scope config)
        then authorizationUrl +:+ "&scope=" +:+ str (scope config)
        else authorizationUrl in
      let authorizationUrl :=
        if truthy (idToken config)
        then authorizationUrl +:+ "&id_token_hint=" +:+ str (idToken config)
        else authorizationUrl in
      (storage', [Navigate authorizationUrl])
  end.

(** The test of [idTokenRequestCooldown]. *)
Definition cooldown_elapsed (this : instance) (timestamp : Z) : completion bool :=
  match checkSessionTimestamp this with
  | None => Normal true
  | Some last =>
      if negb (to_boolean (VNum (Int last))) then Normal true
      else
        let* period := Number (cooldownPeriod this) in
        Normal (num_lt (num_add (Int last) (num_mul period (Int 1000)))
                       (Int timestamp))
  end.

(** [this.checkSessionTimestamp = timestamp]. *)
Definition accept (this : instance) (timestamp : Z) : instance :=
  {| closure_config := closure_config this;
     redirectUri := redirectUri this;
     subject := subject this;
     idToken := idToken this;
     clientId := clientId this;
     opUrl := opUrl this;
     responseType := responseType this;
     cooldownPeriod := cooldownPeriod this;
     scope := scope this;
     iframe := iframe this;
     has_eventListenerHandle := has_eventListenerHandle this;
     checkSessionTimestamp := Some timestamp |}.

(** [triggerSessionCheck()], called when the clock reads [timestamp]. *)
Definition triggerSessionCheck (w : world) (timestamp nonce : Z)
  : completion (world * list effect) :=
  let* elapsed := cooldown_elapsed (this w) timestamp in
  if elapsed then
    let this' := accept (this w) timestamp in
    let '(storage', effects) := idTokenRequest this' nonce (sessionStorage w) in
    Normal ({| this := this';
               document_location_origin := document_location_origin w;
               sessionStorage := storage';
               document_body := document_body w;
               message_listener := message_listener w |},
            effects)
  else Normal (w, []).

(** [this.iframe = null; this.eventListenerHandle = null]. *)
Definition released (this : instance) : instance :=
  {| closure_config := closure_config this;
     redirectUri := redirectUri this;
     subject := subject this;
     idToken := idToken this;
     clientId := clientId this;
     opUrl := opUrl this;
     responseType := responseType this;
     cooldownPeriod := cooldownPeriod this;
     scope := scope this;
     iframe := None;
     has_eventListenerHandle := false;
     checkSessionTimestamp := checkSessionTimestamp this |}.

(** [destroy()]. *)
Definition destroy (w : world) : world :=
  {| this := released (this w);
     document_location_origin := document_location_origin w;
     sessionStorage := sessionStorage w;
     document_body :=
       match iframe (this w) with
       | Some frame => Main.removeChild (Main.id frame) (document_body w)
       | None => document_body w
       end;
     message_listener :=
       if has_eventListenerHandle (this w) then false else message_listener w |}.

Inductive event : Type :=
| trigger (timestamp nonce : Z)
| teardown
| message (e_origin : string) (e_data : value).

Definition step (w : world) (ev : event) : world * list effect :=
  match ev with
  | trigger timestamp nonce =>
      match triggerSessionCheck w timestamp nonce with
      | Normal r => r
      | Throw e => (w, [UncaughtError e])
      end
  | teardown => (destroy w, [])
  | message e_origin e_data =>
      if message_listener w then
        (w, match eventListenerHandle (this w) (document_location_origin w)
                    e_origin e_data with
            | Normal calls => List.map Handler calls
            | Throw e => [UncaughtError e]
            end)
      else (w, [])
  end.

Fixpoint run (w : world) (events : list event) : world * list effect :=
  match events with
  | [] => (w, [])
  | ev :: rest =>
      let '(w', effects) := step w ev in
      let '(w'', effects') := run w' rest in
      (w'', effects ++ effects')
  end.

(** Construction followed by a sequence of events. *)
Definition session (config : config.t) (origin : string)
    (storage : gmap string string) (events : list event)
  : completion (world * list effect) :=
  let* w := SessionCheck config origin storage in
  Normal (run w events).

End WithHost.
End Bundle.

(* ===================================================================== *)
(** ** A concrete host for the examples                                   *)
(* ===================================================================== *)

(** An executable stand-in for the built-ins, covering the texts the
    examples use: JSON without escapes, fractions or exponents; base64
    with the standard alphabet; decimal integers for ToNumber. A text
    outside this fragment is reported as malformed; the examples stay
    inside it. *)
Module Reference.

Definition dquote : Ascii.ascii := Ascii.ascii_of_nat 34.

(** The text [s] between double quotes. *)
Definition quoted (s : string) : string :=
  String dquote (s +:+ String dquote EmptyString).

Definition is_ws (c : Ascii.ascii) : bool :=
  let n := Ascii.nat_of_ascii c in
  Nat.eqb n 32 || Nat.eqb n 9 || Nat.eqb n 10 || Nat.eqb n 13.

Definition is_digit (c : Ascii.ascii) : bool :=
  let n := Ascii.nat_of_ascii c in
  Nat.leb 48 n && Nat.leb n 57.

Definition digit (c : Ascii.ascii) : Z :=
  Z.of_nat (Ascii.nat_of_ascii c) - 48.

Fixpoint skip_ws (s : list Ascii.ascii) : list Ascii.ascii :=
  match s with
  | c :: rest => if is_ws c then skip_ws rest else s
  | [] => []
  end.

Fixpoint strip_prefix (p s : list Ascii.ascii) : option (list Ascii.ascii) :=
  match p, s with
  | [], _ => Some s
  | a :: p', b :: s' => if Ascii.eqb a b then strip_prefix p' s' else None
  | _ :: _, [] => None
  end.

(** Digits read so far as [acc]; returns the number and the rest. *)
Fixpoint digits (acc : Z) (s : list Ascii.ascii) : Z * list Ascii.ascii :=
  match s with
  | c :: rest => if is_digit c then digits (10 * acc + digit c) rest else (acc, s)
  | [] => (acc, [])
  end.

(** An unsigned JSON integer: [0], or a non-zero digit followed by
    digits. *)
Definition unsigned (s : list Ascii.ascii) : option (Z * list Ascii.ascii) :=
  match s with
  | c :: rest =>
      if Ascii.eqb c "0" then Some (0, rest)
      else if is_digit c then Some (digits (digit c) rest)
      else None
  | [] => None
  end.

(** The characters up to the closing quote. *)
Fixpoint string_body (s : list Ascii.ascii) : option (string * list Ascii.ascii) :=
  match s with
  | [] => None
  | c :: rest =>
      if Ascii.eqb c dquote then Some (EmptyString, rest)
      else if Ascii.eqb c "\" then None
      else match string_body rest with
           | Some (text, rest') => Some (String c text, rest')
           | None => None
           end
  end.

(** A later binding of a key replaces the earlier one. *)
Fixpoint set_prop (k : string) (v : value) (props : list (string * value))
  : list (string * value) :=
  match props with
  | [] => [(k, v)]
  | (k', v') :: rest =>
      if String.eqb k k' then (k, v) :: rest else (k', v') :: set_prop k v rest
  end.

Section Parser.
Variable parse : list Ascii.ascii -> option (value * list Ascii.ascii).

(** Elements after the opening bracket, the array being non-empty. *)
Fixpoint elements (fuel : nat) (s : list Ascii.ascii)
  : option (list value * list Ascii.ascii) :=
  match fuel with
  | O => None
  | S fuel' =>
      match parse s with
      | None => None
      | Some (v, rest) =>
          match skip_ws rest with
          | c :: rest' =>
              if Ascii.eqb c "]" then Some ([v], rest')
              else if Ascii.eqb c "," then
                match elements fuel' rest' with
                | Some (vs, rest'') => Some (v :: vs, rest'')
                | None => None
                end
              else None
          | [] => None
          end
      end
  end.

(** Members after the opening brace, the object being non-empty. *)
Fixpoint members (fuel : nat) (props : list (string * value))
    (s : list Ascii.ascii) : option (list (string * value) * list Ascii.ascii) :=
  match fuel with
  | O => None
  | S fuel' =>
      match skip_ws s with
      | q :: rest =>
          if Ascii.eqb q dquote then
            match string_body rest with
            | Some (k, rest1) =>
                match skip_ws rest1 with
                | colon :: rest2 =>
                    if Ascii.eqb colon ":" then
                      match parse rest2 with
                      | Some (v, rest3) =>
                          match skip_ws rest3 with
                          | c :: rest4 =>
                              if Ascii.eqb c "}" then Some (set_prop k v props, rest4)
                              else if Ascii.eqb c "," then
                                members fuel' (set_prop k v props) rest4
                              else None
                          | [] => None
                          end
                      | None => None
                      end
                    else None
                | [] => None
                end
            | None => None
            end
          else None
      | [] => None
      end
  end.
End Parser.

Definition chars (s : string) : list Ascii.ascii := String.list_ascii_of_string s.

Fixpoint parse_value (fuel : nat) (s : list Ascii.ascii)
  : option (value * list Ascii.ascii) :=
  match fuel with
  | O => None
  | S fuel' =>
      match skip_ws s with
      | [] => None
      | c :: rest =>
          if Ascii.eqb c "{" then
            match skip_ws rest with
            | c' :: rest' =>
                if Ascii.eqb c' "}" then Some (VObj [], rest')
                else match members (parse_value fuel') fuel' [] rest with
                     | Some (props, rest'') => Some (VObj props, rest'')
                     | None => None
                     end
            | [] => None
            end
          else if Ascii.eqb c "[" then
            match skip_ws rest with
            | c' :: rest' =>
                if Ascii.eqb c' "]" then Some (VArr [], rest')
                else match elements (parse_value fuel') fuel' rest with
                     | Some (vs, rest'') => Some (VArr vs, rest'')
                     | None => None
                     end
            | [] => None
            end
          else if Ascii.eqb c dquote then
            match string_body rest with
            | Some (text, rest') => Some (VStr text, rest')
            | None => None
            end
          else if Ascii.eqb c "-" then
            match unsigned rest with
            | Some (n, rest') => Some (VNum (Int (- n)), rest')
            | None => None
            end
          else if is_digit c then
            match unsigned (c :: rest) with
            | Some (n, rest') => Some (VNum (Int n), rest')
            | None => None
            end
          else
            match strip_prefix (chars "null") (c :: rest) with
            | Some rest' => Some (VNull, rest')
            | None =>
                match strip_prefix (chars "true") (c :: rest) with
                | Some rest' => Some (VBool true, rest')
                | None =>
                    match strip_prefix (chars "false") (c :: rest) with
                    | Some rest' => Some (VBool false, rest')
                    | None => None
                    end
                end
            end
      end
  end.

Definition parse_json (text : string) : completion value :=
  match parse_value (S (String.length text)) (chars text) with
  | Some (v, rest) =>
      match skip_ws rest with
      | [] => Normal v
      | _ :: _ => Throw (Error "SyntaxError" "Unexpected non-whitespace character after JSON")
      end
  | None => Throw (Error "SyntaxError" "Unexpected token in JSON")
  end.

(** The six-bit value of a base64 character. *)
Definition sextet (c : Ascii.ascii) : option Z :=
  let n := Z.of_nat (Ascii.nat_of_ascii c) in
  if (65 <=? n) && (n <=? 90) then Some (n - 65)
  else if (97 <=? n) && (n <=? 122) then Some (n - 71)
  else if (48 <=? n) && (n <=? 57) then Some (n + 4)
  else if n =? 43 then Some 62
  else if n =? 47 then Some 63
  else None.

Definition byte (n : Z) : Ascii.ascii := Ascii.ascii_of_nat (Z.to_nat (n mod 256)).

Fixpoint octets (s : list Z) : option (list Ascii.ascii) :=
  match s with
  | [] => Some []
  | [_] => None
  | [a; b] => Some [byte (a * 4 + b / 16)]
  | [a; b; c] => Some [byte (a * 4 + b / 16); byte (b * 16 + c / 4)]
  | a :: b :: c :: d :: rest =>
      match octets rest with
      | Some tail =>
          Some (byte (a * 4 + b / 16) :: byte (b * 16 + c / 4)
                  :: byte (c * 64 + d) :: tail)
      | None => None
      end
  end.

Fixpoint sextets (s : list Ascii.ascii) : option (list Z) :=
  match s with
  | [] => Some []
  | c :: rest =>
      match sextet c, sextets rest with
      | Some n, Some ns => Some (n :: ns)
      | _, _ => None
      end
  end.

(** Up to two padding characters are dropped from a text whose length is
    a multiple of four. *)
Definition unpad (s : list Ascii.ascii) : list Ascii.ascii :=
  if Nat.eqb (List.length s mod 4) 0 then
    match List.rev s with
    | a :: b :: rest =>
        if Ascii.eqb a "=" then
          if Ascii.eqb b "=" then List.rev rest else List.rev (b :: rest)
        else s
    | _ => s
    end
  else s.

Definition decode_base64 (text : string) : completion string :=
  let s := unpad (List.filter (fun c => negb (is_ws c)) (chars text)) in
  match sextets s with
  | Some ns =>
      match octets ns with
      | Some bytes => Normal (String.string_of_list_ascii bytes)
      | None => Throw (Error "InvalidCharacterError" "The string to be decoded is not correctly encoded.")
      end
  | None => Throw (Error "InvalidCharacterError" "The string to be decoded is not correctly encoded.")
  end.

(** The members the fifth edition gives to [Array.prototype],
    [String.prototype] and [Number.prototype]. *)
Definition edition5_members (v : value) : list string :=
  match v with
  | VArr _ =>
      ["concat"; "join"; "pop"; "push"; "reverse"; "shift"; "slice"; "sort";
       "splice"; "unshift"; "indexOf"; "lastIndexOf"; "every"; "some";
       "forEach"; "map"; "filter"; "reduce"; "reduceRight"]
  | VStr _ =>
      ["charAt"; "charCodeAt"; "concat"; "indexOf"; "lastIndexOf";
       "localeCompare"; "match"; "replace"; "search"; "slice"; "split";
       "substring"; "toLowerCase"; "toLocaleLowerCase"; "toUpperCase";
       "toLocaleUpperCase"; "trim"]
  | VNum _ => ["toFixed"; "toExponential"; "toPrecision"]
  | VUndefined | VNull | VBool _ | VObj _ | VBuiltin _ => []
  end.

(** ToNumber on the empty text and on decimal integers. *)
Definition decimal (s : string) : number :=
  match skip_ws (chars s) with
  | [] => Int 0
  | c :: rest =>
      let '(sign, body) := if Ascii.eqb c "-" then (-1, rest) else (1, c :: rest) in
      match body with
      | d :: _ =>
          if is_digit d then
            let '(n, rest') := digits 0 body in
            match skip_ws rest' with
            | [] => Int (sign * n)
            | _ :: _ => NaN
            end
          else NaN
      | [] => NaN
      end
  end.

#[export] Instance host : Host := {|
  JSON_parse := parse_json;
  atob := decode_base64;
  StringToNumber := decimal;
  ObjectToNumber := fun _ => Normal NaN;
  resolve_href := fun href => "https://rp.example.com/" +:+ href;
  prototype_members := edition5_members
|}.

End Reference.

(* ===================================================================== *)
(** ** Vocabulary of the properties                                       *)
(* ===================================================================== *)

(** The value of claim [k] in a decoded claim set. *)
Definition claim (k : string) (claims : list (string * value)) : value :=
  default VUndefined (own_property k claims).


(** A verification request leaving the page: a navigation of the hidden
    iframe or a validation call. *)
Definition is_request (x : Main.effect) : bool :=
  match x with
  | Main.Navigate _ | Main.XHR _ _ _ => true
  | Main.Handler _ | Main.UncaughtError _ => false
  end.

Definition requests (effects : list Main.effect) : list Main.effect :=
  List.filter is_request effects.

(** The dispatcher of this instance would issue a request: the instance
    validates a session token, or still owns its iframe. *)
Definition live (this : Main.instance) : bool :=
  truthy (Main.ssoToken this) || bool_decide (is_Some (Main.iframe this)).

(** Construction followed by a sequence of events. *)
Definition session `{Host} (config : config.t) (origin : string)
    (storage : gmap string string) (events : list Main.event)
  : completion (Main.world * list Main.effect) :=
  let* w := Main.SessionCheck config origin storage in
  Normal (Main.run w events).

(** Handler calls, requests issued and the counter at the end of a
    session. *)
Definition summary (r : Main.world * list Main.effect)
  : list Main.call * nat * Z :=
  (Main.calls (snd r), List.length (requests (snd r)),
   Main.request_check_count (Main.this (fst r))).

(** How often the character [c] occurs in [s]. *)
Fixpoint occurrences (c : Ascii.ascii) (s : string) : nat :=
  match s with
  | EmptyString => 0
  | String a rest => ((if Ascii.eqb a c then 1 else 0) + occurrences c rest)%nat
  end.

(** The fields of an instance that only the constructor assigns. *)
Definition settings (this : Main.instance) :=
  (Main.closure_config this, Main.cooldownPeriod this, Main.subject this,
   Main.ssoTokenName this, Main.ssoToken this, Main.amUrl this,
   Main.redirectUri this, Main.idToken this, Main.clientId this,
   Main.authId this, Main.opUrl this, Main.responseType this, Main.scope this).

(** The two sessionStorage keys of an instance. *)
Definition subject_key (this : Main.instance) : string :=
  "sessionCheckSubject-" +:+ str (Main.authId this).

Definition nonce_key (this : Main.instance) : string :=
  "sessionCheckNonce-" +:+ str (Main.authId this).

(** The instance owns its hidden iframe, appended to the body, and its
    listener is registered. *)
Definition attached (w : Main.world) : Prop :=
  exists frame,
    Main.iframe (Main.this w) = Some frame
    /\ Main.document_body w = [Main.id frame]
    /\ Main.has_eventListenerHandle (Main.this w) = true
    /\ Main.message_listener w = true.

(** The instance holds nothing of the page. *)
Definition detached (w : Main.world) : Prop :=
  Main.iframe (Main.this w) = None
  /\ Main.document_body w = []
  /\ Main.has_eventListenerHandle (Main.this w) = false
  /\ Main.message_listener w = false.

(** What a destroyed instance of the bundle can still cause: the warning
    of the dispatcher, or an error of the gate. *)
Definition after_destroy (x : Bundle.effect) : Prop :=
  match x with
  | Bundle.Warn text => text = "This session check instance has been destroyed"
  | Bundle.UncaughtError _ => True
  | Bundle.Handler _ | Bundle.Navigate _ => False
  end.

(* ===================================================================== *)
(** ** Example inputs                                                     *)
(* ===================================================================== *)

Module Examples.
Import Reference.

Definition rp_origin : string := "https://rp.example.com".

(** The redirect target loaded in the hidden iframe with the given
    fragment and query string. *)
Definition redirect (hash search : string) : Frame.window :=
  {| Frame.parent_window_origin := rp_origin;
     Frame.window_origin := rp_origin;
     Frame.location_hash := hash;
     Frame.location_search := search |}.

(** Ledger of the verifier: nonce 42 and subject alice recorded for the
    check id Primary. *)
Definition ledger : gmap string string :=
  <["sessionCheckNonce" := "{" +:+ quoted "Primary" +:+ ":42}"]>
    (<["sessionCheckSubject" :=
         "{" +:+ quoted "Primary" +:+ ":" +:+ quoted "alice" +:+ "}"]> ∅).

(** Tokens whose claims segment is the base64 text of
    {sub: bob, nonce: 42} and of {sub: alice, nonce: 42}. *)
Definition bob_token : string := "e30.eyJzdWIiOiJib2IiLCJub25jZSI6NDJ9.c2ln".
Definition alice_token : string := "e30.eyJzdWIiOiJhbGljZSIsIm5vbmNlIjo0Mn0.c2ln".

Definition bob_claims : list (string * value) :=
  [("sub", VStr "bob"); ("nonce", VNum (Int 42))].
Definition alice_claims : list (string * value) :=
  [("sub", VStr "alice"); ("nonce", VNum (Int 42))].

Definition bob_response : Frame.window :=
  redirect ("#id_token=" +:+ bob_token +:+ "&state=Primary") EmptyString.
Definition alice_response : Frame.window :=
  redirect ("#id_token=" +:+ alice_token +:+ "&state=Primary") EmptyString.

(** A standards-based configuration with every handler supplied. *)
Definition standards (authId : string) : config.t :=
  {| config.subject := Some "alice";
     config.invalidSessionHandler := true;
     config.initialSessionSuccessHandler := true;
     config.cooldownPeriod := VNum (Int 5);
     config.amUrl := None;
     config.ssoToken := None;
     config.ssoTokenName := None;
     config.opUrl := Some "https://op.example.com/authorize";
     config.responseType := Some "id_token";
     config.clientId := Some "myRP";
     config.authId := Some authId;
     config.idToken := None;
     config.redirectUri := Some "https://rp.example.com/sessionCheck.html";
     config.scope := None;
     config.sessionClaimsHandler := true |}.

(** A trusted-token configuration. [responseType] is set although this
    mode never reads it. *)
Definition trusted : config.t :=
  {| config.subject := Some "alice";
     config.invalidSessionHandler := true;
     config.initialSessionSuccessHandler := true;
     config.cooldownPeriod := VNum (Int 5);
     config.amUrl := Some "https://am.example.com/am/json/realms/root";
     config.ssoToken := Some "AQIC5wM2LY4Sfcx";
     config.ssoTokenName := None;
     config.opUrl := None;
     config.responseType := Some "none";
     config.clientId := None;
     config.authId := None;
     config.idToken := None;
     config.redirectUri := None;
     config.scope := None;
     config.sessionClaimsHandler := false |}.

(** The same standards-based configuration with [cooldownPeriod: 0]. *)
Definition zero_cooldown : config.t :=
  {| config.subject := Some "alice";
     config.invalidSessionHandler := true;
     config.initialSessionSuccessHandler := true;
     config.cooldownPeriod := VNum (Int 0);
     config.amUrl := None;
     config.ssoToken := None;
     config.ssoTokenName := None;
     config.opUrl := Some "https://op.example.com/authorize";
     config.responseType := Some "id_token";
     config.clientId := Some "myRP";
     config.authId := Some "Primary";
     config.idToken := None;
     config.redirectUri := Some "https://rp.example.com/sessionCheck.html";
     config.scope := None;
     config.sessionClaimsHandler := true |}.

(** A standards-based configuration asking for [responseType: none]
    without an [idToken]. *)
Definition none_without_hint : config.t :=
  {| config.subject := None;
     config.invalidSessionHandler := true;
     config.initialSessionSuccessHandler := false;
     config.cooldownPeriod := VUndefined;
     config.amUrl := None;
     config.ssoToken := None;
     config.ssoTokenName := None;
     config.opUrl := Some "https://op.example.com/authorize";
     config.responseType := Some "none";
     config.clientId := Some "myRP";
     config.authId := None;
     config.idToken := None;
     config.redirectUri := None;
     config.scope := None;
     config.sessionClaimsHandler := false |}.

(** Validation responses of the session endpoint. *)
Definition invalid_response : string := "{" +:+ quoted "valid" +:+ ":false}".
Definition valid_response : string :=
  "{" +:+ quoted "valid" +:+ ":true," +:+ quoted "uid" +:+ ":" +:+ quoted "alice" +:+ "}".

(** A validation response whose validity flag is the text false, not the
    boolean: {valid: "false", uid: "alice"}. *)
Definition text_false_response : string :=
  "{" +:+ quoted "valid" +:+ ":" +:+ quoted "false" +:+ ","
      +:+ quoted "uid" +:+ ":" +:+ quoted "alice" +:+ "}".

(** The world [new SessionCheck(standards "Primary")] builds on an empty
    session storage. *)
Definition primary : Main.world :=
  {| Main.this :=
       {| Main.closure_config := standards "Primary";
          Main.request_check_count := 0;
          Main.cooldownPeriod := VNum (Int 5);
          Main.subject := Some "alice";
          Main.ssoTokenName := None;
          Main.ssoToken := None;
          Main.amUrl := None;
          Main.redirectUri := Some "https://rp.example.com/sessionCheck.html";
          Main.idToken := None;
          Main.clientId := Some "myRP";
          Main.authId := Some "Primary";
          Main.opUrl := Some "https://op.example.com/authorize";
          Main.responseType := Some "id_token";
          Main.scope := Some "openid";
          Main.iframe := Some {| Main.id := "sessionCheckFrame-Primary";
                                 Main.style := "display:none" |};
          Main.has_eventListenerHandle := true;
          Main.checkSessionTimestamp := None |};
     Main.document_location_origin := rp_origin;
     Main.sessionStorage := <["sessionCheckSubject-Primary" := "alice"]> ∅;
     Main.document_body := ["sessionCheckFrame-Primary"];
     Main.message_listener := true;
     Main.pending_loads := 0 |}.

(** The world [new SessionCheck(trusted)] builds. *)
Definition trusted_world : Main.world :=
  {| Main.this :=
       {| Main.closure_config := trusted;
          Main.request_check_count := 0;
          Main.cooldownPeriod := VNum (Int 5);
          Main.subject := Some "alice";
          Main.ssoTokenName := Some "iPlanetDirectoryPro";
          Main.ssoToken := Some "AQIC5wM2LY4Sfcx";
          Main.amUrl :=
            Some "https://am.example.com/am/json/realms/root/sessions?_action=validate";
          Main.redirectUri := None;
          Main.idToken := None;
          Main.clientId := None;
          Main.authId := None;
          Main.opUrl := None;
          Main.responseType := None;
          Main.scope := None;
          Main.iframe := None;
          Main.has_eventListenerHandle := false;
          Main.checkSessionTimestamp := None |};
     Main.document_location_origin := rp_origin;
     Main.sessionStorage := ∅;
     Main.document_body := [];
     Main.message_listener := false;
     Main.pending_loads := 0 |}.

(** The session storage sessionCheck.js leaves after [primary] dispatched
    a request with nonce 42. *)
Definition dispatched_storage : gmap string string :=
  <["sessionCheckNonce-Primary" := "42"]>
    (<["sessionCheckSubject-Primary" := "alice"]> ∅).

(** A verifier ledger that records a nonce for another check id only. *)
Definition other_ledger : gmap string string :=
  <["sessionCheckNonce" := "{" +:+ quoted "Other" +:+ ":7}"]> ∅.

(** A token whose claims segment is the base64 text of
    {sub: alice, nonce: true}, the response that carries it, and a ledger
    that records nonce 1 and subject alice for the check id Primary. *)
Definition coerced_token : string := "e30.eyJzdWIiOiJhbGljZSIsIm5vbmNlIjp0cnVlfQ.c2ln".

Definition coerced_response : Frame.window :=
  redirect ("#id_token=" +:+ coerced_token +:+ "&state=Primary") EmptyString.

Definition coerced_ledger : gmap string string :=
  <["sessionCheckNonce" := "{" +:+ quoted "Primary" +:+ ":1}"]>
    (<["sessionCheckSubject" :=
         "{" +:+ quoted "Primary" +:+ ":" +:+ quoted "alice" +:+ "}"]> ∅).

(** A response whose state is the name of a member of [Object.prototype],
    and a ledger that records nonce 42 for that state and no subject at
    all. *)
Definition member_response : Frame.window :=
  redirect ("#id_token=" +:+ alice_token +:+ "&state=toString") EmptyString.

Definition member_ledger : gmap string string :=
  <["sessionCheckNonce" := "{" +:+ quoted "toString" +:+ ":42}"]>
    (<["sessionCheckSubject" := "{}"]> ∅).


(** A redirect whose query string repeats a parameter of the fragment. *)
Definition overridden_response : Frame.window :=
  redirect "#state=Primary" "?state=Other".

(** A response whose id_token has no dot. *)
Definition malformed_response : Frame.window :=
  redirect "#id_token=e30&state=Primary" EmptyString.

(** A response whose claims segment uses the URL-safe alphabet twice. *)
Definition dashed_response : Frame.window :=
  redirect "#id_token=e30.a-b-c.c2ln&state=Primary" EmptyString.

(** A standards-based configuration for the [none] flow, with a scope. *)
Definition none_flow : config.t :=
  {| config.subject := None;
     config.invalidSessionHandler := true;
     config.initialSessionSuccessHandler := true;
     config.cooldownPeriod := VUndefined;
     config.amUrl := None;
     config.ssoToken := None;
     config.ssoTokenName := None;
     config.opUrl := Some "https://op.example.com/authorize";
     config.responseType := Some "none";
     config.clientId := Some "myRP";
     config.authId := None;
     config.idToken := Some alice_token;
     config.redirectUri := None;
     config.scope := Some "openid profile";
     config.sessionClaimsHandler := false |}.

(** The world [new SessionCheck(none_flow)] builds. *)
Definition none_flow_world : Main.world :=
  {| Main.this :=
       {| Main.closure_config := none_flow;
          Main.request_check_count := 0;
          Main.cooldownPeriod := VNum (Int 5);
          Main.subject := None;
          Main.ssoTokenName := None;
          Main.ssoToken := None;
          Main.amUrl := None;
          Main.redirectUri := Some "https://rp.example.com/sessionCheck.html";
          Main.idToken := Some alice_token;
          Main.clientId := Some "myRP";
          Main.authId := Some "Primary";
          Main.opUrl := Some "https://op.example.com/authorize";
          Main.responseType := Some "none";
          Main.scope := None;
          Main.iframe := Some {| Main.id := "sessionCheckFrame-Primary";
                                 Main.style := "display:none" |};
          Main.has_eventListenerHandle := true;
          Main.checkSessionTimestamp := None |};
     Main.document_location_origin := rp_origin;
     Main.sessionStorage := ∅;
     Main.document_body := ["sessionCheckFrame-Primary"];
     Main.message_listener := true;
     Main.pending_loads := 0 |}.

(** Three trigger calls, two and four seconds apart. *)
Definition checks : list Main.event :=
  [Main.trigger 1000 11; Main.trigger 3000 22; Main.trigger 7000 33].

(** The world the bundled build constructs from [standards "Primary"] on
    an empty session storage. *)
Definition bundled : Bundle.world :=
  {| Bundle.this :=
       {| Bundle.closure_config := standards "Primary";
          Bundle.redirectUri := Some "https://rp.example.com/sessionCheck.html";
          Bundle.subject := Some "alice";
          Bundle.idToken := None;
          Bundle.clientId := Some "myRP";
          Bundle.opUrl := Some "https://op.example.com/authorize";
          Bundle.responseType := Some "id_token";
          Bundle.cooldownPeriod := VNum (Int 5);
          Bundle.scope := Some "openid";
          Bundle.iframe := Some {| Main.id := "sessionCheckFramemyRP";
                                   Main.style := "display:none" |};
          Bundle.has_eventListenerHandle := true;
          Bundle.checkSessionTimestamp := None |};
     Bundle.document_location_origin := rp_origin;
     Bundle.sessionStorage := <["sessionCheckSubject" := "alice"]> ∅;
     Bundle.document_body := ["sessionCheckFramemyRP"];
     Bundle.message_listener := true |}.

End Examples.

(* ===================================================================== *)
(** ** The response verifier                                              *)
(* ===================================================================== *)

Section FrameFacts.
Context `{Host}.

Lemma truthy_Some (s : string) : s <> EmptyString -> truthy (Some s) = true.
Proof.
  intros Hs. unfold truthy.
  destruct (String.eqb_spec s EmptyString); [contradiction | reflexivity].
Qed.

Lemma truthy_str (o : option string) : truthy o = true -> str o <> EmptyString.
Proof.
  destruct o as [s|]; simpl; [|discriminate].
  destruct (String.eqb_spec s EmptyString); [discriminate | auto].
Qed.

(** The [reduce] callback only ever stores non-empty values. *)
Lemma add_entry_nonempty (m : gmap string string) (entry : string) :
  (forall k v, m !! k = Some v -> v <> EmptyString) ->
  forall k v, Frame.add_entry m entry !! k = Some v -> v <> EmptyString.
Proof.
  intros Hm k v. unfold Frame.add_entry.
  destruct (truthy (split "=" entry !! 0%nat) && truthy (split "=" entry !! 1%nat))
    eqn:E; [|apply Hm].
  apply andb_true_iff in E as [_ E1].
  rewrite lookup_insert. case_decide as Hk.
  - intros [= <-]. now apply truthy_str.
  - apply Hm.
Qed.

Lemma foldl_add_entry_nonempty (entries : list string) (m : gmap string string) :
  (forall k v, m !! k = Some v -> v <> EmptyString) ->
  forall k v, foldl Frame.add_entry m entries !! k = Some v -> v <> EmptyString.
Proof.
  revert m. induction entries as [|entry entries IH]; intros m Hm; simpl; [exact Hm|].
  apply IH. now apply add_entry_nonempty.
Qed.

(** A parameter that is present passes the truthiness tests of the script. *)
Lemma response_params_truthy (w : Frame.window) (k v : string) :
  Frame.response_params w !! k = Some v ->
  truthy (Frame.response_params w !! k) = true.
Proof.
  intros Hk. rewrite Hk. apply truthy_Some.
  revert Hk. unfold Frame.response_params. apply foldl_add_entry_nonempty.
  intros k' v'. rewrite lookup_empty. discriminate.
Qed.

(** With an [id_token] parameter, in a same-origin frame, the script is the
    id_token branch. *)
Lemma sessionCheckFrame_id_token (w : Frame.window) (storage : gmap string string)
    (id_token : string) :
  Frame.parent_window_origin w = Frame.window_origin w ->
  Frame.response_params w !! "id_token" = Some id_token ->
  Frame.sessionCheckFrame w storage
  = match Frame.check_id_token storage id_token
            (Frame.response_params w !! "state") with
    | Normal message => Frame.postMessage message (Frame.window_origin w)
    | Throw e => Frame.Uncaught e
    end.
Proof.
  intros Horigin Htoken. unfold Frame.sessionCheckFrame.
  rewrite Horigin, String.eqb_refl. simpl.
  rewrite (response_params_truthy _ _ _ Htoken), Htoken. reflexivity.
Qed.

(** Without an [id_token] parameter the ledger is not consulted: an
    [error] parameter is relayed as a failure with that reason, anything
    else as a success without claims. *)
Lemma sessionCheckFrame_without_id_token (w : Frame.window)
    (storage : gmap string string) :
  Frame.parent_window_origin w = Frame.window_origin w ->
  Frame.response_params w !! "id_token" = None ->
  Frame.sessionCheckFrame w storage
  = match Frame.response_params w !! "error" with
    | Some error => Frame.postMessage (Frame.error_message error) (Frame.window_origin w)
    | None =>
        Frame.postMessage (Frame.succeeded_message (Frame.response_params w !! "state"))
          (Frame.window_origin w)
    end.
Proof.
  intros Horigin Htoken. unfold Frame.sessionCheckFrame.
  rewrite Horigin, String.eqb_refl, Htoken. simpl.
  destruct (Frame.response_params w !! "error") as [error|] eqn:Herror.
  - rewrite <- Herror, (response_params_truthy _ _ _ Herror), Herror. reflexivity.
  - reflexivity.
Qed.

(** A computed read of a key the value does not inherit is the read of
    its own property. *)
Lemma Get_computed_own (v : value) (k : string) (x : value) :
  Get v k = Normal x -> inherited v k = false -> Get_computed v k = Normal x.
Proof. intros Hget Hown. unfold Get_computed. rewrite Hget, Hown. reflexivity. Qed.

Lemma Get_computed_inv (v : value) (k : string) (x : value) :
  Get_computed v k = Normal x ->
  (inherited v k = true /\ x = VBuiltin k)
  \/ (inherited v k = false /\ Get v k = Normal x).
Proof.
  unfold Get_computed. destruct (Get v k) as [own|e]; [|discriminate]. cbn [bind].
  destruct (inherited v k); intros [= <-]; auto.
Qed.

Lemma strict_eq_builtin (a : value) (k : string) :
  strict_eq a (VBuiltin k) = false /\ strict_eq (VBuiltin k) a = false.
Proof. destruct a as [| | |[|z]| | | |]; split; reflexivity. Qed.

(** C1, as amended. For every response that carries an id_token and is
    processed by the verifier, with the two ledgers stored in the form the
    verifier reads (JSON maps from state to nonce and to subject, under
    [sessionCheckNonce] and [sessionCheckSubject]) and a state that does
    not name a member the ledgers inherit: if the claim set's nonce,
    converted by [Number], is not strictly equal to the nonce recorded for
    the response's state, the verifier posts the failure [nonce_mismatch];
    otherwise, if a truthy subject is recorded for that state and is not
    strictly equal to the claim set's [sub], it posts the failure
    [subject_mismatch]; otherwise it posts the success with the full
    claim set. Each message carries the state as [authId] and goes to the
    frame's own origin. *)
Theorem C1_id_token_response_classification
    (w : Frame.window) (storage : gmap string string) (id_token : string)
    (new_claims : list (string * value)) (nonceMap recorded : value) (n : number) :
  let state := Frame.response_params w !! "state" in
  Frame.parent_window_origin w = Frame.window_origin w ->
  Frame.response_params w !! "id_token" = Some id_token ->
  Frame.getIdTokenClaims id_token = Normal (VObj new_claims) ->
  JSON_parse_item (storage !! "sessionCheckNonce") = Normal nonceMap ->
  Get nonceMap (str state) = Normal recorded ->
  inherited nonceMap (str state) = false ->
  Number (claim "nonce" new_claims) = Normal n ->
  (strict_eq recorded (VNum n) = false ->
   Frame.sessionCheckFrame w storage
   = Frame.postMessage
       (VObj [("message", VStr "sessionCheckFailed");
              ("reason", VStr "nonce_mismatch");
              ("authId", opt_value state)])
       (Frame.window_origin w))
  /\ (strict_eq recorded (VNum n) = true ->
      forall subjectMap expected : value,
        JSON_parse_item (storage !! "sessionCheckSubject") = Normal subjectMap ->
        Get subjectMap (str state) = Normal expected ->
        inherited subjectMap (str state) = false ->
        (to_boolean expected = true ->
         strict_eq (claim "sub" new_claims) expected = false ->
         Frame.sessionCheckFrame w storage
         = Frame.postMessage
             (VObj [("message", VStr "sessionCheckFailed");
                    ("reason", VStr "subject_mismatch");
                    ("authId", opt_value state)])
             (Frame.window_origin w))
        /\ (to_boolean expected = false
            \/ strict_eq (claim "sub" new_claims) expected = true ->
            Frame.sessionCheckFrame w storage
            = Frame.postMessage
                (VObj [("message", VStr "sessionCheckSucceeded");
                       ("claims", VObj new_claims);
                       ("authId", opt_value state)])
                (Frame.window_origin w))).
Proof.
  intros state Horigin Htoken Hclaims Hledger Hrecorded Hown Hnumber. subst state.
  rewrite (sessionCheckFrame_id_token w storage id_token Horigin Htoken).
  unfold Frame.check_id_token.
  rewrite Hclaims, Hledger. cbn [bind].
  rewrite (Get_computed_own _ _ _ Hrecorded Hown). cbn [bind Get].
  fold (claim "nonce" new_claims). rewrite Hnumber. cbn [bind].
  split.
  - intros ->. reflexivity.
  - intros -> subjectMap expected Hsubjects Hexpected Hown'. cbn [negb].
    rewrite Hsubjects. cbn [bind].
    rewrite (Get_computed_own _ _ _ Hexpected Hown'). cbn [bind].
    fold (claim "sub" new_claims).
    split.
    + intros -> ->. reflexivity.
    + intros [-> | ->]; [reflexivity|].
      destruct (to_boolean expected); reflexivity.
Qed.

(** A map ledger without an entry for the response's state: whatever the
    state names, the value read is not a number, and the verifier posts
    the failure [nonce_mismatch]. *)
Lemma unrecorded_state_is_nonce_mismatch
    (w : Frame.window) (storage : gmap string string) (id_token : string)
    (new_claims ledger : list (string * value)) (n : number) :
  Frame.parent_window_origin w = Frame.window_origin w ->
  Frame.response_params w !! "id_token" = Some id_token ->
  Frame.getIdTokenClaims id_token = Normal (VObj new_claims) ->
  Number (claim "nonce" new_claims) = Normal n ->
  JSON_parse_item (storage !! "sessionCheckNonce") = Normal (VObj ledger) ->
  own_property (str (Frame.response_params w !! "state")) ledger = None ->
  Frame.sessionCheckFrame w storage
  = Frame.postMessage
      (VObj [("message", VStr "sessionCheckFailed");
             ("reason", VStr "nonce_mismatch");
             ("authId", opt_value (Frame.response_params w !! "state"))])
      (Frame.window_origin w).
Proof.
  intros Horigin Htoken Hclaims Hnumber Hledger Hmissing.
  rewrite (sessionCheckFrame_id_token w storage id_token Horigin Htoken).
  unfold Frame.check_id_token.
  rewrite Hclaims, Hledger. cbn [bind]. unfold Get_computed.
  cbn [Get bind]. rewrite Hmissing. cbn [default from_option id].
  fold (claim "nonce" new_claims).
  destruct (inherited _ _); cbn [bind Get]; fold (claim "nonce" new_claims);
    rewrite Hnumber; reflexivity.
Qed.

End FrameFacts.

(* ===================================================================== *)
(** ** The constructor                                                    *)
(* ===================================================================== *)

Section ConstructorFacts.
Context `{Host}.

(** C5, as amended. When no session token is supplied, construction with
    responseType none and no idToken always fails by throwing; when a
    session token is supplied the instance is built in trusted-token mode,
    where responseType and idToken are not read, and construction
    succeeds; construction with responseType id_token always succeeds,
    with or without an idToken. *)
Theorem C5_none_requires_idToken :
  (forall (config : config.t) (origin : string) (storage : gmap string string),
      truthy (config.ssoToken config) = false ->
      config.responseType config = Some "none" ->
      truthy (config.idToken config) = false ->
      exists text : string,
        Main.SessionCheck config origin storage = Throw (ThrownString text))
  /\ (forall (config : config.t) (origin : string) (storage : gmap string string),
      truthy (config.ssoToken config) = true ->
      exists w : Main.world, Main.SessionCheck config origin storage = Normal w)
  /\ (forall (config : config.t) (origin : string) (storage : gmap string string),
      config.responseType config = Some "id_token" ->
      exists w : Main.world, Main.SessionCheck config origin storage = Normal w).
Proof.
  split; [|split].
  - intros config origin storage Hmode Htype Hhint.
    unfold Main.SessionCheck. rewrite Hmode, Htype, Hhint. simpl.
    eexists. reflexivity.
  - intros config origin storage Hmode.
    unfold Main.SessionCheck. rewrite Hmode. eexists. reflexivity.
  - intros config origin storage Htype.
    unfold Main.SessionCheck.
    destruct (truthy (config.ssoToken config)); [eexists; reflexivity|].
    rewrite Htype. simpl. eexists. reflexivity.
Qed.


Lemma SessionCheck_cooldownPeriod (config : config.t) (origin : string)
    (storage : gmap string string) (w : Main.world) :
  Main.SessionCheck config origin storage = Normal w ->
  Main.cooldownPeriod (Main.this w)
  = or_else (config.cooldownPeriod config) (VNum (Int 5))
  /\ Main.request_check_count (Main.this w) = 0.
Proof.
  unfold Main.SessionCheck.
  destruct (truthy (config.ssoToken config)).
  - intros [= <-]. split; reflexivity.
  - destruct (_ && _); [discriminate|].
    intros [= <-]. split; reflexivity.
Qed.

End ConstructorFacts.

(* ===================================================================== *)
(** ** The cooldown gate and the request counter                          *)
(* ===================================================================== *)

Section GateFacts.
Context `{Host}.


Lemma sessionCheckRequest_at_most_one (this : Main.instance) (nonce : Z)
    (storage : gmap string string) :
  (length (requests (snd (Main.sessionCheckRequest this nonce storage))) <= 1)%nat
  /\ Main.calls (snd (Main.sessionCheckRequest this nonce storage)) = [].
Proof.
  unfold Main.sessionCheckRequest.
  destruct (truthy (Main.ssoToken this)); [simpl; split; [lia|reflexivity]|].
  destruct (Main.iframe this); simpl; split; try lia; reflexivity.
Qed.

Lemma sessionCheckRequest_live (this : Main.instance) (nonce : Z)
    (storage : gmap string string) :
  live this = true ->
  length (requests (snd (Main.sessionCheckRequest this nonce storage))) = 1%nat.
Proof.
  unfold live, Main.sessionCheckRequest.
  destruct (truthy (Main.ssoToken this)); [reflexivity|].
  destruct (Main.iframe this); simpl; [reflexivity | discriminate].
Qed.

Lemma sessionCheckRequest_released (this : Main.instance) (nonce : Z)
    (storage : gmap string string) :
  live this = false ->
  Main.sessionCheckRequest this nonce storage = (storage, []).
Proof.
  unfold live, Main.sessionCheckRequest.
  destruct (truthy (Main.ssoToken this)); [discriminate|].
  destruct (Main.iframe this) as [fr|]; simpl; [discriminate | reflexivity].
Qed.


(** One trigger call as a step. *)
Lemma step_trigger (w : Main.world) (t n : Z) :
  Main.step w (Main.trigger t n)
  = match Main.cooldown_elapsed (Main.this w) t with
    | Normal true =>
        let r := Main.sessionCheckRequest (Main.accept (Main.this w) t) n
                   (Main.sessionStorage w) in
        ({| Main.this := Main.accept (Main.this w) t;
            Main.document_location_origin := Main.document_location_origin w;
            Main.sessionStorage := fst r;
            Main.document_body := Main.document_body w;
            Main.message_listener := Main.message_listener w;
            Main.pending_loads := (Main.pending_loads w + Main.count_requests (snd r))%nat |},
         snd r)
    | Normal false => (w, [])
    | Throw e => (w, [Main.UncaughtError e])
    end.
Proof.
  unfold Main.step, Main.triggerSessionCheck, Main.sessionCheckRequestCooldown.
  destruct (Main.cooldown_elapsed (Main.this w) t) as [[|]|e]; cbn [bind];
    [|reflexivity|reflexivity].
  destruct (Main.sessionCheckRequest _ _ _). reflexivity.
Qed.

Lemma sessionCheckRequest_standards (this : Main.instance) (nonce : Z)
    (storage : gmap string string) :
  truthy (Main.ssoToken this) = false ->
  Main.count_requests (snd (Main.sessionCheckRequest this nonce storage)) = 0%nat.
Proof.
  intros Hmode. unfold Main.sessionCheckRequest. rewrite Hmode.
  destruct (Main.iframe this); reflexivity.
Qed.

Lemma step_keeps_count (w : Main.world) (ev : Main.event) :
  (forall t n, ev <> Main.trigger t n) ->
  Main.request_check_count (Main.this (fst (Main.step w ev)))
  = Main.request_check_count (Main.this w).
Proof.
  intros Hev. destruct ev as [t n| |o d|text]; simpl.
  - now contradiction (Hev t n).
  - reflexivity.
  - destruct (Main.message_listener w); reflexivity.
  - destruct (Main.pending_loads w); reflexivity.
Qed.

(** C8, as amended. The counter counts the trigger calls that pass the
    cooldown gate: it starts at 0; a trigger call adds one exactly when the
    gate lets it through, immediately before the dispatcher runs, and a
    suppressed call leaves the instance untouched; while the instance can
    dispatch, every increment goes with exactly one request; a call let
    through after teardown of a standards-based instance still adds one
    although nothing is dispatched; no other event changes the counter. *)
Theorem C8_counter_counts_accepted_triggers :
  (forall (config : config.t) (origin : string) (storage : gmap string string)
          (w : Main.world),
      Main.SessionCheck config origin storage = Normal w ->
      Main.request_check_count (Main.this w) = 0)
  /\ (forall (w w' : Main.world) (now nonce : Z) (effects : list Main.effect),
      Main.triggerSessionCheck w now nonce = Normal (w', effects) ->
      exists elapsed : bool,
        Main.cooldown_elapsed (Main.this w) now = Normal elapsed
        /\ Main.request_check_count (Main.this w')
           = Main.request_check_count (Main.this w) + (if elapsed then 1 else 0)
        /\ (elapsed = false -> w' = w /\ effects = [])
        /\ (elapsed = true -> live (Main.this w) = true ->
            length (requests effects) = 1%nat)
        /\ (elapsed = true -> live (Main.this w) = false -> effects = []))
  /\ (forall (w : Main.world) (ev : Main.event),
      (forall t n, ev <> Main.trigger t n) ->
      Main.request_check_count (Main.this (fst (Main.step w ev)))
      = Main.request_check_count (Main.this w)).
Proof.
  split; [|split].
  - intros config origin storage w Hnew.
    now destruct (SessionCheck_cooldownPeriod _ _ _ _ Hnew).
  - intros w w' now nonce effects Htrigger.
    unfold Main.triggerSessionCheck, Main.sessionCheckRequestCooldown in Htrigger.
    destruct (Main.cooldown_elapsed (Main.this w) now) as [elapsed|e]; [|discriminate].
    cbn [bind] in Htrigger. exists elapsed. split; [reflexivity|].
    destruct elapsed.
    + destruct (Main.sessionCheckRequest (Main.accept (Main.this w) now) nonce
                  (Main.sessionStorage w)) as [storage' issued] eqn:Hreq.
      injection Htrigger as <- <-.
      cbn [Main.this Main.request_check_count Main.accept].
      split; [reflexivity|]. split; [discriminate|]. split.
      * intros _ Hlive.
        change issued with (snd (storage', issued)). rewrite <- Hreq.
        now apply sessionCheckRequest_live.
      * intros _ Hlive.
        rewrite sessionCheckRequest_released in Hreq by exact Hlive.
        now injection Hreq as _ <-.
    + injection Htrigger as <- <-. split; [lia|]. split; [now split|].
      split; discriminate.
  - apply step_keeps_count.
Qed.
End GateFacts.

(* ===================================================================== *)
(** ** The result handlers and teardown                                   *)
(* ===================================================================== *)

Section HandlerFacts.
Context `{Host}.

(** A relayed message that declares another check id is dropped. *)
Lemma eventListenerHandle_ignores_other_checkId (this : Main.instance)
    (origin e_origin : string) (e_data declared : value) :
  Get e_data "authId" = Normal declared ->
  to_boolean declared = true ->
  strict_eq declared (opt_value (Main.authId this)) = false ->
  Main.eventListenerHandle this origin e_origin e_data = Normal [].
Proof.
  intros Hget Htruthy Hother. unfold Main.eventListenerHandle.
  rewrite Hget. simpl. rewrite Htruthy, Hother. reflexivity.
Qed.

(** A message from another origin invokes no handler. *)
Lemma eventListenerHandle_ignores_other_origin (this : Main.instance)
    (origin e_origin : string) (e_data : value) :
  e_origin <> origin ->
  Main.handled (Main.eventListenerHandle this origin e_origin e_data) = []
  \/ exists e, Main.eventListenerHandle this origin e_origin e_data = Throw e.
Proof.
  intros Hother. unfold Main.eventListenerHandle.
  destruct (Get e_data "authId") as [declared|e]; [|right; eexists; reflexivity].
  left. simpl.
  destruct (to_boolean declared && _); [reflexivity|].
  destruct (String.eqb_spec e_origin origin); [contradiction|reflexivity].
Qed.

(** C7, as amended. In trusted-token mode, with the required failure
    handler supplied, for every validation response whose text does not
    parse to [null]: if [JSON.parse] throws on the raw text, the failure
    handler is invoked with the parser's message; if the text parses, the
    [valid] and [uid] properties of the value can be read, and: if
    [valid] is falsy or absent, the failure handler is invoked with
    reason [invalid_session]; if [valid] is truthy and a configured,
    non-empty subject is not strictly equal to [uid], it is invoked with
    [subject_mismatch]; otherwise the response is a success: no failure
    is reported and the first-success handler runs when the counter is 1.
    The flag is tested for truthiness, not for being [true]. *)
Theorem C7_validation_response_classification (this : Main.instance)
    (responseText : string) :
  config.invalidSessionHandler (Main.closure_config this) = true ->
  (forall e, JSON_parse responseText = Throw e ->
     Main.validationHandler this responseText
     = Normal [Main.invalidSessionHandler (exn_message e)
                 (Main.request_check_count this)])
  /\ (forall validationResponse,
        JSON_parse responseText = Normal validationResponse ->
        validationResponse <> VNull ->
        validationResponse <> VUndefined ->
        exists valid uid : value,
          Get validationResponse "valid" = Normal valid
          /\ Get validationResponse "uid" = Normal uid
          /\ (to_boolean valid = false ->
              Main.validationHandler this responseText
              = Normal [Main.invalidSessionHandler (VStr "invalid_session")
                          (Main.request_check_count this)])
          /\ (to_boolean valid = true ->
              truthy (Main.subject this) = true ->
              strict_eq (opt_value (Main.subject this)) uid = false ->
              Main.validationHandler this responseText
              = Normal [Main.invalidSessionHandler (VStr "subject_mismatch")
                          (Main.request_check_count this)])
          /\ (to_boolean valid = true ->
              truthy (Main.subject this) = false
              \/ strict_eq (opt_value (Main.subject this)) uid = true ->
              Main.validationHandler this responseText
              = Normal (if config.initialSessionSuccessHandler (Main.closure_config this)
                           && (Main.request_check_count this =? 1)
                        then [Main.initialSessionSuccessHandler]
                        else []))).
Proof.
  intros Hhandler. unfold Main.validationHandler, Main.call_invalidSessionHandler.
  rewrite Hhandler. split.
  - intros e ->. reflexivity.
  - intros v -> Hnull Hundefined.
    assert (Hget : forall k, exists x, Get v k = Normal x).
    { intros k. destruct v; try contradiction; eexists; reflexivity. }
    destruct (Hget "valid") as [valid Hvalid], (Hget "uid") as [uid Huid].
    exists valid, uid. rewrite Hvalid, Huid. cbn [bind].
    split; [reflexivity|]. split; [reflexivity|]. split; [|split].
    + intros ->. reflexivity.
    + intros -> -> ->. reflexivity.
    + intros -> [-> | ->]; cbn [negb andb].
      * destruct (_ && _); reflexivity.
      * rewrite andb_false_r. destruct (_ && _); reflexivity.
Qed.

(** State of a standards-based instance that is kept by every event: no
    session token, no request in flight, and the listener registered only
    while the instance holds its handle. *)
Lemma step_standards (w : Main.world) (ev : Main.event) :
  truthy (Main.ssoToken (Main.this w)) = false ->
  Main.pending_loads w = 0%nat ->
  (Main.message_listener w = true -> Main.has_eventListenerHandle (Main.this w) = true) ->
  truthy (Main.ssoToken (Main.this (fst (Main.step w ev)))) = false
  /\ Main.pending_loads (fst (Main.step w ev)) = 0%nat
  /\ (Main.message_listener (fst (Main.step w ev)) = true ->
      Main.has_eventListenerHandle (Main.this (fst (Main.step w ev))) = true).
Proof.
  intros Hmode Hpending Hhandle.
  destruct ev as [t n| |o d|text].
  - rewrite step_trigger.
    destruct (Main.cooldown_elapsed (Main.this w) t) as [[|]|e];
      [|cbn; repeat split; auto|cbn; repeat split; auto].
    cbn. rewrite sessionCheckRequest_standards by exact Hmode.
    rewrite Hpending. repeat split; auto.
  - cbn. split; [exact Hmode|]. split; [exact Hpending|].
    destruct (Main.has_eventListenerHandle (Main.this w)); [discriminate|].
    intros Hl. specialize (Hhandle Hl). discriminate.
  - cbn. destruct (Main.message_listener w) eqn:E; cbn; rewrite ?E; repeat split; auto.
  - cbn. rewrite Hpending. cbn. repeat split; auto.
Qed.

(** Once released, a standards-based instance stays released and silent. *)
Lemma step_released (w : Main.world) (ev : Main.event) :
  truthy (Main.ssoToken (Main.this w)) = false ->
  Main.pending_loads w = 0%nat ->
  Main.message_listener w = false ->
  Main.iframe (Main.this w) = None ->
  (truthy (Main.ssoToken (Main.this (fst (Main.step w ev)))) = false
   /\ Main.pending_loads (fst (Main.step w ev)) = 0%nat
   /\ Main.message_listener (fst (Main.step w ev)) = false
   /\ Main.iframe (Main.this (fst (Main.step w ev))) = None)
  /\ Main.calls (snd (Main.step w ev)) = []
  /\ requests (snd (Main.step w ev)) = [].
Proof.
  intros Hmode Hpending Hlistener Hframe.
  destruct ev as [t n| |o d|text].
  - rewrite step_trigger.
    destruct (Main.cooldown_elapsed (Main.this w) t) as [[|]|e];
      [|cbn; repeat split; auto|cbn; repeat split; auto].
    rewrite sessionCheckRequest_released.
    + cbn. rewrite Hpending. repeat split; auto.
    + unfold live. cbn. rewrite Hmode, Hframe. reflexivity.
  - cbn. rewrite Hlistener.
    destruct (Main.has_eventListenerHandle (Main.this w)); cbn; repeat split; auto.
  - cbn. rewrite Hlistener. cbn. repeat split; auto.
  - cbn. rewrite Hpending. cbn. repeat split; auto.
Qed.

Lemma run_released (events : list Main.event) (w : Main.world) :
  truthy (Main.ssoToken (Main.this w)) = false ->
  Main.pending_loads w = 0%nat ->
  Main.message_listener w = false ->
  Main.iframe (Main.this w) = None ->
  Main.calls (snd (Main.run w events)) = []
  /\ requests (snd (Main.run w events)) = [].
Proof.
  revert w. induction events as [|ev events IH]; intros w Hmode Hpending Hlistener Hframe.
  - split; reflexivity.
  - simpl.
    destruct (step_released w ev Hmode Hpending Hlistener Hframe)
      as ((Hmode' & Hpending' & Hlistener' & Hframe') & Hcalls & Hrequests).
    destruct (Main.step w ev) as [w' effects]. simpl in *.
    specialize (IH w' Hmode' Hpending' Hlistener' Hframe').
    destruct (Main.run w' events) as [w'' effects']. simpl in *.
    destruct IH as [IHcalls IHrequests].
    unfold Main.calls, requests in *.
    rewrite List.map_app, List.concat_app, Hcalls, IHcalls.
    rewrite List.filter_app, Hrequests, IHrequests. split; reflexivity.
Qed.

Lemma run_standards (events : list Main.event) (w : Main.world) :
  truthy (Main.ssoToken (Main.this w)) = false ->
  Main.pending_loads w = 0%nat ->
  (Main.message_listener w = true -> Main.has_eventListenerHandle (Main.this w) = true) ->
  truthy (Main.ssoToken (Main.this (fst (Main.run w events)))) = false
  /\ Main.pending_loads (fst (Main.run w events)) = 0%nat
  /\ (Main.message_listener (fst (Main.run w events)) = true ->
      Main.has_eventListenerHandle (Main.this (fst (Main.run w events))) = true).
Proof.
  revert w. induction events as [|ev events IH]; intros w Hmode Hpending Hhandle.
  - simpl. intuition auto.
  - simpl.
    destruct (step_standards w ev Hmode Hpending Hhandle) as (Hmode' & Hpending' & Hhandle').
    destruct (Main.step w ev) as [w' effects]. simpl in *.
    specialize (IH w' Hmode' Hpending' Hhandle').
    destruct (Main.run w' events) as [w'' effects']. exact IH.
Qed.

(** In standards-based mode nothing reaches the handlers, and nothing is
    dispatched, after [destroy()]. *)
Lemma standards_silent_after_destroy (config : config.t) (origin : string)
    (storage : gmap string string) (w : Main.world)
    (before after : list Main.event) :
  truthy (config.ssoToken config) = false ->
  Main.SessionCheck config origin storage = Normal w ->
  Main.calls (snd (Main.run (Main.destroy (fst (Main.run w before))) after)) = []
  /\ requests (snd (Main.run (Main.destroy (fst (Main.run w before))) after)) = [].
Proof.
  intros Hmode Hnew.
  assert (Hw : truthy (Main.ssoToken (Main.this w)) = false
               /\ Main.pending_loads w = 0%nat
               /\ (Main.message_listener w = true ->
                   Main.has_eventListenerHandle (Main.this w) = true)).
  { revert Hnew. unfold Main.SessionCheck. rewrite Hmode.
    destruct (_ && _); [discriminate|]. intros [= <-]. simpl. intuition auto. }
  destruct Hw as (Hm & Hp & Hh).
  destruct (run_standards before w Hm Hp Hh) as (Hm' & Hp' & Hh').
  apply run_released; simpl; auto.
  destruct (Main.has_eventListenerHandle (Main.this (fst (Main.run w before)))) eqn:E;
    [reflexivity|].
  destruct (Main.message_listener (fst (Main.run w before))); [|reflexivity].
  specialize (Hh' eq_refl). discriminate.
Qed.

(** A second [destroy()] changes nothing, and in particular does not
    throw. *)
Lemma destroy_idempotent (w : Main.world) :
  Main.destroy (Main.destroy w) = Main.destroy w.
Proof.
  unfold Main.destroy. cbn. f_equal.
  apply map_eq. intros k. rewrite !lookup_delete.
  repeat case_decide; reflexivity.
Qed.
(** A relayed error of the identity provider carries no check id: every
    instance listening at the origin reports it. *)
Lemma eventListenerHandle_error_relay (this : Main.instance) (origin error : string) :
  config.invalidSessionHandler (Main.closure_config this) = true ->
  Main.eventListenerHandle this origin origin (Frame.error_message error)
  = Normal [Main.invalidSessionHandler (VStr error) (Main.request_check_count this)].
Proof.
  intros Hhandler. unfold Main.eventListenerHandle, Frame.error_message.
  cbn. rewrite String.eqb_refl, Hhandler. reflexivity.
Qed.

(** [destroy()] does not cancel a validation request in flight: its load
    event is handled as if the instance had not been destroyed. *)
Lemma destroy_keeps_pending_load (w : Main.world) (responseText : string) :
  snd (Main.step (Main.destroy w) (Main.load responseText))
  = snd (Main.step w (Main.load responseText)).
Proof.
  cbn. destruct (Main.pending_loads w); reflexivity.
Qed.

(** The first-success handler runs only while the counter reads 1. *)
Lemma initialSessionSuccessHandler_only_at_count_one (w : Main.world) (ev : Main.event) :
  In (Main.Handler Main.initialSessionSuccessHandler) (snd (Main.step w ev)) ->
  Main.request_check_count (Main.this w) = 1.
Proof.
  destruct ev as [t n| |o d|text].
  - rewrite step_trigger.
    destruct (Main.cooldown_elapsed (Main.this w) t) as [[|]|e]; cbn.
    + unfold Main.sessionCheckRequest.
      destruct (truthy _); [cbn; intuition discriminate|].
      destruct (Main.iframe _); cbn; intuition discriminate.
    + tauto.
    + intuition discriminate.
  - cbn. tauto.
  - cbn. destruct (Main.message_listener w); [|cbn; tauto].
    unfold Main.eventListenerHandle.
    destruct (Get d "authId") as [a|e]; cbn; [|intuition discriminate].
    destruct (to_boolean a && _); [cbn; tauto|].
    destruct (negb _); [cbn; tauto|].
    destruct (Get d "message") as [m|e]; cbn; [|intuition discriminate].
    destruct (Get d "reason") as [r|e]; cbn; [|intuition discriminate].
    destruct (Get d "claims") as [c|e]; cbn; [|intuition discriminate].
    destruct (Z.eqb_spec (Main.request_check_count (Main.this w)) 1) as [Hone|Hne];
      [intros _; exact Hone|].
    rewrite !andb_false_r.
    destruct (strict_eq m (VStr "sessionCheckFailed") && _);
      destruct (strict_eq m (VStr "sessionCheckSucceeded"));
      try destruct (config.sessionClaimsHandler _ && _);
      cbn; intuition discriminate.
  - cbn. destruct (Main.pending_loads w); [cbn; tauto|]. cbn.
    unfold Main.validationHandler, Main.call_invalidSessionHandler.
    destruct (Z.eqb_spec (Main.request_check_count (Main.this w)) 1) as [Hone|Hne];
      [intros _; exact Hone|].
    rewrite !andb_false_r.
    destruct (JSON_parse text) as [v|e]; cbn.
    + destruct (Get v "valid") as [valid|e]; cbn; [|intuition discriminate].
      destruct (negb (to_boolean valid)).
      * destruct (config.invalidSessionHandler _); cbn; intuition discriminate.
      * destruct (Get v "uid") as [uid|e]; cbn; [|intuition discriminate].
        destruct (truthy _ && _); [|cbn; tauto].
        destruct (config.invalidSessionHandler _); cbn; intuition discriminate.
    + destruct (config.invalidSessionHandler _); cbn; intuition discriminate.
Qed.
End HandlerFacts.

(* ===================================================================== *)
(** ** Further properties: strings                                        *)
(* ===================================================================== *)

Section StringFacts.

Lemma split_nonempty (sep : Ascii.ascii) (s : string) : split sep s <> [].
Proof.
  destruct s as [|c rest]; simpl; [discriminate|].
  destruct (Ascii.eqb c sep); [discriminate|].
  destruct (split sep rest); discriminate.
Qed.

(** Splitting a text free of the separator gives the text itself. *)
Lemma split_without_separator (sep : Ascii.ascii) (s : string) :
  occurrences sep s = 0%nat -> split sep s = [s].
Proof.
  induction s as [|c rest IH]; simpl; [reflexivity|].
  destruct (Ascii.eqb c sep); [discriminate|].
  intros Hrest. rewrite (IH Hrest). reflexivity.
Qed.

(** Splitting distributes over a separator in the middle. *)
Lemma split_app (sep : Ascii.ascii) (a b : string) :
  split sep (a +:+ String sep b) = split sep a ++ split sep b.
Proof.
  induction a as [|c rest IH]; simpl.
  - rewrite Ascii.eqb_refl. reflexivity.
  - destruct (Ascii.eqb c sep).
    + rewrite IH. reflexivity.
    + rewrite IH. pose proof (split_nonempty sep rest) as Hne.
      destruct (split sep rest) as [|head tail]; [contradiction|]. reflexivity.
Qed.

Lemma occurrences_app (c : Ascii.ascii) (a b : string) :
  occurrences c (a +:+ b) = (occurrences c a + occurrences c b)%nat.
Proof.
  induction a as [|x rest IH]; simpl; [reflexivity|]. rewrite IH. lia.
Qed.

(** Replacing the first [pat] leaves the occurrences of another character
    alone, when the replacement text is free of it. *)
Lemma occurrences_replace_other (c pat : Ascii.ascii) (rep s : string) :
  Ascii.eqb pat c = false ->
  occurrences c rep = 0%nat ->
  occurrences c (replace pat rep s) = occurrences c s.
Proof.
  intros Hne Hrep. induction s as [|x rest IH]; simpl; [reflexivity|].
  destruct (Ascii.eqb x pat) eqn:Hx.
  - apply Ascii.eqb_eq in Hx. subst x. rewrite Hne.
    rewrite occurrences_app, Hrep. reflexivity.
  - simpl. rewrite IH. reflexivity.
Qed.

(** Replacing the first [pat] removes one occurrence of [pat], no more. *)
Lemma occurrences_replace_same (pat : Ascii.ascii) (rep s : string) :
  occurrences pat rep = 0%nat ->
  occurrences pat (replace pat rep s) = Nat.pred (occurrences pat s).
Proof.
  intros Hrep. induction s as [|x rest IH]; simpl; [reflexivity|].
  destruct (Ascii.eqb x pat) eqn:Hx.
  - rewrite occurrences_app, Hrep. reflexivity.
  - simpl. rewrite Hx. exact IH.
Qed.

Lemma replace_head (c : Ascii.ascii) (rep s : string) :
  replace c rep (String c s) = rep +:+ s.
Proof. simpl. rewrite Ascii.eqb_refl. reflexivity. Qed.

End StringFacts.
(* ===================================================================== *)
(** ** Further properties: the response verifier                          *)
(* ===================================================================== *)

Section VerifierCoverage.
Context `{Host}.

Lemma add_entry_keys_nonempty (m : gmap string string) (entry : string) :
  (forall k v, m !! k = Some v -> k <> EmptyString /\ v <> EmptyString) ->
  forall k v, Frame.add_entry m entry !! k = Some v ->
              k <> EmptyString /\ v <> EmptyString.
Proof.
  intros Hm k v. unfold Frame.add_entry.
  destruct (truthy (split "=" entry !! 0%nat) && truthy (split "=" entry !! 1%nat))
    eqn:E; [|apply Hm].
  apply andb_true_iff in E as [E0 E1].
  rewrite lookup_insert. case_decide as Hk.
  - intros [= <-]. subst k. split; now apply truthy_str.
  - apply Hm.
Qed.

(** X1. Every response parameter the verifier collects from the fragment
    and the query string has a non-empty name and a non-empty value: an
    entry without [=], with an empty name or with an empty value is
    skipped. *)
Theorem X1_response_params_entries_are_nonempty (w : Frame.window) (k v : string) :
  Frame.response_params w !! k = Some v ->
  k <> EmptyString /\ v <> EmptyString.
Proof.
  unfold Frame.response_params.
  generalize (split "&" (replace "#" EmptyString (Frame.location_hash w)
                +:+ ("&" +:+ replace "?" EmptyString (Frame.location_search w)))).
  intros entries.
  assert (Hempty : forall k v, (∅ : gmap string string) !! k = Some v ->
                               k <> EmptyString /\ v <> EmptyString).
  { intros k' v'. rewrite lookup_empty. discriminate. }
  revert Hempty. generalize (∅ : gmap string string). revert k v.
  induction entries as [|entry entries IH]; intros k v m Hm; simpl; [apply Hm|].
  apply IH. now apply add_entry_keys_nonempty.
Qed.

Lemma add_entry_pair (m : gmap string string) (k v : string) :
  k <> EmptyString -> v <> EmptyString ->
  occurrences "=" k = 0%nat -> occurrences "=" v = 0%nat ->
  Frame.add_entry m (k +:+ String "=" v) = <[k := v]> m.
Proof.
  intros Hk Hv Hkeq Hveq. unfold Frame.add_entry.
  rewrite split_app, (split_without_separator _ _ Hkeq),
    (split_without_separator _ _ Hveq).
  simpl.
  destruct (String.eqb_spec k EmptyString); [contradiction|].
  destruct (String.eqb_spec v EmptyString); [contradiction|]. reflexivity.
Qed.

(** X2. A parameter given in the query string overrides the parameter of
    the same name in the fragment: the fragment is read first and a later
    entry replaces an earlier one. Stated for a query string that is the
    single entry [k=v], with [k] and [v] non-empty and free of [&] and
    [=]; [__proto__], which an object literal does not store as a member
    of its own, is left out. *)
Theorem X2_query_string_overrides_fragment (w : Frame.window) (k v : string) :
  k <> EmptyString -> k <> "__proto__" -> v <> EmptyString ->
  occurrences "=" k = 0%nat -> occurrences "&" k = 0%nat ->
  occurrences "=" v = 0%nat -> occurrences "&" v = 0%nat ->
  Frame.location_search w = String "?" (k +:+ String "=" v) ->
  Frame.response_params w !! k = Some v.
Proof.
  intros Hk _ Hv Hkeq Hkamp Hveq Hvamp Hsearch.
  unfold Frame.response_params. rewrite Hsearch, replace_head.
  change (EmptyString +:+ (k +:+ String "=" v)) with (k +:+ String "=" v).
  change ("&" +:+ (k +:+ String "=" v)) with (String "&" (k +:+ String "=" v)).
  rewrite split_app.
  rewrite (split_without_separator "&" (k +:+ String "=" v)).
  - rewrite foldl_app. simpl. rewrite (add_entry_pair _ k v Hk Hv Hkeq Hveq).
    apply lookup_insert_eq.
  - rewrite occurrences_app. simpl. lia.
Qed.

(** X3. An id_token without a dot has no claims segment: in a same-origin
    frame the verifier throws a TypeError while extracting the claims and
    posts no message to the parent, whatever sessionStorage holds. *)
Theorem X3_id_token_without_dot_throws (w : Frame.window)
    (storage : gmap string string) (id_token : string) :
  Frame.parent_window_origin w = Frame.window_origin w ->
  Frame.response_params w !! "id_token" = Some id_token ->
  occurrences "." id_token = 0%nat ->
  Frame.sessionCheckFrame w storage
  = Frame.Uncaught (TypeError "Cannot read properties of undefined").
Proof.
  intros Horigin Htoken Hdot.
  rewrite (sessionCheckFrame_id_token w storage id_token Horigin Htoken).
  unfold Frame.check_id_token, Frame.getIdTokenClaims.
  rewrite (split_without_separator _ _ Hdot). reflexivity.
Qed.


(** X4. Only the first [-] and the first [_] of the claims segment are
    translated to the standard base64 alphabet. With an [atob] that
    rejects texts containing [-] or [_], as the browsers' does, a claims
    segment with two or more [-], or two or more [_], makes the verifier
    throw, and no message is posted. *)
Theorem X4_only_the_first_dash_and_underscore_are_translated
    (w : Frame.window) (storage : gmap string string) (id_token segment : string) :
  (forall text, (0 < occurrences "-" text + occurrences "_" text)%nat ->
                exists e, atob text = Throw e) ->
  Frame.parent_window_origin w = Frame.window_origin w ->
  Frame.response_params w !! "id_token" = Some id_token ->
  split "." id_token !! 1%nat = Some segment ->
  (2 <= occurrences "-" segment)%nat \/ (2 <= occurrences "_" segment)%nat ->
  exists e, Frame.sessionCheckFrame w storage = Frame.Uncaught e.
Proof.
  intros Hatob Horigin Htoken Hsegment Htwice.
  rewrite (sessionCheckFrame_id_token w storage id_token Horigin Htoken).
  unfold Frame.check_id_token, Frame.getIdTokenClaims. rewrite Hsegment.
  destruct (Hatob (replace "_" "/" (replace "-" "+" segment))) as [e He].
  - rewrite (occurrences_replace_other "-" "_" "/") by reflexivity.
    rewrite (occurrences_replace_same "_" "/") by reflexivity.
    rewrite (occurrences_replace_same "-" "+") by reflexivity.
    rewrite (occurrences_replace_other "_" "-" "+") by reflexivity.
    lia.
  - rewrite He. exists e. reflexivity.
Qed.

Lemma response_params_absent (w : Frame.window) (k : string) :
  truthy (Frame.response_params w !! k) = false ->
  Frame.response_params w !! k = None.
Proof.
  destruct (Frame.response_params w !! k) as [v|] eqn:Hk; [|reflexivity].
  rewrite <- Hk, (response_params_truthy w k v Hk). discriminate.
Qed.

(** The shapes of the messages the verifier posts. *)
Lemma sessionCheckFrame_posts (w : Frame.window) (storage : gmap string string)
    (message : value) (targetOrigin : string) :
  Frame.sessionCheckFrame w storage = Frame.postMessage message targetOrigin ->
  let params := Frame.response_params w in
  Frame.parent_window_origin w = Frame.window_origin w
  /\ targetOrigin = Frame.window_origin w
  /\ ((exists id_token claims,
         params !! "id_token" = Some id_token
         /\ (message = Frame.failed_message "nonce_mismatch" (params !! "state")
             \/ message = Frame.failed_message "subject_mismatch" (params !! "state")
             \/ message = Frame.succeeded_with_claims claims (params !! "state")))
      \/ (exists error,
            params !! "id_token" = None /\ params !! "error" = Some error
            /\ message = Frame.error_message error)
      \/ (params !! "id_token" = None /\ params !! "error" = None
          /\ message = Frame.succeeded_message (params !! "state"))).
Proof.
  intros Hposted params. subst params. unfold Frame.sessionCheckFrame in Hposted.
  cbv zeta in Hposted.
  destruct (String.eqb_spec (Frame.parent_window_origin w) (Frame.window_origin w))
    as [Horigin|]; [|discriminate].
  cbn [negb] in Hposted. split; [exact Horigin|].
  destruct (truthy (Frame.response_params w !! "id_token")) eqn:Htoken.
  - destruct (Frame.response_params w !! "id_token") as [id_token|] eqn:Hid;
      [|discriminate].
    destruct (Frame.check_id_token storage _ _) as [m|e] eqn:Hcheck; [|discriminate].
    injection Hposted as -> ->. split; [reflexivity|]. left.
    cbn [str] in Hcheck. unfold Frame.check_id_token in Hcheck.
    destruct (Frame.getIdTokenClaims id_token) as [claims|e]; [|discriminate].
    exists id_token, claims. split; [reflexivity|].
    cbn [bind] in Hcheck.
    destruct (JSON_parse_item (storage !! "sessionCheckNonce")) as [nonceMap|e];
      [|discriminate].
    cbn [bind] in Hcheck.
    destruct (Get_computed nonceMap _) as [recorded|e]; [|discriminate].
    cbn [bind] in Hcheck.
    destruct (Get claims "nonce") as [nonce|e]; [|discriminate].
    cbn [bind] in Hcheck.
    destruct (Number nonce) as [n|e]; [|discriminate].
    cbn [bind] in Hcheck.
    destruct (negb (strict_eq recorded (VNum n))); [injection Hcheck as <-; auto|].
    destruct (JSON_parse_item (storage !! "sessionCheckSubject")) as [subjectMap|e];
      [|discriminate].
    cbn [bind] in Hcheck.
    destruct (Get_computed subjectMap _) as [expected|e]; [|discriminate].
    cbn [bind] in Hcheck.
    destruct (to_boolean expected); [|injection Hcheck as <-; auto].
    destruct (Get claims "sub") as [sub|e]; [|discriminate].
    cbn [bind] in Hcheck.
    destruct (negb (strict_eq sub expected)); injection Hcheck as <-; auto.
  - apply response_params_absent in Htoken.
    destruct (truthy (Frame.response_params w !! "error")) eqn:Herror.
    + destruct (Frame.response_params w !! "error") as [error|] eqn:Herr;
        [|discriminate].
      injection Hposted as <- <-. split; [reflexivity|]. right. left.
      exists error. auto.
    + apply response_params_absent in Herror.
      injection Hposted as <- <-. split; [reflexivity|]. right. right. auto.
Qed.

(** X5. Whatever the verifier posts, it posts from a frame whose parent
    has its own origin, addressed to its own origin, and the message has
    one of four shapes: with an id_token parameter, failure
    [nonce_mismatch], failure [subject_mismatch] or success with claims,
    each carrying the response's state as [authId]; without id_token and
    with an error parameter, failure with that error as reason and no
    [authId]; with neither, success without claims, carrying the state. *)
Theorem X5_posted_messages (w : Frame.window) (storage : gmap string string)
    (message : value) (targetOrigin : string) :
  Frame.sessionCheckFrame w storage = Frame.postMessage message targetOrigin ->
  let params := Frame.response_params w in
  Frame.parent_window_origin w = Frame.window_origin w
  /\ targetOrigin = Frame.window_origin w
  /\ ((exists id_token claims,
         params !! "id_token" = Some id_token
         /\ (message = VObj [("message", VStr "sessionCheckFailed");
                             ("reason", VStr "nonce_mismatch");
                             ("authId", opt_value (params !! "state"))]
             \/ message = VObj [("message", VStr "sessionCheckFailed");
                                ("reason", VStr "subject_mismatch");
                                ("authId", opt_value (params !! "state"))]
             \/ message = VObj [("message", VStr "sessionCheckSucceeded");
                                ("claims", claims);
                                ("authId", opt_value (params !! "state"))]))
      \/ (exists error,
            params !! "id_token" = None /\ params !! "error" = Some error
            /\ message = VObj [("message", VStr "sessionCheckFailed");
                               ("reason", VStr error)])
      \/ (params !! "id_token" = None /\ params !! "error" = None
          /\ message = VObj [("message", VStr "sessionCheckSucceeded");
                             ("authId", opt_value (params !! "state"))])).
Proof. exact (sessionCheckFrame_posts w storage message targetOrigin). Qed.

Lemma opt_value_inj (a b : option string) : opt_value a = opt_value b -> a = b.
Proof. destruct a, b; simpl; congruence. Qed.

(** X6. Claims are relayed as a success only after both checks: the
    response carried an id_token that decodes to these claims, their
    nonce, as a number, is strictly equal to the ledger entry for the
    response's state, and the subject recorded for that state is falsy or
    strictly equal to the [sub] claim. *)
Theorem X6_relayed_claims_passed_both_checks (w : Frame.window)
    (storage : gmap string string) (new_claims : value) (state : option string)
    (targetOrigin : string) :
  Frame.sessionCheckFrame w storage
  = Frame.postMessage (Frame.succeeded_with_claims new_claims state) targetOrigin ->
  exists (id_token : string) (nonceMap recorded nonce subjectMap expected : value)
         (n : number),
    Frame.response_params w !! "id_token" = Some id_token
    /\ Frame.response_params w !! "state" = state
    /\ Frame.getIdTokenClaims id_token = Normal new_claims
    /\ JSON_parse_item (storage !! "sessionCheckNonce") = Normal nonceMap
    /\ Get nonceMap (str state) = Normal recorded
    /\ Get new_claims "nonce" = Normal nonce
    /\ Number nonce = Normal n
    /\ strict_eq recorded (VNum n) = true
    /\ JSON_parse_item (storage !! "sessionCheckSubject") = Normal subjectMap
    /\ Get subjectMap (str state) = Normal expected
    /\ (to_boolean expected = false
        \/ exists sub, Get new_claims "sub" = Normal sub
                       /\ strict_eq sub expected = true).
Proof.
  intros Hrelayed. unfold Frame.sessionCheckFrame in Hrelayed.
  cbv zeta in Hrelayed.
  destruct (negb _); [discriminate|].
  destruct (truthy (Frame.response_params w !! "id_token")) eqn:Htoken;
    [|destruct (truthy (Frame.response_params w !! "error")); discriminate].
  destruct (Frame.response_params w !! "id_token") as [id_token|] eqn:Hid;
    [|discriminate].
  cbn [str] in Hrelayed. unfold Frame.check_id_token in Hrelayed.
  destruct (Frame.getIdTokenClaims id_token) as [claims|e] eqn:Hclaims; [|discriminate].
  cbn [bind] in Hrelayed.
  destruct (JSON_parse_item (storage !! "sessionCheckNonce")) as [nonceMap|e]
    eqn:Hledger; [|discriminate].
  cbn [bind] in Hrelayed.
  destruct (Get_computed nonceMap _) as [recorded|e] eqn:Hrecorded; [|discriminate].
  cbn [bind] in Hrelayed.
  destruct (Get claims "nonce") as [nonce|e] eqn:Hnonce; [|discriminate].
  cbn [bind] in Hrelayed.
  destruct (Number nonce) as [n|e] eqn:Hnumber; [|discriminate].
  cbn [bind] in Hrelayed.
  destruct (strict_eq recorded (VNum n)) eqn:Hmatch; [|discriminate].
  cbn [negb] in Hrelayed.
  (* a value strictly equal to a number is no inherited member *)
  apply Get_computed_inv in Hrecorded as [[_ ->] | [_ Hrecorded]];
    [rewrite (proj2 (strict_eq_builtin _ _)) in Hmatch; discriminate|].
  destruct (JSON_parse_item (storage !! "sessionCheckSubject")) as [subjectMap|e]
    eqn:Hsubjects; [|discriminate].
  cbn [bind] in Hrelayed.
  destruct (Get_computed subjectMap _) as [expected|e] eqn:Hexpected; [|discriminate].
  cbn [bind] in Hrelayed.
  destruct (to_boolean expected) eqn:Htruthy.
  - destruct (Get claims "sub") as [sub|e] eqn:Hsub; [|discriminate].
    cbn [bind] in Hrelayed.
    destruct (strict_eq sub expected) eqn:Hsame; [|discriminate].
    (* nor is a value strictly equal to the [sub] claim *)
    apply Get_computed_inv in Hexpected as [[_ ->] | [_ Hexpected]];
      [rewrite (proj1 (strict_eq_builtin _ _)) in Hsame; discriminate|].
    cbn [negb] in Hrelayed. injection Hrelayed as -> Hstate _.
    apply opt_value_inj in Hstate. subst state.
    exists id_token, nonceMap, recorded, nonce, subjectMap, expected, n.
    repeat split; auto. right. exists sub. auto.
  - (* nor a falsy value *)
    apply Get_computed_inv in Hexpected as [[_ ->] | [_ Hexpected]]; [discriminate|].
    injection Hrelayed as -> Hstate _.
    apply opt_value_inj in Hstate. subst state.
    exists id_token, nonceMap, recorded, nonce, subjectMap, expected, n.
    repeat split; auto.
Qed.

End VerifierCoverage.

(* ===================================================================== *)
(** ** Further properties: the session check instance                     *)
(* ===================================================================== *)

Section InstanceCoverage.
Context `{Host}.

Lemma step_settings (w : Main.world) (ev : Main.event) :
  settings (Main.this (fst (Main.step w ev))) = settings (Main.this w)
  /\ Main.document_location_origin (fst (Main.step w ev))
     = Main.document_location_origin w.
Proof.
  destruct ev as [t n| |o d|text].
  - rewrite step_trigger.
    destruct (Main.cooldown_elapsed (Main.this w) t) as [[|]|e]; split; reflexivity.
  - split; reflexivity.
  - simpl. destruct (Main.message_listener w); split; reflexivity.
  - simpl. destruct (Main.pending_loads w); split; reflexivity.
Qed.

Lemma settings_authId (a b : Main.instance) :
  settings a = settings b -> Main.authId a = Main.authId b.
Proof. unfold settings. congruence. Qed.

Lemma settings_keys (a b : Main.instance) :
  settings a = settings b -> subject_key a = subject_key b /\ nonce_key a = nonce_key b.
Proof.
  intros Hs. unfold subject_key, nonce_key. rewrite (settings_authId a b Hs). auto.
Qed.

(** One step changes sessionStorage at the two keys of the instance only. *)
Lemma step_storage (w : Main.world) (ev : Main.event) (k : string) :
  k <> subject_key (Main.this w) -> k <> nonce_key (Main.this w) ->
  Main.sessionStorage (fst (Main.step w ev)) !! k = Main.sessionStorage w !! k.
Proof.
  intros Hsubject Hnonce. destruct ev as [t n| |o d|text].
  - rewrite step_trigger.
    destruct (Main.cooldown_elapsed (Main.this w) t) as [[|]|e]; try reflexivity.
    cbn [fst Main.sessionStorage]. unfold Main.sessionCheckRequest.
    destruct (truthy (Main.ssoToken _)); [reflexivity|].
    destruct (Main.iframe _); [|reflexivity].
    cbv zeta. destruct (Main.equals "id_token" _); [|reflexivity].
    cbn [fst]. rewrite lookup_insert_ne; [reflexivity|].
    intros Heq. apply Hnonce. rewrite <- Heq. reflexivity.
  - cbn [Main.step fst Main.destroy Main.sessionStorage].
    rewrite !lookup_delete_ne; [reflexivity| |].
    + intros Heq. apply Hsubject. rewrite <- Heq. reflexivity.
    + intros Heq. apply Hnonce. rewrite <- Heq. reflexivity.
  - simpl. destruct (Main.message_listener w); reflexivity.
  - simpl. destruct (Main.pending_loads w); reflexivity.
Qed.

Lemma run_storage (events : list Main.event) (w : Main.world) (k : string) :
  k <> subject_key (Main.this w) -> k <> nonce_key (Main.this w) ->
  Main.sessionStorage (fst (Main.run w events)) !! k = Main.sessionStorage w !! k.
Proof.
  revert w. induction events as [|ev rest IH]; intros w Hsubject Hnonce;
    [reflexivity|].
  simpl. destruct (Main.step w ev) as [w' effects] eqn:Hstep.
  specialize (IH w'). destruct (Main.run w' rest) as [w'' effects'].
  simpl in *.
  pose proof (step_settings w ev) as [Hs _]. rewrite Hstep in Hs. simpl in Hs.
  apply settings_keys in Hs as [Hsk Hnk].
  rewrite IH by congruence.
  pose proof (step_storage w ev k Hsubject Hnonce) as Hk.
  rewrite Hstep in Hk. exact Hk.
Qed.

Lemma SessionCheck_authId (config : config.t) (origin : string)
    (storage : gmap string string) (w : Main.world) :
  Main.SessionCheck config origin storage = Normal w ->
  Main.authId (Main.this w)
  = (if truthy (config.ssoToken config) then None
     else Main.or_default (config.authId config) "Primary")
  /\ forall k, k <> subject_key (Main.this w) ->
               Main.sessionStorage w !! k = storage !! k.
Proof.
  unfold Main.SessionCheck. cbv zeta.
  destruct (truthy (config.ssoToken config)).
  - intros [= <-]. split; reflexivity.
  - destruct (_ && _); [discriminate|]. intros [= <-].
    split; [reflexivity|]. intros k Hk. cbn [Main.sessionStorage].
    destruct (truthy (config.subject config)); [|reflexivity].
    rewrite lookup_insert_ne; [reflexivity|]. intros Heq. apply Hk. rewrite <- Heq.
    reflexivity.
Qed.

Lemma session_storage (config : config.t) (origin : string)
    (storage : gmap string string) (events : list Main.event)
    (r : Main.world * list Main.effect) (k : string) :
  session config origin storage events = Normal r ->
  k <> "sessionCheckSubject-"
       +:+ str (if truthy (config.ssoToken config) then None
                else Main.or_default (config.authId config) "Primary") ->
  k <> "sessionCheckNonce-"
       +:+ str (if truthy (config.ssoToken config) then None
                else Main.or_default (config.authId config) "Primary") ->
  Main.sessionStorage (fst r) !! k = storage !! k.
Proof.
  unfold session. destruct (Main.SessionCheck config origin storage) as [w|e] eqn:Hnew;
    [|discriminate].
  cbn [bind]. intros [= <-] Hsubject Hnonce.
  apply SessionCheck_authId in Hnew as [Hid Hstorage].
  rewrite <- Hid in Hsubject, Hnonce.
  rewrite run_storage by assumption. apply Hstorage. assumption.
Qed.

(** X7. An instance touches two sessionStorage keys only,
    [sessionCheckSubject-<id>] and [sessionCheckNonce-<id>], where [<id>]
    is [authId] (or [Primary]) in standards-based mode and the text
    [undefined] in trusted-token mode: after construction and any
    sequence of events every other key holds what it held before. *)
Theorem X7_storage_footprint (config : config.t) (origin : string)
    (storage : gmap string string) (events : list Main.event)
    (r : Main.world * list Main.effect) :
  session config origin storage events = Normal r ->
  let checkId :=
    str (if truthy (config.ssoToken config) then None
         else Main.or_default (config.authId config) "Primary") in
  forall k : string,
    k <> "sessionCheckSubject-" +:+ checkId ->
    k <> "sessionCheckNonce-" +:+ checkId ->
    Main.sessionStorage (fst r) !! k = storage !! k.
Proof.
  intros Hsession checkId k. exact (session_storage _ _ _ _ _ k Hsession).
Qed.


(** X8. Instances with different check ids do not share storage: a
    standards-based instance never changes the subject or the nonce
    entry of another check id, through construction, requests and
    [destroy()]. *)
Theorem X8_other_check_ids_are_left_alone (config : config.t) (origin : string)
    (storage : gmap string string) (events : list Main.event)
    (r : Main.world * list Main.effect) (other : string) :
  session config origin storage events = Normal r ->
  truthy (config.ssoToken config) = false ->
  other <> str (Main.or_default (config.authId config) "Primary") ->
  Main.sessionStorage (fst r) !! ("sessionCheckSubject-" +:+ other)
  = storage !! ("sessionCheckSubject-" +:+ other)
  /\ Main.sessionStorage (fst r) !! ("sessionCheckNonce-" +:+ other)
     = storage !! ("sessionCheckNonce-" +:+ other).
Proof.
  intros Hsession Hmode Hother.
  split; apply (session_storage _ _ _ _ _ _ Hsession); rewrite Hmode;
    simpl; intros [= Heq]; auto.
Qed.


Lemma step_trigger_page (w : Main.world) (t n : Z) :
  let w' := fst (Main.step w (Main.trigger t n)) in
  Main.iframe (Main.this w') = Main.iframe (Main.this w)
  /\ Main.document_body w' = Main.document_body w
  /\ Main.has_eventListenerHandle (Main.this w')
     = Main.has_eventListenerHandle (Main.this w)
  /\ Main.message_listener w' = Main.message_listener w.
Proof.
  cbv zeta. rewrite step_trigger.
  destruct (Main.cooldown_elapsed (Main.this w) t) as [[|]|e]; repeat split.
Qed.

Lemma step_page (w : Main.world) (ev : Main.event) :
  ev <> Main.teardown ->
  let w' := fst (Main.step w ev) in
  Main.iframe (Main.this w') = Main.iframe (Main.this w)
  /\ Main.document_body w' = Main.document_body w
  /\ Main.has_eventListenerHandle (Main.this w')
     = Main.has_eventListenerHandle (Main.this w)
  /\ Main.message_listener w' = Main.message_listener w.
Proof.
  intros Hev. destruct ev as [t n| |o d|text]; [apply step_trigger_page|contradiction| |].
  - cbn [Main.step]. destruct (Main.message_listener w) eqn:E; cbn [fst]; rewrite ?E; auto.
  - cbn [Main.step]. destruct (Main.pending_loads w); cbn; auto.
Qed.

Lemma destroy_detached (w : Main.world) :
  attached w \/ detached w -> detached (Main.destroy w).
Proof.
  intros [(frame & Hframe & Hbody & Hhandle & Hlistener)
         | (Hframe & Hbody & Hhandle & Hlistener)];
    unfold detached, Main.destroy; cbn;
    rewrite Hframe, Hbody, Hhandle; cbn; rewrite ?String.eqb_refl; auto.
Qed.

Lemma step_attached_or_detached (w : Main.world) (ev : Main.event) :
  attached w \/ detached w ->
  attached (fst (Main.step w ev)) \/ detached (fst (Main.step w ev)).
Proof.
  intros Hw.
  assert (Hcases : ev = Main.teardown \/ ev <> Main.teardown)
    by (destruct ev; auto; right; discriminate).
  destruct Hcases as [->|Hev].
  - right. apply destroy_detached, Hw.
  - pose proof (step_page w ev Hev) as (Hframe & Hbody & Hhandle & Hlistener).
    unfold attached, detached. rewrite Hframe, Hbody, Hhandle, Hlistener. exact Hw.
Qed.

Lemma delete_absent (k : string) (m : gmap string string) :
  m !! k = None -> delete k m = m.
Proof.
  intros Hk. apply map_eq. intros j. rewrite lookup_delete.
  case_decide; congruence.
Qed.

Lemma step_detached (w : Main.world) (ev : Main.event) :
  detached w -> detached (fst (Main.step w ev)).
Proof.
  intros Hw.
  destruct (step_attached_or_detached w ev (or_intror Hw))
    as [(frame & Hframe & _)|Hd]; [|exact Hd].
  exfalso. destruct Hw as (Hnone & _).
  destruct ev as [t n| |o d|text].
  - pose proof (step_trigger_page w t n) as (Hsame & _). cbv zeta in Hsame. congruence.
  - discriminate.
  - assert (Hne : Main.message o d <> Main.teardown) by discriminate.
    pose proof (step_page w _ Hne) as (Hsame & _). cbv zeta in Hsame. congruence.
  - assert (Hne : Main.load text <> Main.teardown) by discriminate.
    pose proof (step_page w _ Hne) as (Hsame & _). cbv zeta in Hsame. congruence.
Qed.

Lemma run_detached (events : list Main.event) (w : Main.world) :
  detached w -> detached (fst (Main.run w events)).
Proof.
  revert w. induction events as [|ev rest IH]; intros w Hw; [exact Hw|].
  simpl. pose proof (step_detached w ev Hw) as Hd.
  destruct (Main.step w ev) as [w' effects]. simpl in *.
  specialize (IH w' Hd). destruct (Main.run w' rest) as [w'' effects']. exact IH.
Qed.

(** Once detached, with its two keys absent, an instance changes nothing
    of the page any more. *)
Lemma step_after_destroy (w : Main.world) (ev : Main.event) :
  detached w ->
  Main.sessionStorage w !! subject_key (Main.this w) = None ->
  Main.sessionStorage w !! nonce_key (Main.this w) = None ->
  detached (fst (Main.step w ev))
  /\ Main.sessionStorage (fst (Main.step w ev)) = Main.sessionStorage w.
Proof.
  intros Hw Hsubject Hnonce.
  split; [exact (step_detached w ev Hw)|].
  - destruct Hw as (Hnone & _). destruct ev as [t n| |o d|text].
    + rewrite step_trigger.
      destruct (Main.cooldown_elapsed (Main.this w) t) as [[|]|e]; try reflexivity.
      cbn [fst Main.sessionStorage]. unfold Main.sessionCheckRequest.
      destruct (truthy (Main.ssoToken _)); [reflexivity|].
      cbn [Main.accept Main.iframe]. rewrite Hnone. reflexivity.
    + cbn [Main.step fst Main.destroy Main.sessionStorage].
      fold (subject_key (Main.this w)). fold (nonce_key (Main.this w)).
      rewrite (delete_absent _ _ Hsubject). apply delete_absent, Hnonce.
    + simpl. destruct (Main.message_listener w); reflexivity.
    + simpl. destruct (Main.pending_loads w); reflexivity.
Qed.

Lemma run_after_destroy (events : list Main.event) (w : Main.world) :
  detached w ->
  Main.sessionStorage w !! subject_key (Main.this w) = None ->
  Main.sessionStorage w !! nonce_key (Main.this w) = None ->
  detached (fst (Main.run w events))
  /\ Main.sessionStorage (fst (Main.run w events)) = Main.sessionStorage w.
Proof.
  revert w. induction events as [|ev rest IH]; intros w Hw Hsubject Hnonce;
    [split; [exact Hw | reflexivity]|].
  simpl. pose proof (step_after_destroy w ev Hw Hsubject Hnonce) as [Hd Hs].
  pose proof (step_settings w ev) as [Hsettings _].
  apply settings_keys in Hsettings as [Hsk Hnk].
  destruct (Main.step w ev) as [w' effects]. simpl in *.
  specialize (IH w' Hd). rewrite Hsk, Hnk, Hs in IH. specialize (IH Hsubject Hnonce).
  destruct (Main.run w' rest) as [w'' effects']. simpl in *.
  destruct IH as [IH1 IH2]. split; [exact IH1 | congruence].
Qed.

(** Maps that agree off the two keys agree once the two keys are removed. *)
Lemma delete_keys_agree (sk nk : string) (m1 m2 : gmap string string) :
  (forall k, k <> sk -> k <> nk -> m1 !! k = m2 !! k) ->
  delete nk (delete sk m1) = delete nk (delete sk m2).
Proof.
  intros Hagree. apply map_eq. intros k. rewrite !lookup_delete.
  repeat case_decide; try reflexivity. apply Hagree; congruence.
Qed.

Lemma run_destroyed (events : list Main.event) (w : Main.world) :
  attached w \/ detached w ->
  In Main.teardown events ->
  detached (fst (Main.run w events))
  /\ Main.sessionStorage (fst (Main.run w events))
     = delete (nonce_key (Main.this w))
         (delete (subject_key (Main.this w)) (Main.sessionStorage w)).
Proof.
  revert w. induction events as [|ev rest IH]; intros w Hw Hin; [destruct Hin|].
  assert (Hcases : ev = Main.teardown \/ ev <> Main.teardown)
    by (destruct ev; auto; right; discriminate).
  destruct Hcases as [->|Hev].
  - clear IH Hin. simpl.
    pose proof (run_after_destroy rest (Main.destroy w) (destroy_detached w Hw)) as Hrest.
    destruct (Main.run (Main.destroy w) rest) as [w'' effects']. simpl in *.
    apply Hrest.
    + unfold subject_key, nonce_key. cbn. rewrite lookup_delete.
      case_decide; [reflexivity|]. rewrite lookup_delete. case_decide; congruence.
    + unfold subject_key, nonce_key. cbn. rewrite lookup_delete.
      case_decide; congruence.
  - destruct Hin as [Heq|Hin]; [congruence|].
    simpl. pose proof (step_attached_or_detached w ev Hw) as Hw'.
    pose proof (step_settings w ev) as [Hsettings _].
    apply settings_keys in Hsettings as [Hsk Hnk].
    pose proof (step_storage w ev) as Hstorage.
    destruct (Main.step w ev) as [w' effects]. simpl in *.
    specialize (IH w' Hw' Hin).
    destruct (Main.run w' rest) as [w'' effects']. simpl in *.
    destruct IH as [IH1 IH2]. split; [exact IH1|].
    rewrite IH2, Hsk, Hnk. apply delete_keys_agree.
    intros k Hk1 Hk2. apply Hstorage; assumption.
Qed.

Lemma SessionCheck_page (config : config.t) (origin : string)
    (storage : gmap string string) (w : Main.world) :
  Main.SessionCheck config origin storage = Normal w ->
  attached w \/ detached w.
Proof.
  unfold Main.SessionCheck. cbv zeta.
  destruct (truthy (config.ssoToken config)).
  - intros [= <-]. right. repeat split.
  - destruct (_ && _); [discriminate|]. intros [= <-]. left.
    eexists. repeat split.
Qed.

(** X9. Once [destroy()] has been called, whatever happened before and
    whatever is called afterwards, the two storage entries of the
    instance are gone and everything else in sessionStorage is as it was
    before construction, the hidden iframe is no longer in the body, the
    message listener is unregistered and the instance holds no iframe. *)
Theorem X9_destroy_cleans_up (config : config.t) (origin : string)
    (storage : gmap string string) (events : list Main.event)
    (r : Main.world * list Main.effect) :
  session config origin storage events = Normal r ->
  In Main.teardown events ->
  let checkId :=
    str (if truthy (config.ssoToken config) then None
         else Main.or_default (config.authId config) "Primary") in
  Main.sessionStorage (fst r)
  = delete ("sessionCheckNonce-" +:+ checkId)
      (delete ("sessionCheckSubject-" +:+ checkId) storage)
  /\ Main.document_body (fst r) = []
  /\ Main.message_listener (fst r) = false
  /\ Main.iframe (Main.this (fst r)) = None.
Proof.
  unfold session.
  destruct (Main.SessionCheck config origin storage) as [w|e] eqn:Hnew; [|discriminate].
  cbn [bind]. intros [= <-] Hin.
  pose proof (SessionCheck_page _ _ _ _ Hnew) as Hpage.
  apply SessionCheck_authId in Hnew as [Hid Hstorage].
  rewrite <- Hid.
  destruct (run_destroyed events w Hpage Hin) as [(Hframe & Hbody & _ & Hlistener) Hs].
  repeat split; auto.
  rewrite Hs. unfold nonce_key. fold (subject_key (Main.this w)).
  fold (nonce_key (Main.this w)).
  apply delete_keys_agree. intros k Hk _. apply Hstorage, Hk.
Qed.


Lemma requests_handled (r : completion (list Main.call)) :
  requests (Main.handled r) = [].
Proof.
  destruct r as [calls|e]; [|reflexivity]. simpl.
  induction calls as [|c calls IH]; [reflexivity|exact IH].
Qed.

(** The counter and the requests of one step. *)
Lemma step_count_requests (w : Main.world) (ev : Main.event) :
  let count w := Main.request_check_count (Main.this w) in
  let issued := Z.of_nat (length (requests (snd (Main.step w ev)))) in
  issued <= count (fst (Main.step w ev)) - count w
  /\ (live (Main.this w) = true -> issued = count (fst (Main.step w ev)) - count w).
Proof.
  cbv zeta. destruct ev as [t n| |o d|text].
  - rewrite step_trigger.
    destruct (Main.cooldown_elapsed (Main.this w) t) as [[|]|e];
      [|cbn; lia|cbn; lia].
    cbn [fst snd Main.this Main.request_check_count Main.accept].
    pose proof (sessionCheckRequest_at_most_one (Main.accept (Main.this w) t) n
                  (Main.sessionStorage w)) as [Hone _].
    split; [lia|]. intros Hlive.
    rewrite (sessionCheckRequest_live (Main.accept (Main.this w) t)); [lia|].
    exact Hlive.
  - cbn. lia.
  - cbn [Main.step]. destruct (Main.message_listener w); cbn [fst snd];
      rewrite ?requests_handled; cbn; lia.
  - cbn [Main.step]. destruct (Main.pending_loads w); cbn [fst snd Main.this];
      rewrite ?requests_handled; cbn; lia.
Qed.

Lemma step_live (w : Main.world) (ev : Main.event) :
  live (Main.this w) = true ->
  truthy (Main.ssoToken (Main.this w)) = true \/ ev <> Main.teardown ->
  live (Main.this (fst (Main.step w ev))) = true.
Proof.
  intros Hlive Hcases. pose proof (step_settings w ev) as [Hsettings _].
  assert (Htoken : Main.ssoToken (Main.this (fst (Main.step w ev)))
                   = Main.ssoToken (Main.this w))
    by (unfold settings in Hsettings; congruence).
  unfold live in *. rewrite Htoken.
  destruct (truthy (Main.ssoToken (Main.this w))); [reflexivity|].
  destruct Hcases as [|Hev]; [discriminate|].
  pose proof (step_page w ev Hev) as (Hframe & _). cbv zeta in Hframe.
  rewrite Hframe. exact Hlive.
Qed.

Lemma run_count_requests (events : list Main.event) (w : Main.world) :
  let count w := Main.request_check_count (Main.this w) in
  let issued := Z.of_nat (length (requests (snd (Main.run w events)))) in
  issued <= count (fst (Main.run w events)) - count w
  /\ (live (Main.this w) = true ->
      truthy (Main.ssoToken (Main.this w)) = true \/ ~ In Main.teardown events ->
      issued = count (fst (Main.run w events)) - count w).
Proof.
  cbv zeta. revert w. induction events as [|ev rest IH]; intros w.
  - cbn. lia.
  - simpl. pose proof (step_count_requests w ev) as Hstep. cbv zeta in Hstep.
    pose proof (step_live w ev) as Hlive'.
    pose proof (step_settings w ev) as [Hsettings _].
    assert (Htoken : Main.ssoToken (Main.this (fst (Main.step w ev)))
                     = Main.ssoToken (Main.this w))
      by (unfold settings in Hsettings; congruence).
    destruct (Main.step w ev) as [w' effects]. simpl in *.
    specialize (IH w'). destruct (Main.run w' rest) as [w'' effects']. simpl in *.
    unfold requests in *. rewrite List.filter_app, List.length_app, Nat2Z.inj_add.
    destruct Hstep as [Hle Heq], IH as [IHle IHeq]. split; [lia|].
    intros Hlive Hcases.
    rewrite Heq by exact Hlive. rewrite IHeq; [lia| |].
    + apply Hlive'; [exact Hlive|]. destruct Hcases as [Ht|Hno]; [auto|].
      right. intros ->. apply Hno. now left.
    + rewrite Htoken. destruct Hcases as [Ht|Hno]; [auto|]. right. intros Hin.
      apply Hno. now right.
Qed.

Lemma SessionCheck_fresh (config : config.t) (origin : string)
    (storage : gmap string string) (w : Main.world) :
  Main.SessionCheck config origin storage = Normal w ->
  Main.request_check_count (Main.this w) = 0
  /\ Main.checkSessionTimestamp (Main.this w) = None
  /\ live (Main.this w) = true
  /\ Main.ssoToken (Main.this w)
     = (if truthy (config.ssoToken config) then config.ssoToken config else None)
  /\ Main.cooldownPeriod (Main.this w)
     = or_else (config.cooldownPeriod config) (VNum (Int 5)).
Proof.
  unfold Main.SessionCheck. cbv zeta.
  destruct (truthy (config.ssoToken config)) eqn:Hmode.
  - intros [= <-]. unfold live. cbn. rewrite Hmode. repeat split.
  - destruct (_ && _); [discriminate|]. intros [= <-]. repeat split.
Qed.

(** X10. The counter never falls behind the requests: at the end of every
    session the number of verification requests issued is at most
    [request_check_count], and equal to it in trusted-token mode and in
    standards-based mode as long as [destroy()] has not been called. *)
Theorem X10_counter_bounds_the_requests (config : config.t) (origin : string)
    (storage : gmap string string) (events : list Main.event)
    (r : Main.world * list Main.effect) :
  session config origin storage events = Normal r ->
  let count := Main.request_check_count (Main.this (fst r)) in
  let issued := Z.of_nat (length (requests (snd r))) in
  issued <= count
  /\ (truthy (config.ssoToken config) = true \/ ~ In Main.teardown events ->
      issued = count).
Proof.
  unfold session.
  destruct (Main.SessionCheck config origin storage) as [w|e] eqn:Hnew; [|discriminate].
  cbn [bind]. intros [= <-].
  apply SessionCheck_fresh in Hnew as (Hzero & _ & Hlive & Htoken & _).
  pose proof (run_count_requests events w) as [Hle Heq]. cbv zeta in Hle, Heq.
  rewrite Hzero in Hle, Heq. split; [lia|].
  intros Hcases. rewrite Heq; [lia|exact Hlive|].
  rewrite Htoken. destruct Hcases as [Ht|Hno]; [|auto]. left. rewrite Ht. exact Ht.
Qed.





(** Requests only leave through the dispatcher: what a step requests is
    what the dispatcher issues for the instance, with the settings the
    constructor gave it. *)
Lemma step_requests (w : Main.world) (ev : Main.event) (P : Main.effect -> Prop) :
  (forall this n storage,
      settings this = settings (Main.this w) ->
      Forall P (snd (Main.sessionCheckRequest this n storage))) ->
  Forall P (requests (snd (Main.step w ev))).
Proof.
  intros Hdispatch. destruct ev as [t n| |o d|text].
  - rewrite step_trigger.
    destruct (Main.cooldown_elapsed (Main.this w) t) as [[|]|e];
      [|constructor|constructor].
    cbn [snd]. unfold requests. apply List.Forall_forall.
    intros x Hx. apply List.filter_In in Hx as [Hx _].
    specialize (Hdispatch (Main.accept (Main.this w) t) n (Main.sessionStorage w) eq_refl).
    rewrite List.Forall_forall in Hdispatch. apply Hdispatch, Hx.
  - constructor.
  - cbn [Main.step]. destruct (Main.message_listener w); cbn [snd];
      rewrite ?requests_handled; constructor.
  - cbn [Main.step]. destruct (Main.pending_loads w); cbn [snd];
      rewrite ?requests_handled; constructor.
Qed.

Lemma run_requests (events : list Main.event) (w : Main.world)
    (P : Main.effect -> Prop) :
  (forall this n storage,
      settings this = settings (Main.this w) ->
      Forall P (snd (Main.sessionCheckRequest this n storage))) ->
  Forall P (requests (snd (Main.run w events))).
Proof.
  revert w. induction events as [|ev rest IH]; intros w Hdispatch; [constructor|].
  simpl. pose proof (step_requests w ev P Hdispatch) as Hstep.
  pose proof (step_settings w ev) as [Hsettings _].
  destruct (Main.step w ev) as [w' effects]. simpl in *.
  specialize (IH w'). destruct (Main.run w' rest) as [w'' effects']. simpl in *.
  unfold requests in *. rewrite List.filter_app. apply Forall_app. split; [exact Hstep|].
  apply IH. intros this n storage Hthis. apply Hdispatch. congruence.
Qed.

(** X12. Trusted-token mode never uses the iframe channel: every request
    of a session constructed with an [ssoToken] is the same validation
    call, POST [<amUrl>/sessions?_action=validate] with the session token
    in the header named [ssoTokenName] (default [iPlanetDirectoryPro]) and
    [Accept-API-Version: resource=2.1, protocol=1.0]; no iframe is ever
    appended and no message listener is ever registered. *)
Theorem X12_trusted_requests (config : config.t) (origin : string)
    (storage : gmap string string) (events : list Main.event)
    (r : Main.world * list Main.effect) :
  session config origin storage events = Normal r ->
  truthy (config.ssoToken config) = true ->
  Forall (fun x =>
            x = Main.XHR "POST"
                  (str (config.amUrl config) +:+ "/sessions?_action=validate")
                  [(str (Main.or_default (config.ssoTokenName config)
                           "iPlanetDirectoryPro"),
                    str (config.ssoToken config));
                   ("Accept-API-Version", "resource=2.1, protocol=1.0")])
         (requests (snd r))
  /\ Main.document_body (fst r) = []
  /\ Main.message_listener (fst r) = false.
Proof.
  unfold session.
  destruct (Main.SessionCheck config origin storage) as [w|e] eqn:Hnew; [|discriminate].
  cbn [bind]. intros [= <-] Hmode.
  assert (Hw : settings (Main.this w)
               = (config, or_else (config.cooldownPeriod config) (VNum (Int 5)),
                  config.subject config,
                  Main.or_default (config.ssoTokenName config) "iPlanetDirectoryPro",
                  config.ssoToken config,
                  Some (str (config.amUrl config) +:+ "/sessions?_action=validate"),
                  None, None, None, None, None, None, None)
               /\ detached w).
  { unfold Main.SessionCheck in Hnew. cbv zeta in Hnew. rewrite Hmode in Hnew.
    injection Hnew as <-. split; [reflexivity|]. repeat split. }
  destruct Hw as [Hsettings Hdetached]. split.
  - apply run_requests. intros this n storage' Hthis.
    rewrite Hsettings in Hthis. unfold settings in Hthis.
    injection Hthis as _ _ _ Hname Htoken Hurl _ _ _ _ _ _ _.
    unfold Main.sessionCheckRequest. rewrite Htoken, Hmode, Hname, Hurl.
    repeat constructor.
  - pose proof (run_detached events w Hdetached) as Hrun.
    destruct Hrun as (_ & Hbody & _ & Hlistener). auto.
Qed.


Lemma SessionCheck_standards_settings (config : config.t) (origin : string)
    (storage : gmap string string) (w : Main.world) :
  Main.SessionCheck config origin storage = Normal w ->
  truthy (config.ssoToken config) = false ->
  let responseType := Main.or_default (config.responseType config) "id_token" in
  settings (Main.this w)
  = (config, or_else (config.cooldownPeriod config) (VNum (Int 5)),
     config.subject config, None, None, None,
     (if negb (truthy (config.redirectUri config))
      then Some (resolve_href "sessionCheck.html")
      else config.redirectUri config),
     config.idToken config, config.clientId config,
     Main.or_default (config.authId config) "Primary",
     config.opUrl config, responseType,
     (if Main.equals "id_token" responseType
      then Main.or_default (config.scope config) "openid" else None))
  /\ (Main.equals "none" responseType = true -> truthy (config.idToken config) = true)
  /\ attached w.
Proof.
  intros Hnew Hmode. unfold Main.SessionCheck in Hnew. cbv zeta in Hnew.
  rewrite Hmode in Hnew. cbv zeta.
  destruct (Main.equals "none" _) eqn:Hnone.
  - destruct (truthy (config.idToken config)); [|discriminate].
    cbn [negb andb] in Hnew. injection Hnew as <-.
    split; [reflexivity|]. split; [reflexivity|]. eexists. repeat split.
  - cbn [andb] in Hnew. injection Hnew as <-.
    split; [reflexivity|]. split; [discriminate|]. eexists. repeat split.
Qed.

(** An instance that sends no nonce only ever removes items. *)
Lemma step_without_nonce (w : Main.world) (ev : Main.event) (k v : string) :
  Main.equals "id_token" (Main.responseType (Main.this w)) = false ->
  Main.sessionStorage (fst (Main.step w ev)) !! k = Some v ->
  Main.sessionStorage w !! k = Some v.
Proof.
  intros Htype. destruct ev as [t n| |o d|text].
  - rewrite step_trigger.
    destruct (Main.cooldown_elapsed (Main.this w) t) as [[|]|e]; try (intros Hk; exact Hk).
    cbn [fst Main.sessionStorage]. unfold Main.sessionCheckRequest.
    destruct (truthy (Main.ssoToken _)); [intros Hk; exact Hk|].
    destruct (Main.iframe _); [|intros Hk; exact Hk].
    cbv zeta. cbn [Main.accept Main.responseType]. rewrite Htype. intros Hk; exact Hk.
  - cbn [Main.step fst Main.destroy Main.sessionStorage]. rewrite !lookup_delete.
    repeat case_decide; congruence.
  - cbn [Main.step]. destruct (Main.message_listener w); intros Hk; exact Hk.
  - cbn [Main.step]. destruct (Main.pending_loads w); intros Hk; exact Hk.
Qed.

Lemma run_without_nonce (events : list Main.event) (w : Main.world) (k v : string) :
  Main.equals "id_token" (Main.responseType (Main.this w)) = false ->
  Main.sessionStorage (fst (Main.run w events)) !! k = Some v ->
  Main.sessionStorage w !! k = Some v.
Proof.
  revert w. induction events as [|ev rest IH]; intros w Htype; [intros Hk; exact Hk|].
  simpl. pose proof (step_without_nonce w ev k v Htype) as Hstep.
  pose proof (step_settings w ev) as [Hsettings _].
  destruct (Main.step w ev) as [w' effects]. simpl in *.
  specialize (IH w'). destruct (Main.run w' rest) as [w'' effects']. simpl in *.
  intros Hk. apply Hstep, IH; [|exact Hk].
  unfold settings in Hsettings. replace (Main.responseType (Main.this w'))
    with (Main.responseType (Main.this w)) by congruence. exact Htype.
Qed.

(** X13. In the [none] flow every request of a session is the same
    navigation: prompt=none, the client id, response_type=none, the
    redirect URI (default: [sessionCheck.html] resolved against the page),
    the check id as state, and the id_token as [id_token_hint], which the
    constructor guarantees to be there; no nonce and no scope is sent,
    even when [config.scope] is set, and no nonce is recorded in
    sessionStorage. *)
Theorem X13_none_flow_requests (config : config.t) (origin : string)
    (storage : gmap string string) (events : list Main.event)
    (r : Main.world * list Main.effect) :
  session config origin storage events = Normal r ->
  truthy (config.ssoToken config) = false ->
  config.responseType config = Some "none" ->
  let redirectUri :=
    if negb (truthy (config.redirectUri config))
    then Some (resolve_href "sessionCheck.html")
    else config.redirectUri config in
  let authId := Main.or_default (config.authId config) "Primary" in
  truthy (config.idToken config) = true
  /\ Forall (fun x =>
               x = Main.Navigate
                     ((str (config.opUrl config) +:+ "?prompt=none"
                       +:+ "&client_id=" +:+ str (config.clientId config)
                       +:+ "&response_type=" +:+ "none"
                       +:+ "&redirect_uri=" +:+ str redirectUri
                       +:+ "&state=" +:+ str authId)
                      +:+ "&id_token_hint=" +:+ str (config.idToken config)))
            (requests (snd r))
  /\ forall nonce : string,
       Main.sessionStorage (fst r) !! ("sessionCheckNonce-" +:+ str authId) = Some nonce ->
       storage !! ("sessionCheckNonce-" +:+ str authId) = Some nonce.
Proof.
  unfold session.
  destruct (Main.SessionCheck config origin storage) as [w|e] eqn:Hnew; [|discriminate].
  cbn [bind]. intros [= <-] Hmode Htype.
  pose proof (SessionCheck_standards_settings _ _ _ _ Hnew Hmode) as Hw.
  cbv zeta in Hw. rewrite Htype in Hw.
  change (Main.or_default (Some "none") "id_token") with (Some "none") in Hw.
  change (Main.equals "id_token" (Some "none")) with false in Hw.
  change (Main.equals "none" (Some "none")) with true in Hw.
  destruct Hw as (Hsettings & Hhint & _). specialize (Hhint eq_refl).
  split; [exact Hhint|]. split.
  - apply run_requests. intros this n storage' Hthis.
    rewrite Hsettings in Hthis. unfold settings in Hthis.
    injection Hthis as _ _ _ _ Htoken _ Hredirect HidToken Hclient Hid Hop Hresponse Hscope.
    unfold Main.sessionCheckRequest.
    rewrite Htoken, Hredirect, HidToken, Hclient, Hid, Hop, Hresponse, Hscope, Hhint.
    cbn [truthy]. destruct (Main.iframe this); repeat constructor.
  - intros nonce Hnonce. apply run_without_nonce in Hnonce.
    + apply SessionCheck_authId in Hnew as [Hid Hstorage].
      rewrite <- Hstorage; [exact Hnonce|].
      unfold subject_key. intros [=].
    + unfold settings in Hsettings.
      replace (Main.responseType (Main.this w)) with (Some "none") by congruence.
      reflexivity.
Qed.


(** What the dispatcher issues depends on the settings and on the iframe
    only. *)
Lemma sessionCheckRequest_settings (a b : Main.instance) (n : Z)
    (s1 s2 : gmap string string) :
  settings a = settings b -> Main.iframe a = Main.iframe b ->
  snd (Main.sessionCheckRequest a n s1) = snd (Main.sessionCheckRequest b n s2).
Proof.
  unfold settings. intros [= _ _ _ Hname Htoken Hurl Hredirect HidToken Hclient Hid Hop
                             Hresponse Hscope] Hframe.
  unfold Main.sessionCheckRequest.
  rewrite Hname, Htoken, Hurl, Hredirect, HidToken, Hclient, Hid, Hop, Hresponse,
    Hscope, Hframe.
  destruct (truthy (Main.ssoToken b)); [reflexivity|].
  destruct (Main.iframe b); reflexivity.
Qed.

(** A dispatching id_token instance records the nonce it sends. *)
Lemma sessionCheckRequest_records_nonce (this : Main.instance) (n : Z)
    (storage : gmap string string) :
  truthy (Main.ssoToken this) = false ->
  Main.equals "id_token" (Main.responseType this) = true ->
  is_Some (Main.iframe this) ->
  exists url,
    snd (Main.sessionCheckRequest this n storage) = [Main.Navigate url]
    /\ fst (Main.sessionCheckRequest this n storage) !! nonce_key this
       = Some (pretty n).
Proof.
  intros Hmode Htype [frame Hframe]. unfold Main.sessionCheckRequest.
  rewrite Hmode, Hframe. cbv zeta. rewrite Htype. cbn [fst snd].
  eexists. split; [reflexivity|]. unfold nonce_key. apply lookup_insert_eq.
Qed.

(** While an id_token instance owns its iframe, the nonce in
    sessionStorage is the nonce of the request sent last. *)
Lemma run_records_nonce (events : list Main.event) (w : Main.world) :
  truthy (Main.ssoToken (Main.this w)) = false ->
  Main.equals "id_token" (Main.responseType (Main.this w)) = true ->
  is_Some (Main.iframe (Main.this w)) ->
  ~ In Main.teardown events ->
  match last (requests (snd (Main.run w events))) with
  | Some x =>
      exists t n,
        In (Main.trigger t n) events
        /\ [x] = snd (Main.sessionCheckRequest (Main.this w) n ∅)
        /\ Main.sessionStorage (fst (Main.run w events)) !! nonce_key (Main.this w)
           = Some (pretty n)
  | None =>
      Main.sessionStorage (fst (Main.run w events)) !! nonce_key (Main.this w)
      = Main.sessionStorage w !! nonce_key (Main.this w)
  end.
Proof.
  revert w. induction events as [|ev rest IH]; intros w Hmode Htype Hframe Hno;
    [reflexivity|].
  assert (Hev : ev <> Main.teardown) by (intros ->; apply Hno; now left).
  assert (Hrest : ~ In Main.teardown rest) by (intros Hin; apply Hno; now right).
  simpl.
  pose proof (step_settings w ev) as [Hsettings _].
  pose proof (step_page w ev Hev) as (Hsame & _). cbv zeta in Hsame.
  pose proof (settings_keys _ _ Hsettings) as [_ Hnk].
  assert (Hfields : Main.ssoToken (Main.this (fst (Main.step w ev)))
                    = Main.ssoToken (Main.this w)
                    /\ Main.responseType (Main.this (fst (Main.step w ev)))
                       = Main.responseType (Main.this w))
    by (unfold settings in Hsettings; split; congruence).
  destruct Hfields as [Htoken Hresponse].
  assert (Hfirst :
    match requests (snd (Main.step w ev)) with
    | [] => Main.sessionStorage (fst (Main.step w ev)) !! nonce_key (Main.this w)
            = Main.sessionStorage w !! nonce_key (Main.this w)
    | x :: others =>
        others = []
        /\ exists t n,
             ev = Main.trigger t n
             /\ [x] = snd (Main.sessionCheckRequest (Main.this w) n ∅)
             /\ Main.sessionStorage (fst (Main.step w ev)) !! nonce_key (Main.this w)
                = Some (pretty n)
    end).
  { destruct ev as [t n| |o d|text].
    - rewrite step_trigger.
      destruct (Main.cooldown_elapsed (Main.this w) t) as [[|]|e];
        [|reflexivity|reflexivity].
      cbn [fst snd Main.sessionStorage].
      destruct (sessionCheckRequest_records_nonce (Main.accept (Main.this w) t) n
                  (Main.sessionStorage w)) as (url & Hurl & Hnonce); auto.
      rewrite Hurl. cbn. split; [reflexivity|]. exists t, n.
      split; [reflexivity|]. split; [|exact Hnonce].
      rewrite <- Hurl. apply sessionCheckRequest_settings; reflexivity.
    - contradiction.
    - cbn [Main.step]. destruct (Main.message_listener w); cbn [fst snd];
        rewrite ?requests_handled; reflexivity.
    - cbn [Main.step]. destruct (Main.pending_loads w); cbn [fst snd];
        rewrite ?requests_handled; reflexivity. }
  destruct (Main.step w ev) as [w' effects]. simpl in *.
  specialize (IH w'). rewrite Htoken, Hresponse, Hsame, Hnk in IH.
  specialize (IH Hmode Htype Hframe Hrest).
  destruct (Main.run w' rest) as [w'' effects']. simpl in *.
  unfold requests in *. rewrite List.filter_app, last_app.
  destruct (last (List.filter is_request effects')) as [x|].
  - destruct IH as (t & n & Hin & Hx & Hstored). exists t, n.
    split; [now right|]. split; [|exact Hstored].
    rewrite Hx. apply sessionCheckRequest_settings; [exact Hsettings | exact Hsame].
  - destruct (List.filter is_request effects) as [|x others].
    + cbn. congruence.
    + destruct Hfirst as (-> & t & n & -> & Hx & Hstored). cbn.
      exists t, n. split; [now left|]. split; [exact Hx|]. congruence.
Qed.

(** X14. In the [id_token] flow, as long as [destroy()] has not been
    called, the nonce recorded under [sessionCheckNonce-<authId>] is the
    nonce of the request sent last: that request carries prompt=none, the
    client id, response_type=id_token, the redirect URI, the check id as
    state, the nonce drawn by one of the trigger calls, a scope (default
    [openid]) and, when an id_token is configured, the hint; and the entry
    holds the decimal text of that nonce. Before the first request the
    entry is what it was before construction. *)
Theorem X14_id_token_flow_requests (config : config.t) (origin : string)
    (storage : gmap string string) (events : list Main.event)
    (r : Main.world * list Main.effect) :
  session config origin storage events = Normal r ->
  truthy (config.ssoToken config) = false ->
  Main.or_default (config.responseType config) "id_token" = Some "id_token" ->
  ~ In Main.teardown events ->
  let redirectUri :=
    if negb (truthy (config.redirectUri config))
    then Some (resolve_href "sessionCheck.html")
    else config.redirectUri config in
  let authId := Main.or_default (config.authId config) "Primary" in
  let scope := Main.or_default (config.scope config) "openid" in
  let authorizationUrl (nonce : Z) :=
    ((str (config.opUrl config) +:+ "?prompt=none"
      +:+ "&client_id=" +:+ str (config.clientId config)
      +:+ "&response_type=" +:+ "id_token"
      +:+ "&redirect_uri=" +:+ str redirectUri
      +:+ "&state=" +:+ str authId)
     +:+ "&nonce=" +:+ pretty nonce)
    +:+ "&scope=" +:+ str scope in
  match last (requests (snd r)) with
  | Some x =>
      exists t nonce,
        In (Main.trigger t nonce) events
        /\ x = Main.Navigate
                 (if truthy (config.idToken config)
                  then authorizationUrl nonce
                       +:+ "&id_token_hint=" +:+ str (config.idToken config)
                  else authorizationUrl nonce)
        /\ Main.sessionStorage (fst r) !! ("sessionCheckNonce-" +:+ str authId)
           = Some (pretty nonce)
  | None =>
      Main.sessionStorage (fst r) !! ("sessionCheckNonce-" +:+ str authId)
      = storage !! ("sessionCheckNonce-" +:+ str authId)
  end.
Proof.
  unfold session.
  destruct (Main.SessionCheck config origin storage) as [w|e] eqn:Hnew; [|discriminate].
  cbn [bind]. intros [= <-] Hmode Htype Hno.
  pose proof (SessionCheck_standards_settings _ _ _ _ Hnew Hmode) as Hw.
  cbv zeta in Hw. rewrite Htype in Hw.
  change (Main.equals "id_token" (Some "id_token")) with true in Hw.
  destruct Hw as (Hsettings & _ & (frame & Hframe & _)).
  unfold settings in Hsettings.
  injection Hsettings as _ _ _ _ Htoken _ Hredirect HidToken Hclient Hid Hop Hresponse
                           Hscope.
  assert (Hscoped : truthy (Main.or_default (config.scope config) "openid") = true).
  { unfold Main.or_default. destruct (truthy (config.scope config)) eqn:E;
      [exact E | reflexivity]. }
  pose proof (run_records_nonce events w) as Hrun.
  rewrite Htoken, Hresponse, Hframe in Hrun.
  specialize (Hrun eq_refl eq_refl (ex_intro _ frame eq_refl) Hno).
  unfold nonce_key in Hrun. rewrite Hid in Hrun. cbv zeta.
  destruct (last (requests (snd (Main.run w events)))) as [x|].
  - destruct Hrun as (t & n & Hin & Hx & Hstored). exists t, n.
    split; [exact Hin|]. split; [|exact Hstored].
    unfold Main.sessionCheckRequest in Hx. cbv zeta in Hx.
    rewrite Htoken, Hframe, Hredirect, HidToken, Hclient, Hid, Hop, Hresponse, Hscope,
      Hscoped in Hx.
    cbn [truthy Main.equals String.eqb Ascii.eqb Bool.eqb snd] in Hx.
    injection Hx as ->. destruct (truthy (config.idToken config)); reflexivity.
  - rewrite Hrun. apply SessionCheck_authId in Hnew as [_ Hstorage].
    apply Hstorage. unfold subject_key. intros [=].
Qed.


(** X15. sessionCheck.js never writes the two items the verifier reads:
    [sessionCheckNonce] and [sessionCheckSubject] hold after every session
    what they held before it. Hence, unless something else stored a nonce
    ledger, the verifier cannot classify an id_token response that
    follows a request of sessionCheck.js: it throws on the missing ledger
    and posts nothing. *)
Theorem X15_verifier_ledgers_are_never_written (config : config.t) (origin : string)
    (storage : gmap string string) (events : list Main.event)
    (r : Main.world * list Main.effect) :
  session config origin storage events = Normal r ->
  (Main.sessionStorage (fst r) !! "sessionCheckNonce" = storage !! "sessionCheckNonce"
   /\ Main.sessionStorage (fst r) !! "sessionCheckSubject"
      = storage !! "sessionCheckSubject")
  /\ forall (w : Frame.window) (id_token : string) (new_claims : value),
       storage !! "sessionCheckNonce" = None ->
       Frame.parent_window_origin w = Frame.window_origin w ->
       Frame.response_params w !! "id_token" = Some id_token ->
       Frame.getIdTokenClaims id_token = Normal new_claims ->
       Frame.sessionCheckFrame w (Main.sessionStorage (fst r))
       = Frame.Uncaught (TypeError "Cannot read properties of null").
Proof.
  intros Hsession.
  assert (Hitems :
    Main.sessionStorage (fst r) !! "sessionCheckNonce" = storage !! "sessionCheckNonce"
    /\ Main.sessionStorage (fst r) !! "sessionCheckSubject"
       = storage !! "sessionCheckSubject").
  { split; apply (session_storage _ _ _ _ _ _ Hsession); intros [=]. }
  split; [exact Hitems|].
  intros w id_token new_claims Hnone Horigin Htoken Hclaims.
  rewrite (sessionCheckFrame_id_token w _ id_token Horigin Htoken).
  unfold Frame.check_id_token. rewrite Hclaims. cbn [bind].
  destruct Hitems as [-> _]. rewrite Hnone. reflexivity.
Qed.

Lemma strict_eq_VStr (v : value) (s : string) :
  strict_eq v (VStr s) = true -> v = VStr s.
Proof.
  destruct v as [| | |n|x| | |]; try discriminate.
  - destruct n; discriminate.
  - simpl. intros Heq. apply String.eqb_eq in Heq. now subst.
Qed.

Lemma In_map_Handler (c : Main.call) (calls : list Main.call) :
  In (Main.Handler c) (List.map Main.Handler calls) -> In c calls.
Proof.
  intros Hin. apply List.in_map_iff in Hin as (c' & [= ->] & Hin). exact Hin.
Qed.

(** X16. What a message event can make the listener call. A handler is
    called only while the listener is registered, for a message whose
    origin is the page's and whose [authId] is falsy or the instance's:
    [invalidSessionHandler] only for [sessionCheckFailed], with the
    message's reason and the current count; [sessionClaimsHandler] only
    for [sessionCheckSucceeded] with truthy claims, with these claims and
    the current count; [initialSessionSuccessHandler] only for
    [sessionCheckSucceeded] while the count is 1; each only if it was
    configured. *)
Theorem X16_handler_calls_of_a_message (w : Main.world) (e_origin : string)
    (e_data : value) (c : Main.call) :
  In (Main.Handler c) (snd (Main.step w (Main.message e_origin e_data))) ->
  let this := Main.this w in
  let config := Main.closure_config this in
  exists e_authId : value,
    Main.message_listener w = true
    /\ e_origin = Main.document_location_origin w
    /\ Get e_data "authId" = Normal e_authId
    /\ (to_boolean e_authId = false
        \/ strict_eq e_authId (opt_value (Main.authId this)) = true)
    /\ match c with
       | Main.invalidSessionHandler reason count =>
           Get e_data "message" = Normal (VStr "sessionCheckFailed")
           /\ Get e_data "reason" = Normal reason
           /\ count = Main.request_check_count this
           /\ config.invalidSessionHandler config = true
       | Main.sessionClaimsHandler claims count =>
           Get e_data "message" = Normal (VStr "sessionCheckSucceeded")
           /\ Get e_data "claims" = Normal claims
           /\ to_boolean claims = true
           /\ count = Main.request_check_count this
           /\ config.sessionClaimsHandler config = true
       | Main.initialSessionSuccessHandler =>
           Get e_data "message" = Normal (VStr "sessionCheckSucceeded")
           /\ Main.request_check_count this = 1
           /\ config.initialSessionSuccessHandler config = true
       end.
Proof.
  cbv zeta. cbn [Main.step].
  destruct (Main.message_listener w); [|intros []].
  cbn [snd]. unfold Main.eventListenerHandle. cbv zeta.
  destruct (Get e_data "authId") as [e_authId|e] eqn:Hid;
    [|cbn; intros [Hin|[]]; discriminate].
  cbn [bind].
  destruct (to_boolean e_authId && negb (strict_eq e_authId _)) eqn:Hfilter;
    [intros []|].
  destruct (String.eqb_spec e_origin (Main.document_location_origin w)) as [->|];
    [|intros []].
  cbn [negb].
  destruct (Get e_data "message") as [e_message|e] eqn:Hmessage;
    [|cbn; intros [Hin|[]]; discriminate].
  cbn [bind].
  destruct (Get e_data "reason") as [e_reason|e] eqn:Hreason;
    [|cbn; intros [Hin|[]]; discriminate].
  cbn [bind].
  destruct (Get e_data "claims") as [e_claims|e] eqn:Hclaims;
    [|cbn; intros [Hin|[]]; discriminate].
  cbn [bind Main.handled]. intros Hin. apply In_map_Handler in Hin.
  exists e_authId. split; [reflexivity|]. split; [reflexivity|]. split; [reflexivity|].
  split.
  { destruct (to_boolean e_authId); [|now left]. right.
    destruct (strict_eq e_authId _); [reflexivity|discriminate]. }
  apply List.in_app_or in Hin as [Hin|Hin].
  - destruct (strict_eq e_message (VStr "sessionCheckFailed")) eqn:Hfailed; [|destruct Hin].
    destruct (config.invalidSessionHandler _) eqn:Hhandler; [|destruct Hin].
    destruct Hin as [<-|[]]. apply strict_eq_VStr in Hfailed. subst. auto.
  - destruct (strict_eq e_message (VStr "sessionCheckSucceeded")) eqn:Hok; [|destruct Hin].
    apply strict_eq_VStr in Hok. subst e_message.
    apply List.in_app_or in Hin as [Hin|Hin].
    + destruct (config.sessionClaimsHandler _) eqn:Hhandler; [|destruct Hin].
      destruct (to_boolean e_claims) eqn:Htruthy; [|destruct Hin].
      destruct Hin as [<-|[]]. auto.
    + destruct (config.initialSessionSuccessHandler _) eqn:Hhandler; [|destruct Hin].
      destruct (Z.eqb_spec (Main.request_check_count (Main.this w)) 1) as [Hone|];
        [|destruct Hin].
      destruct Hin as [<-|[]]. auto.
Qed.

(** X17. The message listener throws exactly on messages whose data is
    [null] or [undefined], and this whatever their origin, since
    [e.data.authId] is read before the origin is tested; on every other
    message it completes. *)
Theorem X17_listener_throws_on_null_data_only (this : Main.instance)
    (document_location_origin e_origin : string) (e_data : value) :
  (e_data = VUndefined \/ e_data = VNull ->
   exists e, Main.eventListenerHandle this document_location_origin e_origin e_data
             = Throw e)
  /\ (e_data <> VUndefined -> e_data <> VNull ->
      exists calls,
        Main.eventListenerHandle this document_location_origin e_origin e_data
        = Normal calls).
Proof.
  split.
  - intros [-> | ->]; eexists; reflexivity.
  - intros Hundefined Hnull. unfold Main.eventListenerHandle. cbv zeta.
    assert (Hget : forall k, exists v, Get e_data k = Normal v).
    { intros k. destruct e_data; try contradiction; eexists; reflexivity. }
    destruct (Hget "authId") as [a ->]. cbn [bind].
    destruct (_ && _); [eexists; reflexivity|].
    destruct (negb _); [eexists; reflexivity|].
    destruct (Hget "message") as [m ->]. destruct (Hget "reason") as [rs ->].
    destruct (Hget "claims") as [cl ->]. cbn [bind]. eexists; reflexivity.
Qed.


Lemma authId_filter_passes (state : option string) :
  to_boolean (opt_value state) && negb (strict_eq (opt_value state) (opt_value state))
  = false.
Proof.
  destruct state as [s|]; [|reflexivity]. simpl. rewrite String.eqb_refl.
  apply andb_false_r.
Qed.

(** X18. The verifier and the listener fit together: every message the
    verifier posts from a frame of the page, for a response whose state is
    the check id of the instance, is accepted by the listener without an
    error. A failure reaches [invalidSessionHandler] with the verifier's
    reason; a success reaches [sessionClaimsHandler] with the verifier's
    claims (when there are any) and, while the count is 1,
    [initialSessionSuccessHandler]. *)
Theorem X18_verdicts_reach_the_handlers (frame : Frame.window)
    (storage : gmap string string) (w : Main.world) (message : value)
    (targetOrigin : string) :
  Frame.sessionCheckFrame frame storage = Frame.postMessage message targetOrigin ->
  Main.message_listener w = true ->
  Main.document_location_origin w = Frame.parent_window_origin frame ->
  Frame.response_params frame !! "state" = Main.authId (Main.this w) ->
  let this := Main.this w in
  let config := Main.closure_config this in
  let count := Main.request_check_count this in
  (exists reason : string,
      Get message "message" = Normal (VStr "sessionCheckFailed")
      /\ Get message "reason" = Normal (VStr reason)
      /\ snd (Main.step w (Main.message targetOrigin message))
         = if config.invalidSessionHandler config
           then [Main.Handler (Main.invalidSessionHandler (VStr reason) count)]
           else [])
  \/ (exists claims : value,
        Get message "message" = Normal (VStr "sessionCheckSucceeded")
        /\ Get message "claims" = Normal claims
        /\ snd (Main.step w (Main.message targetOrigin message))
           = List.map Main.Handler
               ((if config.sessionClaimsHandler config && to_boolean claims
                 then [Main.sessionClaimsHandler claims count] else [])
                ++ (if config.initialSessionSuccessHandler config && (count =? 1)
                    then [Main.initialSessionSuccessHandler] else []))).
Proof.
  intros Hposted Hlistener Hpage Hstate. cbv zeta.
  apply sessionCheckFrame_posts in Hposted. cbv zeta in Hposted.
  destruct Hposted as (Horigin & -> & Hshape).
  cbn [Main.step]. rewrite Hlistener. cbn [snd].
  unfold Main.eventListenerHandle. cbv zeta.
  rewrite Hpage, Horigin, String.eqb_refl. rewrite Hstate in Hshape.
  destruct Hshape as [(id_token & claims & _ & [-> | [-> | ->]])
                     | [(error & _ & _ & ->) | (_ & _ & ->)]].
  - left. exists "nonce_mismatch". split; [reflexivity|]. split; [reflexivity|].
    cbn [Get Frame.failed_message own_property String.eqb Ascii.eqb Bool.eqb default
         bind from_option id].
    rewrite authId_filter_passes. cbn.
    destruct (config.invalidSessionHandler _); reflexivity.
  - left. exists "subject_mismatch". split; [reflexivity|]. split; [reflexivity|].
    cbn [Get Frame.failed_message own_property String.eqb Ascii.eqb Bool.eqb default
         bind from_option id].
    rewrite authId_filter_passes. cbn.
    destruct (config.invalidSessionHandler _); reflexivity.
  - right. exists claims. split; [reflexivity|]. split; [reflexivity|].
    cbn [Get Frame.succeeded_with_claims own_property String.eqb Ascii.eqb Bool.eqb
         default bind from_option id].
    rewrite authId_filter_passes.
    cbn [negb strict_eq String.eqb Ascii.eqb Bool.eqb andb app Main.handled].
    reflexivity.
  - left. exists error. split; [reflexivity|]. split; [reflexivity|]. cbn.
    destruct (config.invalidSessionHandler _); reflexivity.
  - right. exists VUndefined. split; [reflexivity|]. split; [reflexivity|].
    cbn [Get Frame.succeeded_message own_property String.eqb Ascii.eqb Bool.eqb
         default bind from_option id].
    rewrite authId_filter_passes.
    cbn [negb strict_eq String.eqb Ascii.eqb Bool.eqb andb app Main.handled to_boolean].
    rewrite andb_false_r. reflexivity.
Qed.

(** X19. When the validation handler throws. With the failure handler
    supplied it throws only if the response text parses to [null] (or
    [undefined]), whose [valid] cannot be read. Without it, the handler
    being called unguarded, every detected failure throws: the validation
    handler completes only for a response that parses, whose [valid] is
    truthy and whose [uid] is the configured subject, if one is
    configured. *)
Theorem X19_validation_handler_exceptions (this : Main.instance)
    (responseText : string) :
  let config := Main.closure_config this in
  (config.invalidSessionHandler config = true ->
   forall e, Main.validationHandler this responseText = Throw e ->
             JSON_parse responseText = Normal VNull
             \/ JSON_parse responseText = Normal VUndefined)
  /\ (config.invalidSessionHandler config = false ->
      forall calls, Main.validationHandler this responseText = Normal calls ->
        exists validationResponse valid uid : value,
          JSON_parse responseText = Normal validationResponse
          /\ Get validationResponse "valid" = Normal valid
          /\ to_boolean valid = true
          /\ Get validationResponse "uid" = Normal uid
          /\ (truthy (Main.subject this) = false
              \/ strict_eq (opt_value (Main.subject this)) uid = true)).
Proof.
  cbv zeta. unfold Main.validationHandler, Main.call_invalidSessionHandler. cbv zeta.
  split; intros Hhandler; rewrite Hhandler.
  - intros e. destruct (JSON_parse responseText) as [v|e']; [|discriminate].
    destruct v; try (intros _; auto; fail); cbn [Get bind];
      repeat (match goal with
              | |- context [if ?b then _ else _] => destruct b
              end; try discriminate).
  - intros calls. destruct (JSON_parse responseText) as [v|e']; [|discriminate].
    destruct (Get v "valid") as [valid|e'] eqn:Hvalid; [|discriminate]. cbn [bind].
    destruct (to_boolean valid) eqn:Htruthy; [|discriminate]. cbn [negb].
    destruct (Get v "uid") as [uid|e'] eqn:Huid; [|discriminate]. cbn [bind].
    destruct (truthy (Main.subject this)) eqn:Hsubject.
    + destruct (strict_eq _ uid) eqn:Hsame; [|discriminate].
      intros _. exists v, valid, uid. auto 10.
    + intros _. exists v, valid, uid. auto 10.
Qed.

End InstanceCoverage.

(* ===================================================================== *)
(** ** Further properties: the bundled build                              *)
(* ===================================================================== *)

Section BundleFacts.
Context `{Host}.

(** One trigger call of the bundle as a step. *)
Lemma bundle_step_trigger (w : Bundle.world) (t n : Z) :
  Bundle.step w (Bundle.trigger t n)
  = match Bundle.cooldown_elapsed (Bundle.this w) t with
    | Normal true =>
        let r := Bundle.idTokenRequest (Bundle.accept (Bundle.this w) t) n
                   (Bundle.sessionStorage w) in
        ({| Bundle.this := Bundle.accept (Bundle.this w) t;
            Bundle.document_location_origin := Bundle.document_location_origin w;
            Bundle.sessionStorage := fst r;
            Bundle.document_body := Bundle.document_body w;
            Bundle.message_listener := Bundle.message_listener w |},
         snd r)
    | Normal false => (w, [])
    | Throw e => (w, [Bundle.UncaughtError e])
    end.
Proof.
  unfold Bundle.step, Bundle.triggerSessionCheck.
  destruct (Bundle.cooldown_elapsed (Bundle.this w) t) as [[|]|e]; cbn [bind];
    [|reflexivity|reflexivity].
  destruct (Bundle.idTokenRequest _ _ _). reflexivity.
Qed.

(** What one step of the bundle does to sessionStorage: nothing, or it
    records the nonce of the request it sends. *)
Lemma bundle_step_storage (w : Bundle.world) (ev : Bundle.event) :
  let w' := fst (Bundle.step w ev) in
  Bundle.responseType (Bundle.this w') = Bundle.responseType (Bundle.this w)
  /\ ((Bundle.sessionStorage w' = Bundle.sessionStorage w
       /\ (Main.equals "id_token" (Bundle.responseType (Bundle.this w)) = true ->
           forall url, ~ In (Bundle.Navigate url) (snd (Bundle.step w ev))))
      \/ exists t n,
           ev = Bundle.trigger t n
           /\ Bundle.sessionStorage w'
              = <["sessionCheckNonce" := pretty n]> (Bundle.sessionStorage w)).
Proof.
  cbv zeta. destruct ev as [t n| |o d].
  - rewrite bundle_step_trigger.
    destruct (Bundle.cooldown_elapsed (Bundle.this w) t) as [[|]|e].
    + cbn [fst snd Bundle.this Bundle.sessionStorage Bundle.accept Bundle.responseType].
      split; [reflexivity|]. unfold Bundle.idTokenRequest.
      cbn [Bundle.accept Bundle.iframe Bundle.responseType].
      destruct (Bundle.iframe (Bundle.this w)).
      * cbv zeta. destruct (Main.equals "id_token" _).
        -- right. exists t, n. split; reflexivity.
        -- left. split; [reflexivity|]. discriminate.
      * left. split; [reflexivity|]. intros _ url [[=]|[]].
    + split; [reflexivity|]. left. split; [reflexivity|]. intros _ url [].
    + split; [reflexivity|]. left. split; [reflexivity|]. intros _ url [[=]|[]].
  - split; [reflexivity|]. left. split; [reflexivity|]. intros _ url [].
  - cbn [Bundle.step]. destruct (Bundle.message_listener w); cbn [fst snd];
      (split; [reflexivity|]); left; (split; [reflexivity|]); intros _ url.
    + destruct (Bundle.eventListenerHandle _ _ _ _) as [calls|e].
      * intros Hin. apply List.in_map_iff in Hin as (c & [=] & _).
      * intros [[=]|[]].
    + intros [].
Qed.

(** Every item but the nonce is kept by every step. *)
Lemma bundle_run_storage (events : list Bundle.event) (w : Bundle.world) (k : string) :
  k <> "sessionCheckNonce" ->
  Bundle.sessionStorage (fst (Bundle.run w events)) !! k = Bundle.sessionStorage w !! k.
Proof.
  intros Hk. revert w. induction events as [|ev rest IH]; intros w; [reflexivity|].
  simpl. pose proof (bundle_step_storage w ev) as Hstep. cbv zeta in Hstep.
  destruct (Bundle.step w ev) as [w' effects]. simpl in *.
  specialize (IH w'). destruct (Bundle.run w' rest) as [w'' effects']. simpl in *.
  rewrite IH. destruct Hstep as [_ [[-> _] | (t & n & _ & ->)]]; [reflexivity|].
  apply lookup_insert_ne. congruence.
Qed.

(** No step of the bundle removes an item. *)
Lemma bundle_run_keeps (events : list Bundle.event) (w : Bundle.world) (k : string) :
  is_Some (Bundle.sessionStorage w !! k) ->
  is_Some (Bundle.sessionStorage (fst (Bundle.run w events)) !! k).
Proof.
  revert w. induction events as [|ev rest IH]; intros w Hk; [exact Hk|].
  simpl. pose proof (bundle_step_storage w ev) as Hstep. cbv zeta in Hstep.
  destruct (Bundle.step w ev) as [w' effects]. simpl in *.
  specialize (IH w'). destruct (Bundle.run w' rest) as [w'' effects']. simpl in *.
  apply IH. destruct Hstep as [_ [[-> _] | (t & n & _ & ->)]]; [exact Hk|].
  rewrite lookup_insert. case_decide; [eexists; reflexivity | exact Hk].
Qed.

(** Once an id_token instance of the bundle has sent a request, the item
    [sessionCheckNonce] is the decimal text of a nonce it drew. *)
Lemma bundle_run_nonce (events : list Bundle.event) (w : Bundle.world) :
  Main.equals "id_token" (Bundle.responseType (Bundle.this w)) = true ->
  let final := Bundle.sessionStorage (fst (Bundle.run w events)) in
  (final = Bundle.sessionStorage w
   /\ forall url, ~ In (Bundle.Navigate url) (snd (Bundle.run w events)))
  \/ exists t n, In (Bundle.trigger t n) events
                 /\ final !! "sessionCheckNonce" = Some (pretty n).
Proof.
  cbv zeta. revert w. induction events as [|ev rest IH]; intros w Htype.
  - left. split; [reflexivity|]. intros url [].
  - simpl. pose proof (bundle_step_storage w ev) as Hstep. cbv zeta in Hstep.
    destruct (Bundle.step w ev) as [w' effects]. simpl in *.
    destruct Hstep as [Hsame Hstep]. specialize (IH w').
    rewrite Hsame in IH. specialize (IH Htype).
    destruct (Bundle.run w' rest) as [w'' effects']. simpl in *.
    destruct IH as [[Hkept Hnone] | (t & n & Hin & Hstored)].
    + rewrite Hkept. destruct Hstep as [[-> Hquiet] | (t & n & -> & ->)].
      * left. split; [reflexivity|]. intros url Hin.
        apply List.in_app_or in Hin as [Hin|Hin]; [|exact (Hnone url Hin)].
        exact (Hquiet Htype url Hin).
      * right. exists t, n. split; [now left|]. apply lookup_insert_eq.
    + right. exists t, n. split; [now right | exact Hstored].
Qed.

(** X20. The bundled build and the verifier shipped with it do not agree
    on the nonce item. The bundle stores the bare nonce under
    [sessionCheckNonce]; the verifier parses the item and reads the entry
    of the response's state from it, which on a number is [undefined].
    So once an id_token instance of the bundle has sent a request, every
    id_token response whose claims decode, with a nonce that converts to
    a number, is classified [nonce_mismatch], even when the nonce is the
    one recorded. [JSON.parse] is taken to read the decimal text of a
    drawn nonce as that number. *)
Theorem X20_bundle_nonce_never_matches (config : config.t) (origin : string)
    (storage : gmap string string) (events : list Bundle.event)
    (r : Bundle.world * list Bundle.effect) (url : string)
    (w : Frame.window) (id_token : string) (new_claims nonce : value) (n : number) :
  Bundle.session config origin storage events = Normal r ->
  Main.or_default (config.responseType config) "id_token" = Some "id_token" ->
  In (Bundle.Navigate url) (snd r) ->
  (forall t drawn, In (Bundle.trigger t drawn) events ->
                   JSON_parse (pretty drawn) = Normal (VNum (Int drawn))) ->
  Frame.parent_window_origin w = Frame.window_origin w ->
  Frame.response_params w !! "id_token" = Some id_token ->
  Frame.getIdTokenClaims id_token = Normal new_claims ->
  Get new_claims "nonce" = Normal nonce ->
  Number nonce = Normal n ->
  Frame.sessionCheckFrame w (Bundle.sessionStorage (fst r))
  = Frame.postMessage
      (VObj [("message", VStr "sessionCheckFailed");
             ("reason", VStr "nonce_mismatch");
             ("authId", opt_value (Frame.response_params w !! "state"))])
      (Frame.window_origin w).
Proof.
  unfold Bundle.session.
  destruct (Bundle.SessionCheck config origin storage) as [w0|e] eqn:Hnew; [|discriminate].
  cbn [bind]. intros [= <-] Htype Hsent Hparse Horigin Htoken Hclaims Hnonce Hnumber.
  assert (Hid : Main.equals "id_token" (Bundle.responseType (Bundle.this w0)) = true).
  { unfold Bundle.SessionCheck in Hnew. cbv zeta in Hnew.
    destruct (_ && _); [discriminate|]. injection Hnew as <-.
    cbn [Bundle.this Bundle.responseType]. rewrite Htype. reflexivity. }
  destruct (bundle_run_nonce events w0 Hid) as [[_ Hnone] | (t & drawn & Hin & Hstored)];
    [destruct (Hnone url Hsent)|].
  rewrite (sessionCheckFrame_id_token w _ id_token Horigin Htoken).
  unfold Frame.check_id_token. rewrite Hclaims. cbn [bind].
  rewrite Hstored. cbn [JSON_parse_item]. rewrite (Hparse t drawn Hin).
  unfold Get_computed. cbn [bind Get].
  (* whether the state names a member of [Number.prototype] or not, the
     value read is not a number *)
  destruct (inherited _ _); rewrite Hnonce; cbn [bind]; rewrite Hnumber; reflexivity.
Qed.

(** X21. The bundled build never removes anything from sessionStorage,
    not even in [destroy()]: after every session the subject item holds
    the configured subject (or, without one, what it held before), and
    every item other than the subject and the nonce is untouched. *)
Theorem X21_bundle_keeps_the_subject (config : config.t) (origin : string)
    (storage : gmap string string) (events : list Bundle.event)
    (r : Bundle.world * list Bundle.effect) :
  Bundle.session config origin storage events = Normal r ->
  Bundle.sessionStorage (fst r) !! "sessionCheckSubject"
  = (if truthy (config.subject config) then config.subject config
     else storage !! "sessionCheckSubject")
  /\ (forall k, k <> "sessionCheckSubject" -> k <> "sessionCheckNonce" ->
                Bundle.sessionStorage (fst r) !! k = storage !! k)
  /\ (forall k, is_Some (storage !! k) ->
                is_Some (Bundle.sessionStorage (fst r) !! k)).
Proof.
  unfold Bundle.session.
  destruct (Bundle.SessionCheck config origin storage) as [w0|e] eqn:Hnew; [|discriminate].
  cbn [bind]. intros [= <-].
  unfold Bundle.SessionCheck in Hnew. cbv zeta in Hnew.
  destruct (_ && _); [discriminate|]. injection Hnew as <-.
  split; [|split].
  - rewrite bundle_run_storage by discriminate. cbn [Bundle.sessionStorage].
    destruct (config.subject config) as [subject|]; [|reflexivity].
    destruct (truthy (Some subject)); [|reflexivity]. apply lookup_insert_eq.
  - intros k Hsubject Hnonce. rewrite bundle_run_storage by exact Hnonce.
    cbn [Bundle.sessionStorage]. destruct (truthy (config.subject config)); [|reflexivity].
    apply lookup_insert_ne. congruence.
  - intros k Hk. apply bundle_run_keeps. cbn [Bundle.sessionStorage].
    destruct (truthy (config.subject config)); [|exact Hk].
    rewrite lookup_insert. case_decide; [eexists; reflexivity | exact Hk].
Qed.


Lemma bundle_step_listener (w : Bundle.world) (ev : Bundle.event) :
  (Bundle.message_listener w = true ->
   Bundle.has_eventListenerHandle (Bundle.this w) = true) ->
  Bundle.message_listener (fst (Bundle.step w ev)) = true ->
  Bundle.has_eventListenerHandle (Bundle.this (fst (Bundle.step w ev))) = true.
Proof.
  intros Hw. destruct ev as [t n| |o d].
  - rewrite bundle_step_trigger.
    destruct (Bundle.cooldown_elapsed (Bundle.this w) t) as [[|]|e]; exact Hw.
  - cbn. destruct (Bundle.has_eventListenerHandle (Bundle.this w)); [discriminate|].
    intros Hl. specialize (Hw Hl). discriminate.
  - cbn [Bundle.step]. destruct (Bundle.message_listener w) eqn:E; cbn [fst];
      rewrite E; exact Hw.
Qed.

Lemma bundle_run_listener (events : list Bundle.event) (w : Bundle.world) :
  (Bundle.message_listener w = true ->
   Bundle.has_eventListenerHandle (Bundle.this w) = true) ->
  Bundle.message_listener (fst (Bundle.run w events)) = true ->
  Bundle.has_eventListenerHandle (Bundle.this (fst (Bundle.run w events))) = true.
Proof.
  revert w. induction events as [|ev rest IH]; intros w Hw; [exact Hw|].
  simpl. pose proof (bundle_step_listener w ev Hw) as Hstep.
  destruct (Bundle.step w ev) as [w' effects]. simpl in *.
  specialize (IH w' Hstep). destruct (Bundle.run w' rest) as [w'' effects']. exact IH.
Qed.

Lemma bundle_step_released (w : Bundle.world) (ev : Bundle.event) :
  Bundle.iframe (Bundle.this w) = None ->
  Bundle.message_listener w = false ->
  (Bundle.iframe (Bundle.this (fst (Bundle.step w ev))) = None
   /\ Bundle.message_listener (fst (Bundle.step w ev)) = false)
  /\ Forall after_destroy (snd (Bundle.step w ev)).
Proof.
  intros Hframe Hlistener. destruct ev as [t n| |o d].
  - rewrite bundle_step_trigger.
    destruct (Bundle.cooldown_elapsed (Bundle.this w) t) as [[|]|e].
    + unfold Bundle.idTokenRequest. cbn [Bundle.accept Bundle.iframe].
      rewrite Hframe. cbn. repeat split; auto. repeat constructor.
    + repeat split; auto.
    + repeat split; auto. repeat constructor.
  - cbn. rewrite Hlistener.
    destruct (Bundle.has_eventListenerHandle (Bundle.this w)); repeat split; auto.
  - cbn [Bundle.step]. rewrite Hlistener. repeat split; auto.
Qed.

Lemma bundle_run_released (events : list Bundle.event) (w : Bundle.world) :
  Bundle.iframe (Bundle.this w) = None ->
  Bundle.message_listener w = false ->
  Forall after_destroy (snd (Bundle.run w events)).
Proof.
  revert w. induction events as [|ev rest IH]; intros w Hframe Hlistener; [constructor|].
  simpl. destruct (bundle_step_released w ev Hframe Hlistener) as [[Hf Hl] Hstep].
  destruct (Bundle.step w ev) as [w' effects]. simpl in *.
  specialize (IH w' Hf Hl). destruct (Bundle.run w' rest) as [w'' effects']. simpl in *.
  apply Forall_app. split; assumption.
Qed.

(** X22. After [destroy()] an instance of the bundled build sends no
    request and calls no handler: a trigger call that passes the gate
    only logs the warning that the instance has been destroyed. *)
Theorem X22_bundle_warns_after_destroy (config : config.t) (origin : string)
    (storage : gmap string string) (w : Bundle.world)
    (before after : list Bundle.event) :
  Bundle.SessionCheck config origin storage = Normal w ->
  Forall after_destroy
    (snd (Bundle.run (Bundle.destroy (fst (Bundle.run w before))) after)).
Proof.
  intros Hnew. apply bundle_run_released; [reflexivity|].
  cbn [Bundle.destroy Bundle.message_listener].
  destruct (Bundle.has_eventListenerHandle _) eqn:Hhandle; [reflexivity|].
  destruct (Bundle.message_listener _) eqn:Hlistener; [|reflexivity].
  rewrite bundle_run_listener in Hhandle; [discriminate| |exact Hlistener].
  unfold Bundle.SessionCheck in Hnew. cbv zeta in Hnew.
  destruct (_ && _); [discriminate|]. injection Hnew as <-. reflexivity.
Qed.

End BundleFacts.

(* ===================================================================== *)
(** ** The properties at concrete inputs                                  *)
(* ===================================================================== *)

Import Examples Reference.

(** The example worlds are what the constructor builds. *)
Example SessionCheck_standards :
  Main.SessionCheck (standards "Primary") rp_origin ∅ = Normal primary.
Proof. vm_compute. reflexivity. Qed.

Example SessionCheck_trusted :
  Main.SessionCheck trusted rp_origin ∅ = Normal trusted_world.
Proof. vm_compute. reflexivity. Qed.

(** The storage after one dispatch with nonce 42. *)
Example dispatch_writes_keyed_nonce :
  (let* r := session (standards "Primary") rp_origin ∅ [Main.trigger 1000 42] in
   Normal (Main.sessionStorage (fst r)))
  = Normal dispatched_storage.
Proof. vm_compute. reflexivity. Qed.

(** Claims {sub: alice, nonce: 42} against ledger nonce 42 and subject
    alice: success, carrying the full claim set. *)
Example alice_response_succeeds :
  Frame.sessionCheckFrame alice_response ledger
  = Frame.postMessage
      (Frame.succeeded_with_claims (VObj alice_claims) (Some "Primary")) rp_origin.
Proof. vm_compute. reflexivity. Qed.

(** No parameters at all: success without claims. *)
Example empty_response_succeeds :
  Frame.sessionCheckFrame (redirect EmptyString EmptyString) ∅
  = Frame.postMessage (Frame.succeeded_message None) rp_origin.
Proof. vm_compute. reflexivity. Qed.

(** Trusted-token mode, validation response {valid: false}: failure
    [invalid_session]. *)
Example invalid_response_reported :
  (let* r := session trusted rp_origin ∅ [Main.trigger 1000 0; Main.load invalid_response] in
   Normal (summary r))
  = Normal ([Main.invalidSessionHandler (VStr "invalid_session") 1], 1%nat, 1).
Proof. vm_compute. reflexivity. Qed.

(** Two valid responses to two dispatched validations: the first-success
    handler runs after the first one only. *)
Example valid_responses_report_first_success :
  (let* r := session trusted rp_origin ∅
               [Main.trigger 1000 0; Main.load valid_response;
                Main.trigger 9000 0; Main.load valid_response] in
   Normal (summary r))
  = Normal ([Main.initialSessionSuccessHandler], 2%nat, 2).
Proof. vm_compute. reflexivity. Qed.

(** With [cooldownPeriod: 0] the window is five seconds long. *)
Example zero_cooldown_uses_five_seconds :
  (let* r := session zero_cooldown rp_origin ∅
               [Main.trigger 1000 11; Main.trigger 6000 22; Main.trigger 6001 33] in
   Normal (summary r))
  = Normal ([], 2%nat, 2).
Proof. vm_compute. reflexivity. Qed.

(** A validation response of null escapes classification: reading [valid]
    throws outside the [try], no handler is invoked. *)
Example null_response_escapes_classification :
  Main.validationHandler (Main.this trusted_world) "null"
  = Throw (TypeError "Cannot read properties of null")
  /\ (let* r := session trusted rp_origin ∅ [Main.trigger 1000 0; Main.load "null"] in
      Normal (summary r))
     = Normal ([], 1%nat, 1).
Proof. split; vm_compute; reflexivity. Qed.

(** C1, as amended, at the example of the specification: subject alice
    recorded, claims {sub: bob, nonce: 42}, ledger nonce 42: failure
    [subject_mismatch]. *)
Lemma C1_witness :
  Frame.sessionCheckFrame bob_response ledger
  = Frame.postMessage
      (VObj [("message", VStr "sessionCheckFailed");
             ("reason", VStr "subject_mismatch");
             ("authId", VStr "Primary")])
      rp_origin.
Proof.
  assert (Hclassified :=
            C1_id_token_response_classification (H := host) bob_response ledger
              bob_token bob_claims (VObj [("Primary", VNum (Int 42))])
              (VNum (Int 42)) (Int 42)
              ltac:(reflexivity) ltac:(vm_compute; reflexivity)
              ltac:(vm_compute; reflexivity) ltac:(vm_compute; reflexivity)
              ltac:(vm_compute; reflexivity) ltac:(vm_compute; reflexivity)
              ltac:(reflexivity)).
  destruct Hclassified as [_ Hmatch].
  assert (Hsubject :=
            Hmatch ltac:(reflexivity) (VObj [("Primary", VStr "alice")]) (VStr "alice")
              ltac:(vm_compute; reflexivity) ltac:(vm_compute; reflexivity)
              ltac:(vm_compute; reflexivity)).
  destruct Hsubject as [Hmismatch _].
  refine (eq_trans (Hmismatch ltac:(reflexivity) ltac:(reflexivity)) _).
  vm_compute. reflexivity.
Defined.

(** C1 as stated fails. The nonce claim [true] differs from the recorded
    nonce 1 and the response is still relayed as a success, the test
    being [recorded !== Number(nonce)]. For the state [toString] no
    subject is recorded, and the response is reported as
    [subject_mismatch], the read [subjectMap[state]] finding the built-in
    method. And on the storage sessionCheck.js leaves after it dispatched
    nonce 42, the example of the specification is not classified at all:
    the verifier throws. *)
Lemma C1_counterexample :
  Frame.sessionCheckFrame coerced_response coerced_ledger
  = Frame.postMessage
      (VObj [("message", VStr "sessionCheckSucceeded");
             ("claims", VObj [("sub", VStr "alice"); ("nonce", VBool true)]);
             ("authId", VStr "Primary")])
      rp_origin
  /\ Frame.sessionCheckFrame member_response member_ledger
     = Frame.postMessage
         (VObj [("message", VStr "sessionCheckFailed");
                ("reason", VStr "subject_mismatch");
                ("authId", VStr "toString")])
         rp_origin
  /\ Frame.sessionCheckFrame bob_response dispatched_storage
     = Frame.Uncaught (TypeError "Cannot read properties of null").
Proof. repeat split; vm_compute; reflexivity. Qed.



(** C3, where the code departs from it. Two instances with check ids A
    and B listen at the same origin and have each dispatched one request.
    The redirect of A's request comes back with an error of the identity
    provider; the verifier relays it without the check id, although the
    redirect carries state=A (the other branches relay it); delivered to
    the window, the message invokes the failure handler of B as well as
    that of A. *)
Theorem C3_error_relay_reaches_every_instance :
  (let* a := session (standards "A") rp_origin ∅ [Main.trigger 1000 7] in
   let* b := session (standards "B") rp_origin ∅ [Main.trigger 1000 8] in
   match Frame.sessionCheckFrame
           (redirect "#error=login_required&state=A" EmptyString)
           (Main.sessionStorage (fst a)) with
   | Frame.postMessage data targetOrigin =>
       Normal (data,
               Main.calls (snd (Main.step (fst b) (Main.message targetOrigin data))),
               Main.calls (snd (Main.step (fst a) (Main.message targetOrigin data))))
   | Frame.NotSameOrigin | Frame.Uncaught _ => Normal (VUndefined, [], [])
   end)
  = Normal (Frame.error_message "login_required",
            [Main.invalidSessionHandler (VStr "login_required") 1],
            [Main.invalidSessionHandler (VStr "login_required") 1]).
Proof. vm_compute. reflexivity. Qed.

(** C4, where the code departs from it. In trusted-token mode a validation
    response that arrives after [destroy()] still invokes the failure
    handler: no handler ran before the teardown, one runs after it. *)
Theorem C4_trusted_token_handler_runs_after_destroy :
  (let* r := session trusted rp_origin ∅ [Main.trigger 1000 0; Main.teardown] in
   Normal (Main.calls (snd r),
           Main.calls (snd (Main.run (fst r) [Main.load invalid_response]))))
  = Normal ([], [Main.invalidSessionHandler (VStr "invalid_session") 1]).
Proof. vm_compute. reflexivity. Qed.

(** C5, as amended, at a standards-based configuration with responseType
    none and no idToken, at a trusted-token configuration, and at a
    standards-based one with responseType id_token and no idToken. *)
Lemma C5_witness :
  (exists text : string,
      Main.SessionCheck none_without_hint rp_origin ∅ = Throw (ThrownString text))
  /\ (exists w : Main.world, Main.SessionCheck trusted rp_origin ∅ = Normal w)
  /\ (exists w : Main.world,
      Main.SessionCheck (standards "Primary") rp_origin ∅ = Normal w).
Proof.
  split; [|split].
  - apply (proj1 (C5_none_requires_idToken (H := host))); reflexivity.
  - apply (proj1 (proj2 (C5_none_requires_idToken (H := host)))); reflexivity.
  - apply (proj2 (proj2 (C5_none_requires_idToken (H := host)))); reflexivity.
Defined.

(** C5 as stated fails: with a session token supplied, responseType none
    and no idToken, construction succeeds. *)
Lemma C5_counterexample :
  config.responseType trusted = Some "none"
  /\ config.idToken trusted = None
  /\ Main.SessionCheck trusted rp_origin ∅ = Normal trusted_world.
Proof. repeat split; vm_compute; reflexivity. Qed.

(** C6, where the code departs from it. The first-success handler is keyed
    on the counter being 1, not on a flag: when the first check fails and
    the second succeeds, the claims of the first success are delivered but
    the first-success handler never runs; and two success messages
    received while the counter is 1 run it twice. *)
Theorem C6_first_success_handler_keyed_on_counter :
  (let* r := session (standards "Primary") rp_origin ∅
               [Main.trigger 1000 7;
                Main.message rp_origin (Frame.error_message "temporarily_unavailable");
                Main.trigger 7000 8;
                Main.message rp_origin
                  (Frame.succeeded_with_claims (VObj alice_claims) (Some "Primary"))] in
   Normal (Main.calls (snd r)))
  = Normal [Main.invalidSessionHandler (VStr "temporarily_unavailable") 1;
            Main.sessionClaimsHandler (VObj alice_claims) 2]
  /\ (let* r := session (standards "Primary") rp_origin ∅
                  [Main.trigger 1000 7;
                   Main.message rp_origin
                     (Frame.succeeded_with_claims (VObj alice_claims) (Some "Primary"));
                   Main.message rp_origin
                     (Frame.succeeded_with_claims (VObj alice_claims) (Some "Primary"))] in
      Normal (Main.calls (snd r)))
     = Normal [Main.sessionClaimsHandler (VObj alice_claims) 1;
               Main.initialSessionSuccessHandler;
               Main.sessionClaimsHandler (VObj alice_claims) 1;
               Main.initialSessionSuccessHandler].
Proof. split; vm_compute; reflexivity. Qed.

(** C7, as amended, at the validation response {valid: false}. *)
Lemma C7_witness :
  Main.validationHandler (Main.this trusted_world) invalid_response
  = Normal [Main.invalidSessionHandler (VStr "invalid_session") 0].
Proof.
  destruct (proj2 (C7_validation_response_classification (H := host)
                     (Main.this trusted_world) invalid_response eq_refl)
              (VObj [("valid", VBool false)]))
    as (valid & uid & Hvalid & _ & Hinvalid & _).
  - vm_compute. reflexivity.
  - discriminate.
  - discriminate.
  - apply Hinvalid. injection Hvalid as <-. reflexivity.
Defined.

(** C7 as stated fails: for the response {valid: "false", uid: "alice"},
    whose validity flag is not [true], no failure is reported and the
    first-success handler runs; the response [], which is not the
    expected payload, is reported as [invalid_session], not with a reason
    describing a parse error; and for the response null, which is not the
    expected payload either, no handler is invoked at all: reading
    [valid] throws outside the [try]. *)
Lemma C7_counterexample :
  (let* r := session trusted rp_origin ∅
               [Main.trigger 1000 0; Main.load text_false_response] in
   Normal (summary r))
  = Normal ([Main.initialSessionSuccessHandler], 1%nat, 1)
  /\ (let* r := session trusted rp_origin ∅ [Main.trigger 1000 0; Main.load "[]"] in
      Normal (summary r))
     = Normal ([Main.invalidSessionHandler (VStr "invalid_session") 1], 1%nat, 1)
  /\ (let* r := session trusted rp_origin ∅ [Main.trigger 1000 0; Main.load "null"] in
      Normal (snd r))
     = Normal [Main.XHR "POST"
                 "https://am.example.com/am/json/realms/root/sessions?_action=validate"
                 [("iPlanetDirectoryPro", "AQIC5wM2LY4Sfcx");
                  ("Accept-API-Version", "resource=2.1, protocol=1.0")];
               Main.UncaughtError (TypeError "Cannot read properties of null")].
Proof. repeat split; vm_compute; reflexivity. Qed.

(** C8, as amended, at the fresh standards-based instance. *)
Lemma C8_witness :
  Main.request_check_count (Main.this primary) = 0
  /\ match Main.triggerSessionCheck primary 1000 11 with
     | Normal (w', effects) =>
         exists elapsed : bool,
           Main.cooldown_elapsed (Main.this primary) 1000 = Normal elapsed
           /\ Main.request_check_count (Main.this w')
              = Main.request_check_count (Main.this primary) + (if elapsed then 1 else 0)
     | Throw _ => False
     end
  /\ Main.request_check_count (Main.this (fst (Main.step primary Main.teardown)))
     = Main.request_check_count (Main.this primary).
Proof.
  split; [|split].
  - apply (proj1 (C8_counter_counts_accepted_triggers (H := host))
             (standards "Primary") rp_origin ∅ primary).
    vm_compute. reflexivity.
  - destruct (Main.triggerSessionCheck primary 1000 11) as [[w' effects]|e] eqn:Hrun.
    + destruct (proj1 (proj2 (C8_counter_counts_accepted_triggers (H := host)))
                  primary w' 1000 11 effects Hrun) as (elapsed & Hgate & Hcount & _).
      exists elapsed. split; assumption.
    + vm_compute in Hrun. discriminate.
  - apply (proj2 (proj2 (C8_counter_counts_accepted_triggers (H := host)))).
    discriminate.
Defined.

(** C8 as stated fails: a trigger call made after teardown dispatches
    nothing and still raises the counter to 1. *)
Lemma C8_counterexample :
  (let* r := session (standards "Primary") rp_origin ∅
               [Main.teardown; Main.trigger 1000 7] in
   Normal (summary r))
  = Normal ([], 0%nat, 1).
Proof. vm_compute. reflexivity. Qed.

(** C9. A response whose state has no ledger entry must be classified as
    a failure, never crash. On the storage sessionCheck.js leaves after a
    dispatch there is no item [sessionCheckNonce] at all, and the verifier
    throws on an id_token response before it posts anything; where the
    item is there and only the entry of the state is missing, the same
    response is classified [nonce_mismatch]. *)
Theorem C9_missing_ledger_item_crashes_the_verifier :
  (let* r := session (standards "Primary") rp_origin ∅ [Main.trigger 1000 42] in
   Normal (Frame.sessionCheckFrame alice_response (Main.sessionStorage (fst r))))
  = Normal (Frame.Uncaught (TypeError "Cannot read properties of null"))
  /\ Frame.sessionCheckFrame alice_response other_ledger
     = Frame.postMessage
         (VObj [("message", VStr "sessionCheckFailed");
                ("reason", VStr "nonce_mismatch");
                ("authId", VStr "Primary")])
         rp_origin.
Proof. split; vm_compute; reflexivity. Qed.



(* ===================================================================== *)
(** ** The further properties at concrete inputs                          *)
(* ===================================================================== *)

Lemma occurrences_In (c : Ascii.ascii) (s : string) :
  (0 < occurrences c s)%nat -> In c (chars s).
Proof.
  induction s as [|x rest IH]; simpl; [lia|].
  destruct (Ascii.eqb_spec x c) as [->|]; [now left|]. intros Hrest. right.
  apply IH. exact Hrest.
Qed.

Lemma sextets_rejects (c : Ascii.ascii) (s : list Ascii.ascii) :
  sextet c = None -> In c s -> sextets s = None.
Proof.
  intros Hc. induction s as [|x rest IH]; simpl; [intros []|].
  intros [->|Hin]; [rewrite Hc; reflexivity|].
  rewrite (IH Hin). destruct (sextet x); reflexivity.
Qed.

Lemma unpad_keeps (c : Ascii.ascii) (s : list Ascii.ascii) :
  Ascii.eqb c "=" = false -> In c s -> In c (unpad s).
Proof.
  intros Hc Hin. unfold unpad.
  destruct (Nat.eqb _ 0); [|exact Hin].
  destruct (List.rev s) as [|a [|b rest]] eqn:Hrev; try exact Hin.
  assert (Hin' : In c (a :: b :: rest)) by (rewrite <- Hrev; apply List.in_rev in Hin; exact Hin).
  destruct (Ascii.eqb_spec a "=") as [->|]; [|exact Hin].
  destruct Hin' as [<-|Hin']; [rewrite Ascii.eqb_refl in Hc; discriminate|].
  destruct (Ascii.eqb_spec b "=") as [->|].
  - destruct Hin' as [<-|Hin']; [rewrite Ascii.eqb_refl in Hc; discriminate|].
    apply -> List.in_rev. exact Hin'.
  - apply -> (List.in_rev (b :: rest)). exact Hin'.
Qed.

(** The reference decoder rejects every text with a character outside the
    base64 alphabet. *)
Lemma decode_base64_rejects (c : Ascii.ascii) (text : string) :
  sextet c = None -> is_ws c = false -> Ascii.eqb c "=" = false ->
  (0 < occurrences c text)%nat ->
  decode_base64 text
  = Throw (Error "InvalidCharacterError"
             "The string to be decoded is not correctly encoded.").
Proof.
  intros Hsextet Hws Hpad Hocc. unfold decode_base64. cbv zeta.
  rewrite (sextets_rejects c); [reflexivity|exact Hsextet|].
  apply unpad_keeps; [exact Hpad|]. apply List.filter_In. split.
  - apply occurrences_In, Hocc.
  - rewrite Hws. reflexivity.
Qed.

(** The reference [atob] rejects the URL-safe characters, as the
    browsers' does. *)
Lemma atob_rejects_url_alphabet (text : string) :
  (0 < occurrences "-" text + occurrences "_" text)%nat ->
  exists e, atob text = Throw e.
Proof.
  intros Hocc. eexists.
  destruct (occurrences "-" text) eqn:Hdash.
  - apply (decode_base64_rejects "_"); try reflexivity. simpl in Hocc. exact Hocc.
  - apply (decode_base64_rejects "-"); try reflexivity. rewrite Hdash. lia.
Qed.

(** X1 at the state parameter of the example response. *)
Lemma X1_witness : "state" <> EmptyString /\ "Primary" <> EmptyString.
Proof.
  exact (X1_response_params_entries_are_nonempty bob_response
           "state" "Primary" ltac:(vm_compute; reflexivity)).
Defined.

(** X2: state=Other in the query string wins over state=Primary in the
    fragment. *)
Lemma X2_witness : Frame.response_params overridden_response !! "state" = Some "Other".
Proof.
  apply X2_query_string_overrides_fragment;
    first [discriminate | reflexivity].
Defined.

(** X3 at an id_token without a dot. *)
Lemma X3_witness :
  Frame.sessionCheckFrame malformed_response ledger
  = Frame.Uncaught (TypeError "Cannot read properties of undefined").
Proof.
  apply (X3_id_token_without_dot_throws (H := host) malformed_response ledger "e30");
    vm_compute; reflexivity.
Defined.

(** X4 at the claims segment a-b-c, with the reference decoder. *)
Lemma X4_witness :
  exists e, Frame.sessionCheckFrame dashed_response ledger = Frame.Uncaught e.
Proof.
  apply (X4_only_the_first_dash_and_underscore_are_translated (H := host)
           dashed_response ledger "e30.a-b-c.c2ln" "a-b-c").
  - exact atob_rejects_url_alphabet.
  - reflexivity.
  - vm_compute. reflexivity.
  - vm_compute. reflexivity.
  - left. vm_compute. lia.
Defined.

(** X5 at the example response, relayed as [subject_mismatch]. *)
Lemma X5_witness :
  Frame.parent_window_origin bob_response = Frame.window_origin bob_response
  /\ rp_origin = Frame.window_origin bob_response.
Proof.
  destruct (X5_posted_messages (H := host) bob_response ledger
              (Frame.failed_message "subject_mismatch" (Some "Primary")) rp_origin
              ltac:(vm_compute; reflexivity)) as (Hsame & Htarget & _).
  split; assumption.
Defined.

(** X6 at the example response that is relayed with its claims. *)
Lemma X6_witness :
  exists recorded n,
    Get (VObj [("Primary", VNum (Int 42))]) "Primary" = Normal recorded
    /\ strict_eq recorded (VNum n) = true.
Proof.
  destruct (X6_relayed_claims_passed_both_checks (H := host) alice_response ledger
              (VObj alice_claims) (Some "Primary") rp_origin
              ltac:(vm_compute; reflexivity))
    as (id_token & nonceMap & recorded & nonce & subjectMap & expected & n
        & _ & _ & _ & Hledger & Hrecorded & _ & _ & Hmatch & _).
  vm_compute in Hledger. injection Hledger as <-.
  exists recorded, n. split; assumption.
Defined.

(** X7: a request and [destroy()] leave the key [theme] alone. *)
Lemma X7_witness :
  Main.sessionStorage
    (fst (Main.run primary [Main.trigger 1000 42; Main.teardown])) !! "theme"
  = (∅ : gmap string string) !! "theme".
Proof.
  apply (X7_storage_footprint (H := host) (standards "Primary") rp_origin ∅
           [Main.trigger 1000 42; Main.teardown]
           (Main.run primary [Main.trigger 1000 42; Main.teardown]));
    first [discriminate | vm_compute; reflexivity].
Defined.

(** X8: the instance Primary leaves the entries of Other alone. *)
Lemma X8_witness :
  Main.sessionStorage (fst (Main.run primary [Main.trigger 1000 42; Main.teardown]))
    !! "sessionCheckSubject-Other"
  = (∅ : gmap string string) !! "sessionCheckSubject-Other"
  /\ Main.sessionStorage (fst (Main.run primary [Main.trigger 1000 42; Main.teardown]))
       !! "sessionCheckNonce-Other"
     = (∅ : gmap string string) !! "sessionCheckNonce-Other".
Proof.
  apply (X8_other_check_ids_are_left_alone (H := host) (standards "Primary") rp_origin ∅
           [Main.trigger 1000 42; Main.teardown]
           (Main.run primary [Main.trigger 1000 42; Main.teardown]) "Other");
    first [discriminate | vm_compute; reflexivity].
Defined.

(** X9 after one request and [destroy()]. *)
Lemma X9_witness :
  Main.sessionStorage (fst (Main.run primary [Main.trigger 1000 42; Main.teardown]))
  = delete "sessionCheckNonce-Primary" (delete "sessionCheckSubject-Primary" ∅)
  /\ Main.document_body (fst (Main.run primary [Main.trigger 1000 42; Main.teardown]))
     = []
  /\ Main.message_listener
       (fst (Main.run primary [Main.trigger 1000 42; Main.teardown])) = false
  /\ Main.iframe
       (Main.this (fst (Main.run primary [Main.trigger 1000 42; Main.teardown])))
     = None.
Proof.
  apply (X9_destroy_cleans_up (H := host) (standards "Primary") rp_origin ∅
           [Main.trigger 1000 42; Main.teardown]
           (Main.run primary [Main.trigger 1000 42; Main.teardown]));
    [vm_compute; reflexivity | right; left; reflexivity].
Defined.

(** X10 at three trigger calls on a fresh standards-based instance. *)
Lemma X10_witness :
  Z.of_nat (length (requests (snd (Main.run primary checks))))
  = Main.request_check_count (Main.this (fst (Main.run primary checks))).
Proof.
  apply (X10_counter_bounds_the_requests (H := host) (standards "Primary") rp_origin ∅
           checks (Main.run primary checks));
    [vm_compute; reflexivity | right; intros [[=]|[[=]|[[=]|[]]]]].
Defined.


(** X12 at one validation call and its response. *)
Lemma X12_witness :
  Forall (fun x =>
            x = Main.XHR "POST"
                  "https://am.example.com/am/json/realms/root/sessions?_action=validate"
                  [("iPlanetDirectoryPro", "AQIC5wM2LY4Sfcx");
                   ("Accept-API-Version", "resource=2.1, protocol=1.0")])
         (requests (snd (Main.run trusted_world
                           [Main.trigger 1000 0; Main.load invalid_response])))
  /\ Main.document_body
       (fst (Main.run trusted_world [Main.trigger 1000 0; Main.load invalid_response]))
     = []
  /\ Main.message_listener
       (fst (Main.run trusted_world [Main.trigger 1000 0; Main.load invalid_response]))
     = false.
Proof.
  apply (X12_trusted_requests (H := host) trusted rp_origin ∅
           [Main.trigger 1000 0; Main.load invalid_response]
           (Main.run trusted_world [Main.trigger 1000 0; Main.load invalid_response]));
    [vm_compute; reflexivity | reflexivity].
Defined.

(** X13 at three trigger calls in the [none] flow. *)
Lemma X13_witness :
  Forall (fun x =>
            x = Main.Navigate
                  ("https://op.example.com/authorize?prompt=none&client_id=myRP"
                   +:+ "&response_type=none"
                   +:+ "&redirect_uri=https://rp.example.com/sessionCheck.html"
                   +:+ "&state=Primary&id_token_hint=" +:+ alice_token))
         (requests (snd (Main.run none_flow_world checks))).
Proof.
  destruct (X13_none_flow_requests (H := host) none_flow rp_origin ∅ checks
              (Main.run none_flow_world checks)) as (_ & Hrequests & _);
    [vm_compute; reflexivity | reflexivity | reflexivity |].
  exact Hrequests.
Defined.

(** X14 at three trigger calls in the [id_token] flow. *)
Lemma X14_witness :
  match last (requests (snd (Main.run primary checks))) with
  | Some x =>
      exists nonce : Z,
        Main.sessionStorage (fst (Main.run primary checks)) !! "sessionCheckNonce-Primary"
        = Some (pretty nonce)
  | None => True
  end.
Proof.
  pose proof (X14_id_token_flow_requests (H := host) (standards "Primary") rp_origin ∅
                checks (Main.run primary checks)) as Hlast.
  cbv zeta in Hlast.
  destruct (last (requests (snd (Main.run primary checks)))) as [x|]; [|exact I].
  destruct Hlast as (t & nonce & _ & _ & Hstored);
    [vm_compute; reflexivity | reflexivity | reflexivity
    | intros [[=]|[[=]|[[=]|[]]]] |].
  exists nonce. exact Hstored.
Defined.

(** X15: the verifier on the storage sessionCheck.js leaves. *)
Lemma X15_witness :
  Frame.sessionCheckFrame alice_response
    (Main.sessionStorage (fst (Main.run primary checks)))
  = Frame.Uncaught (TypeError "Cannot read properties of null").
Proof.
  destruct (X15_verifier_ledgers_are_never_written (H := host)
              (standards "Primary") rp_origin ∅ checks (Main.run primary checks))
    as [_ Hthrows]; [vm_compute; reflexivity|].
  apply (Hthrows alice_response alice_token (VObj alice_claims));
    vm_compute; reflexivity.
Defined.

(** X16 at a relayed [login_required] for the instance Primary. *)
Lemma X16_witness :
  exists e_authId : value,
    Get (Frame.failed_message "login_required" (Some "Primary")) "authId"
    = Normal e_authId
    /\ Get (Frame.failed_message "login_required" (Some "Primary")) "reason"
       = Normal (VStr "login_required").
Proof.
  destruct (X16_handler_calls_of_a_message (H := host) primary rp_origin
              (Frame.failed_message "login_required" (Some "Primary"))
              (Main.invalidSessionHandler (VStr "login_required") 0))
    as (e_authId & _ & _ & Hid & _ & _ & Hreason & _).
  - vm_compute. left. reflexivity.
  - exists e_authId. split; assumption.
Defined.

(** X18 at the example response relayed as [subject_mismatch]. *)
Lemma X18_witness :
  snd (Main.step primary
         (Main.message rp_origin
            (Frame.failed_message "subject_mismatch" (Some "Primary"))))
  = [Main.Handler (Main.invalidSessionHandler (VStr "subject_mismatch") 0)].
Proof.
  assert (Hposted : Frame.sessionCheckFrame bob_response ledger
                    = Frame.postMessage
                        (Frame.failed_message "subject_mismatch" (Some "Primary"))
                        rp_origin) by (vm_compute; reflexivity).
  assert (Hstate : Frame.response_params bob_response !! "state"
                   = Main.authId (Main.this primary)) by (vm_compute; reflexivity).
  destruct (X18_verdicts_reach_the_handlers (H := host) bob_response ledger primary
              (Frame.failed_message "subject_mismatch" (Some "Primary")) rp_origin
              Hposted eq_refl eq_refl Hstate)
    as [(reason & _ & Hreason & Hcalls) | (claims & Hmessage & _)].
  - injection Hreason as <-. exact Hcalls.
  - discriminate.
Defined.

(** X17 at a message with data [null] from another origin. *)
Lemma X17_witness :
  exists e, Main.eventListenerHandle (Main.this primary) rp_origin
              "https://evil.example.com" VNull = Throw e.
Proof.
  apply (proj1 (X17_listener_throws_on_null_data_only (Main.this primary)
                  rp_origin "https://evil.example.com" VNull)).
  right. reflexivity.
Defined.

(** X19 at the response text null. *)
Lemma X19_witness :
  JSON_parse "null" = Normal VNull \/ JSON_parse "null" = Normal VUndefined.
Proof.
  apply (proj1 (X19_validation_handler_exceptions (H := host) (Main.this trusted_world)
                  "null") eq_refl (TypeError "Cannot read properties of null")).
  vm_compute. reflexivity.
Defined.

(** The example world of the bundle is what its constructor builds. *)
Example SessionCheck_bundled :
  Bundle.SessionCheck (standards "Primary") rp_origin ∅ = Normal bundled.
Proof. vm_compute. reflexivity. Qed.

(** X20: the bundle recorded nonce 42, the response carries nonce 42, and
    the verifier still reports [nonce_mismatch]. *)
Lemma X20_witness :
  Frame.sessionCheckFrame alice_response
    (Bundle.sessionStorage (fst (Bundle.run bundled [Bundle.trigger 1000 42])))
  = Frame.postMessage (Frame.failed_message "nonce_mismatch" (Some "Primary")) rp_origin.
Proof.
  refine (eq_trans
            (X20_bundle_nonce_never_matches (H := host) (standards "Primary") rp_origin
               ∅ [Bundle.trigger 1000 42] (Bundle.run bundled [Bundle.trigger 1000 42])
               "https://op.example.com/authorize?prompt=none&client_id=myRP&response_type=id_token&redirect_uri=https://rp.example.com/sessionCheck.html&nonce=42&scope=openid"
               alice_response alice_token (VObj alice_claims) (VNum (Int 42)) (Int 42)
               _ _ _ _ _ _ _ _ _) _);
    try (vm_compute; reflexivity).
  - vm_compute. left. reflexivity.
  - intros t drawn [[= <- <-]|[]]. vm_compute. reflexivity.
Defined.

(** X21: the subject item survives a request and [destroy()]. *)
Lemma X21_witness :
  Bundle.sessionStorage
    (fst (Bundle.run bundled [Bundle.trigger 1000 42; Bundle.teardown]))
    !! "sessionCheckSubject"
  = Some "alice".
Proof.
  destruct (X21_bundle_keeps_the_subject (H := host) (standards "Primary") rp_origin ∅
              [Bundle.trigger 1000 42; Bundle.teardown]
              (Bundle.run bundled [Bundle.trigger 1000 42; Bundle.teardown]))
    as (Hsubject & _ & _); [vm_compute; reflexivity|].
  exact Hsubject.
Defined.

(** X22: a trigger call after [destroy()]. *)
Lemma X22_witness :
  Forall after_destroy
    (snd (Bundle.run (Bundle.destroy (fst (Bundle.run bundled [Bundle.trigger 1000 42])))
            [Bundle.trigger 9000 43])).
Proof.
  apply (X22_bundle_warns_after_destroy (H := host) (standards "Primary") rp_origin ∅).
  vm_compute. reflexivity.
Defined.
